(** * nsyshid: device registry, handle pool and transfer dispatch

    A shallow embedding of [src/Cafe/OS/libs/nsyshid/nsyshid.cpp].

    - Machine integers are [Z] with the conversions written out
      ([uint32], [sint32], [size_t]).
    - Guest memory is a byte map; [uint32be] fields are four bytes,
      most significant first.
    - The globals of the namespace ([deviceList], [HIDClientList],
      [_lastGeneratedHidHandle], [HIDPool], [HIDPoolIndexQueue] and the
      static flag of [InitHIDPoolIndexQueue]) form the record [State],
      threaded through a small state monad that can fault (null
      dereference, failed assertion, a write longer than any object)
      and that logs, in program order,
      every effect that leaves the file: mutex acquire and release,
      callbacks into the guest, device capability calls, threads.
    - [Device] is an abstract class in the source; its virtual methods
      are the type class [DeviceImpl].
    - Each function runs as one uninterrupted step.  A callback into
      the guest ([PPCCoreCallback]) and a queued one
      ([coreinitAsyncCallback_add]) are logged with their arguments;
      what the guest code then does is not part of the model.  A
      detached worker thread is logged with its [Task]; [run_task]
      is what the worker does when it runs.  Log messages are left
      out. *)

From Stdlib Require Import ZArith List Bool Arith Lia Sorted Permutation.
Import ListNotations.
Local Open Scope Z_scope.

(** ** Machine integers *)

Definition uint32 (z : Z) : Z := z mod 2 ^ 32.
Definition sint32 (z : Z) : Z := (z + 2 ^ 31) mod 2 ^ 32 - 2 ^ 31.
Definition size_t (z : Z) : Z := z mod 2 ^ 64.

(** The largest size an object can have. *)
Definition PTRDIFF_MAX : Z := 2 ^ 63 - 1.

Definition MPTR := Z.
Definition MPTR_NULL : MPTR := 0.

(** ** Guest memory *)

Definition Memory := Z -> Z.

Definition store_uint8 (m : Memory) (a v : Z) : Memory :=
  fun x => if x =? a then v mod 256 else m x.

(** [memset(p, v, n)] with [n] already converted to [size_t]. *)
Definition memset (m : Memory) (p v n : Z) : Memory :=
  fun x => if (p <=? x) && (x <? p + n) then v mod 256 else m x.

Definition load_uint32be (m : Memory) (a : Z) : Z :=
  m a * 2 ^ 24 + m (a + 1) * 2 ^ 16 + m (a + 2) * 2 ^ 8 + m (a + 3).

Definition store_uint32be (m : Memory) (a v : Z) : Memory :=
  store_uint8
    (store_uint8
       (store_uint8 (store_uint8 m a (v / 2 ^ 24)) (a + 1) (v / 2 ^ 16))
       (a + 2) (v / 2 ^ 8))
    (a + 3) v.

(** ** Devices *)

Inductive ReadResult := ReadResult_Success | ReadResult_Error | ReadResult_ErrorTimeout.
Inductive WriteResult := WriteResult_Success | WriteResult_Error | WriteResult_ErrorTimeout.

Record ReportMessage := mkReportMessage {
  reportType : Z;
  reportId : Z;
  reportData : MPTR;
  reportLength : Z
}.

(** The virtual methods of [Device] (declared in Backend.h), over the
    private state [B] of an implementation.  A method that takes a
    buffer receives guest memory and hands it back; [dev_Read] and
    [dev_Write] also return the final [bytesRead] / [bytesWritten] of
    the message they were given. *)
Class DeviceImpl (B : Type) := {
  dev_IsOpened : B -> bool;
  dev_Open : B -> bool * B;
  dev_Close : B -> B;
  dev_GetDescriptor :
    B -> forall (descType descIndex lang : Z) (output : MPTR) (outputMaxLength : Z),
    Memory -> bool * Memory * B;
  dev_SetIdle : B -> forall (ifIndex reportId duration : Z), bool * B;
  dev_SetProtocol : B -> forall (ifIndex protocol : Z), bool * B;
  dev_SetReport : B -> ReportMessage -> Memory -> bool * B;
  dev_Read :
    B -> forall (data : MPTR) (length : Z), Memory -> ReadResult * Z * Memory * B;
  dev_Write :
    B -> forall (data : MPTR) (length : Z), Memory -> WriteResult * Z * B
}.

(** A [shared_ptr<Device>] is compared by address; [DevRef] is that
    address. *)
Definition DevRef := nat.

(** [HID_t*]: a slot of [HIDPool] by its index, or [nullptr]. *)
Definition HIDPtr := option nat.

Record HID_t := mkHID {
  handle : Z;
  ukn04 : Z;
  vendorId : Z;
  productId : Z;
  ifIndex : Z;
  subClass : Z;
  protocol : Z;
  paddingGuessed0F : Z;
  maxPacketSizeRX : Z;
  maxPacketSizeTX : Z
}.

Definition HID_set_handle (h : HID_t) (v : Z) : HID_t :=
  mkHID v (ukn04 h) (vendorId h) (productId h) (ifIndex h) (subClass h)
        (protocol h) (paddingGuessed0F h) (maxPacketSizeRX h) (maxPacketSizeTX h).

Definition HID_MAX_NUM_DEVICES : nat := 128.
Definition HID_CALLBACK_DETACH : Z := 0.
Definition HID_CALLBACK_ATTACH : Z := 1.

(** The bodies of the detached worker threads, with their arguments. *)
Inductive Task :=
| Task_hidGetDescriptorAsync
    (device : DevRef) (descType descIndex lang : Z) (output : MPTR)
    (outputMaxLength : Z) (callbackFuncMPTR callbackParamMPTR : MPTR)
| Task_hidSetIdleAsync
    (device : DevRef) (ifIndex reportId duration : Z)
    (callbackFuncMPTR callbackParamMPTR : MPTR)
| Task_hidSetProtocolAsync
    (device : DevRef) (ifIndex protocol : Z)
    (callbackFuncMPTR callbackParamMPTR : MPTR)
| Task_hidSetReportAsync
    (device : DevRef) (reportType reportId : Z) (data : MPTR) (length : Z)
    (callbackFuncMPTR callbackParamMPTR : MPTR)
| Task_hidReadAsync
    (device : DevRef) (data : MPTR) (maxLength : Z)
    (callbackFuncMPTR callbackParamMPTR : MPTR)
| Task_hidWriteAsync
    (device : DevRef) (data : MPTR) (maxLength : Z)
    (callbackFuncMPTR callbackParamMPTR : MPTR).

(** An argument handed to a guest callback: a 32-bit word, or the
    guest address of a pool slot ([memory_getVirtualOffsetFromPointer]
    of a [HID_t*]). *)
Inductive Arg :=
| Word (w : Z)
| HIDAddr (p : HIDPtr).

(** What the code does to the world outside its own globals. *)
Inductive Event :=
| EvLock                                            (* hidMutex acquired *)
| EvUnlock                                          (* hidMutex released *)
| EvPPCCoreCallback (func : MPTR) (args : list Arg) (* guest callback run inline *)
| EvAsyncCallbackAdd (func : MPTR) (args : list Arg)(* coreinitAsyncCallback_add *)
| EvDeviceOpen (d : DevRef)
| EvDeviceClose (d : DevRef)
| EvDeviceGetDescriptor (d : DevRef)
| EvDeviceSetIdle (d : DevRef)
| EvDeviceSetProtocol (d : DevRef)
| EvDeviceSetReport (d : DevRef)
| EvDeviceRead (d : DevRef)
| EvDeviceWrite (d : DevRef)
| EvThreadDetach (t : Task)                         (* std::thread(...).detach() *)
| EvAsyncLaunch                                     (* std::async(std::launch::async, ...) *)
| EvOSInitEvent
| EvOSSignalEvent
| EvOSWaitEvent.

Section Nsyshid.

Context {B : Type} `{DeviceImpl B}.

Record Device := mkDevice {
  m_hid : HIDPtr;
  m_vendorId : Z;
  m_productId : Z;
  m_interfaceIndex : Z;
  m_interfaceSubClass : Z;
  m_protocol : Z;
  m_maxPacketSizeRX : Z;
  m_maxPacketSizeTX : Z;
  m_impl : B
}.

Definition Device_set_hid (d : Device) (p : HIDPtr) : Device :=
  mkDevice p (m_vendorId d) (m_productId d) (m_interfaceIndex d)
           (m_interfaceSubClass d) (m_protocol d) (m_maxPacketSizeRX d)
           (m_maxPacketSizeTX d) (m_impl d).

Definition Device_set_impl (d : Device) (b : B) : Device :=
  mkDevice (m_hid d) (m_vendorId d) (m_productId d) (m_interfaceIndex d)
           (m_interfaceSubClass d) (m_protocol d) (m_maxPacketSizeRX d)
           (m_maxPacketSizeTX d) b.

(** [Device::Device]: no slot, packet sizes 0x20. *)
Definition Device_new (vendorId productId interfaceIndex interfaceSubClass protocol : Z)
           (impl : B) : Device :=
  mkDevice None vendorId productId interfaceIndex interfaceSubClass protocol
           32 32 impl.

(** ** The globals *)

Record State := mkState {
  deviceList : list DevRef;
  HIDClientList : list MPTR;
  _lastGeneratedHidHandle : Z;
  HIDPoolIndexQueueInitialized : bool;
  HIDPoolIndexQueue : list nat;
  HIDPool : nat -> HID_t;
  objects : DevRef -> Device;      (* the Device objects behind the shared_ptrs *)
  mem : Memory
}.

Definition set_deviceList (l : list DevRef) (s : State) : State :=
  mkState l (HIDClientList s) (_lastGeneratedHidHandle s)
          (HIDPoolIndexQueueInitialized s) (HIDPoolIndexQueue s) (HIDPool s)
          (objects s) (mem s).

Definition set_HIDClientList (l : list MPTR) (s : State) : State :=
  mkState (deviceList s) l (_lastGeneratedHidHandle s)
          (HIDPoolIndexQueueInitialized s) (HIDPoolIndexQueue s) (HIDPool s)
          (objects s) (mem s).

Definition set_lastGeneratedHidHandle (v : Z) (s : State) : State :=
  mkState (deviceList s) (HIDClientList s) v
          (HIDPoolIndexQueueInitialized s) (HIDPoolIndexQueue s) (HIDPool s)
          (objects s) (mem s).

Definition set_HIDPoolIndexQueueInitialized (b : bool) (s : State) : State :=
  mkState (deviceList s) (HIDClientList s) (_lastGeneratedHidHandle s)
          b (HIDPoolIndexQueue s) (HIDPool s) (objects s) (mem s).

Definition set_HIDPoolIndexQueue (q : list nat) (s : State) : State :=
  mkState (deviceList s) (HIDClientList s) (_lastGeneratedHidHandle s)
          (HIDPoolIndexQueueInitialized s) q (HIDPool s) (objects s) (mem s).

Definition set_HIDPool (p : nat -> HID_t) (s : State) : State :=
  mkState (deviceList s) (HIDClientList s) (_lastGeneratedHidHandle s)
          (HIDPoolIndexQueueInitialized s) (HIDPoolIndexQueue s) p
          (objects s) (mem s).

Definition set_objects (o : DevRef -> Device) (s : State) : State :=
  mkState (deviceList s) (HIDClientList s) (_lastGeneratedHidHandle s)
          (HIDPoolIndexQueueInitialized s) (HIDPoolIndexQueue s) (HIDPool s)
          o (mem s).

Definition set_mem (m : Memory) (s : State) : State :=
  mkState (deviceList s) (HIDClientList s) (_lastGeneratedHidHandle s)
          (HIDPoolIndexQueueInitialized s) (HIDPoolIndexQueue s) (HIDPool s)
          (objects s) m.

Definition update {A : Type} (f : nat -> A) (i : nat) (v : A) : nat -> A :=
  fun j => if Nat.eqb j i then v else f j.

(** The state at program start: empty lists, counter 1, index queue
    not yet filled.  The pool's storage, the Device objects the
    backends will construct and guest memory are whatever they are. *)
Definition initial_state (pool : nat -> HID_t) (objs : DevRef -> Device)
           (m : Memory) : State :=
  mkState [] [] 1 false [] pool objs m.

(** ** The monad: state, fault, effect log *)

Definition M (A : Type) : Type := State -> option (A * State * list Event).

Definition ret {A : Type} (a : A) : M A := fun s => Some (a, s, []).

Definition bind {A C : Type} (m : M A) (k : A -> M C) : M C :=
  fun s =>
    match m s with
    | None => None
    | Some (a, s1, t1) =>
        match k a s1 with
        | None => None
        | Some (c, s2, t2) => Some (c, s2, t1 ++ t2)
        end
    end.

Definition fault {A : Type} : M A := fun _ => None.
Definition get : M State := fun s => Some (s, s, []).
Definition modify (f : State -> State) : M unit := fun s => Some (tt, f s, []).
Definition emit (e : Event) : M unit := fun s => Some (tt, s, [e]).

Local Notation "x <- c1 ;; c2" := (bind c1 (fun x => c2))
  (at level 61, c1 at next level, right associativity).
Local Notation "c1 ;; c2" := (bind c1 (fun _ => c2))
  (at level 61, right associativity).
Local Notation "' pat <- c1 ;; c2" :=
  (bind c1 (fun x => match x with pat => c2 end))
  (at level 61, pat pattern, c1 at next level, right associativity).

Fixpoint for_each {A : Type} (l : list A) (body : A -> M unit) : M unit :=
  match l with
  | [] => ret tt
  | x :: l' => body x ;; for_each l' body
  end.

(** A call [memset(p, v, n)] on guest memory.  The size parameter
    is a [size_t], so a negative [sint32] length arrives as at least
    2^64 - 2^31.  No object holds more than [PTRDIFF_MAX] bytes: a
    call with a larger size writes past the end of every buffer and
    the process dies in it. *)
Definition call_memset (p v n : Z) : M unit :=
  if PTRDIFF_MAX <? size_t n then fault
  else modify (fun s => set_mem (memset (mem s) p v (size_t n)) s).

(** [std::lock_guard<std::recursive_mutex> lock(hidMutex)] over the
    rest of its scope. *)
Definition lock_guard {A : Type} (body : M A) : M A :=
  emit EvLock ;; r <- body ;; emit EvUnlock ;; ret r.

(** ** Device objects *)

Definition Device_IsOpened (d : DevRef) : M bool :=
  s <- get ;; ret (dev_IsOpened (m_impl (objects s d))).

Definition store_impl (d : DevRef) (b : B) : M unit :=
  modify (fun s => set_objects (update (objects s) d (Device_set_impl (objects s d) b)) s).

Definition Device_Open (d : DevRef) : M bool :=
  s <- get ;;
  emit (EvDeviceOpen d) ;;
  let '(ok, b) := dev_Open (m_impl (objects s d)) in
  store_impl d b ;; ret ok.

Definition Device_Close (d : DevRef) : M unit :=
  s <- get ;;
  emit (EvDeviceClose d) ;;
  store_impl d (dev_Close (m_impl (objects s d))).

Definition Device_GetDescriptor (d : DevRef) (descType descIndex lang : Z)
           (output : MPTR) (outputMaxLength : Z) : M bool :=
  s <- get ;;
  emit (EvDeviceGetDescriptor d) ;;
  let '(ok, m, b) :=
    dev_GetDescriptor (m_impl (objects s d)) descType descIndex lang output
                      outputMaxLength (mem s) in
  modify (set_mem m) ;; store_impl d b ;; ret ok.

Definition Device_SetIdle (d : DevRef) (ifIndex reportId duration : Z) : M bool :=
  s <- get ;;
  emit (EvDeviceSetIdle d) ;;
  let '(ok, b) := dev_SetIdle (m_impl (objects s d)) ifIndex reportId duration in
  store_impl d b ;; ret ok.

Definition Device_SetProtocol (d : DevRef) (ifIndex protocol : Z) : M bool :=
  s <- get ;;
  emit (EvDeviceSetProtocol d) ;;
  let '(ok, b) := dev_SetProtocol (m_impl (objects s d)) ifIndex protocol in
  store_impl d b ;; ret ok.

Definition Device_SetReport (d : DevRef) (message : ReportMessage) : M bool :=
  s <- get ;;
  emit (EvDeviceSetReport d) ;;
  let '(ok, b) := dev_SetReport (m_impl (objects s d)) message (mem s) in
  store_impl d b ;; ret ok.

(** [device->Read(&message)]: the result and the message's final
    [bytesRead]. *)
Definition Device_Read (d : DevRef) (data : MPTR) (length : Z) : M (ReadResult * Z) :=
  s <- get ;;
  emit (EvDeviceRead d) ;;
  let '(r, n, m, b) := dev_Read (m_impl (objects s d)) data length (mem s) in
  modify (set_mem m) ;; store_impl d b ;; ret (r, n).

Definition Device_Write (d : DevRef) (data : MPTR) (length : Z) : M (WriteResult * Z) :=
  s <- get ;;
  emit (EvDeviceWrite d) ;;
  let '(r, n, b) := dev_Write (m_impl (objects s d)) data length (mem s) in
  store_impl d b ;; ret (r, n).

(** [device->m_hid->handle]; a null [m_hid] faults. *)
Definition Device_hid_handle (d : DevRef) : M Z :=
  s <- get ;;
  match m_hid (objects s d) with
  | None => fault
  | Some i => ret (handle (HIDPool s i))
  end.

Definition Device_AssignHID (d : DevRef) (hid : HIDPtr) : M unit :=
  s <- get ;;
  let dev := objects s d in
  match hid with
  | Some i =>
      modify (set_HIDPool
                (update (HIDPool s) i
                   (mkHID (handle (HIDPool s i)) 287454020 (m_vendorId dev)
                          (m_productId dev) (m_interfaceIndex dev)
                          (m_interfaceSubClass dev) (m_protocol dev) 0
                          (m_maxPacketSizeRX dev) (m_maxPacketSizeTX dev))))
  | None => ret tt
  end ;;
  modify (fun s' => set_objects (update (objects s') d (Device_set_hid (objects s' d) hid)) s').

(** ** Client list *)

Definition AttachClientToList (hidClient : MPTR) : M unit :=
  lock_guard (modify (fun s => set_HIDClientList (hidClient :: HIDClientList s) s)).

(** [std::list::remove]: every element equal to [hidClient]. *)
Definition DetachClientFromList (hidClient : MPTR) : M unit :=
  lock_guard
    (modify (fun s =>
       set_HIDClientList
         (filter (fun c => negb (c =? hidClient)) (HIDClientList s)) s)).

(** ** Lookup by handle *)

(** The loop of [GetDeviceByHandle]: the first device whose slot
    carries [handle]. *)
Fixpoint find_handle (l : list DevRef) (h : Z) : M (option DevRef) :=
  match l with
  | [] => ret None
  | d :: l' =>
      dh <- Device_hid_handle d ;;
      if dh =? h then ret (Some d) else find_handle l' h
  end.

Definition GetDeviceByHandle (h : Z) (openIfClosed : bool) : M (option DevRef) :=
  device <- lock_guard (s <- get ;; find_handle (deviceList s) h) ;;
  match device with
  | Some d =>
      opened <- Device_IsOpened d ;;
      if openIfClosed && negb opened then
        ok <- Device_Open d ;;
        if negb ok then ret None else ret (Some d)
      else ret (Some d)
  | None => ret None
  end.

(** ** Handle generator and pool *)

Definition GenerateHIDHandle : M Z :=
  lock_guard
    (modify (fun s => set_lastGeneratedHidHandle
                        (uint32 (_lastGeneratedHidHandle s + 1)) s) ;;
     s <- get ;; ret (_lastGeneratedHidHandle s)).

Definition InitHIDPoolIndexQueue : M unit :=
  lock_guard
    (s <- get ;;
     if HIDPoolIndexQueueInitialized s then ret tt
     else
       modify (set_HIDPoolIndexQueueInitialized true) ;;
       for_each (seq 0 HID_MAX_NUM_DEVICES)
         (fun i => modify (fun s' => set_HIDPoolIndexQueue (HIDPoolIndexQueue s' ++ [i]) s'))).

Definition GetFreeHID : M HIDPtr :=
  lock_guard
    (InitHIDPoolIndexQueue ;;
     s <- get ;;
     match HIDPoolIndexQueue s with
     | [] => ret None
     | index :: rest =>
         modify (set_HIDPoolIndexQueue rest) ;; ret (Some index)
     end).

(** [cemu_assert_error()] on a null pointer is a fault. *)
Definition ReleaseHID (device : HIDPtr) : M unit :=
  match device with
  | None => fault
  | Some index =>
      lock_guard
        (InitHIDPoolIndexQueue ;;
         modify (fun s => set_HIDPoolIndexQueue (HIDPoolIndexQueue s ++ [index]) s))
  end.

(** ** Attach / detach notifications *)

Definition callbackFunc (hidClient : MPTR) : M MPTR :=
  s <- get ;; ret (load_uint32be (mem s) hidClient).

Definition Device_hid (d : DevRef) : M HIDPtr :=
  s <- get ;; ret (m_hid (objects s d)).

Definition DoAttachCallback (hidClient : MPTR) (device : DevRef) : M unit :=
  f <- callbackFunc hidClient ;;
  p <- Device_hid device ;;
  emit (EvPPCCoreCallback f [Word hidClient; HIDAddr p; Word HID_CALLBACK_ATTACH]).

Definition DoAttachCallbackAsync (hidClient : MPTR) (device : DevRef) : M unit :=
  f <- callbackFunc hidClient ;;
  p <- Device_hid device ;;
  emit (EvAsyncCallbackAdd f [Word hidClient; HIDAddr p; Word HID_CALLBACK_ATTACH]).

Definition DoDetachCallback (hidClient : MPTR) (device : DevRef) : M unit :=
  f <- callbackFunc hidClient ;;
  p <- Device_hid device ;;
  emit (EvPPCCoreCallback f [Word hidClient; HIDAddr p; Word HID_CALLBACK_DETACH]).

Definition DoDetachCallbackAsync (hidClient : MPTR) (device : DevRef) : M unit :=
  f <- callbackFunc hidClient ;;
  p <- Device_hid device ;;
  emit (EvAsyncCallbackAdd f [Word hidClient; HIDAddr p; Word HID_CALLBACK_DETACH]).

(** ** Device registry *)

Definition is_attached (device : DevRef) (l : list DevRef) : bool :=
  existsb (Nat.eqb device) l.

(** [deviceList.erase(it)] at the first occurrence. *)
Fixpoint erase_first (device : DevRef) (l : list DevRef) : list DevRef :=
  match l with
  | [] => []
  | d :: l' => if Nat.eqb device d then l' else d :: erase_first device l'
  end.

Definition AttachDevice (device : DevRef) : M bool :=
  lock_guard
    (s <- get ;;
     if is_attached device (deviceList s) then ret false
     else
       hidDevice <- GetFreeHID ;;
       match hidDevice with
       | None => ret false
       | Some i =>
           h <- GenerateHIDHandle ;;
           modify (fun s' => set_HIDPool
                               (update (HIDPool s') i (HID_set_handle (HIDPool s' i) h)) s') ;;
           Device_AssignHID device hidDevice ;;
           modify (fun s' => set_deviceList (deviceList s' ++ [device]) s') ;;
           s' <- get ;;
           for_each (HIDClientList s') (fun client => DoAttachCallbackAsync client device) ;;
           ret true
       end).

Definition DetachDevice (device : DevRef) : M unit :=
  found <-
    lock_guard
      (s <- get ;;
       if negb (is_attached device (deviceList s)) then ret false
       else
         modify (fun s' => set_deviceList (erase_first device (deviceList s')) s') ;;
         s' <- get ;;
         for_each (HIDClientList s') (fun client => DoDetachCallbackAsync client device) ;;
         p <- Device_hid device ;;
         ReleaseHID p ;;
         ret true) ;;
  if found then Device_Close device else ret tt.

Fixpoint FindDeviceById_in (objs : DevRef -> Device) (l : list DevRef)
         (vendorId productId : Z) : option DevRef :=
  match l with
  | [] => None
  | d :: l' =>
      if (m_vendorId (objs d) =? vendorId) && (m_productId (objs d) =? productId)
      then Some d
      else FindDeviceById_in objs l' vendorId productId
  end.

Definition FindDeviceById (vendorId productId : Z) : M (option DevRef) :=
  lock_guard
    (s <- get ;; ret (FindDeviceById_in (objects s) (deviceList s) vendorId productId)).

(** ** Client registration *)

(** Both return through [osLib_returnFromFunction(hCPU, 0)]; the
    function-scope lock is released after that. *)
Definition export_HIDAddClient (hidClient callbackFuncMPTR : MPTR) : M Z :=
  modify (fun s => set_mem (store_uint32be (mem s) hidClient callbackFuncMPTR) s) ;;
  lock_guard
    (AttachClientToList hidClient ;;
     s <- get ;;
     for_each (deviceList s) (fun device => DoAttachCallback hidClient device) ;;
     ret 0).

Definition export_HIDDelClient (hidClient : MPTR) : M Z :=
  lock_guard
    (DetachClientFromList hidClient ;;
     s <- get ;;
     for_each (deviceList s) (fun device => DoDetachCallback hidClient device) ;;
     ret 0).

(** ** Transfer dispatch *)

(** [memory_getVirtualOffsetFromPointer] on a pointer obtained from a
    guest address gives that address back.  [errorCode] is received
    as [uint32], [length] as [sint32]. *)
Definition DoHIDTransferCallback (callbackFuncMPTR callbackParamMPTR : MPTR)
           (hidHandle errorCode : Z) (buffer : MPTR) (length : Z) : M unit :=
  emit (EvAsyncCallbackAdd callbackFuncMPTR
          [Word hidHandle; Word (uint32 errorCode); Word buffer;
           Word (sint32 length); Word callbackParamMPTR]).

Definition _hidGetDescriptorAsync (device : DevRef) (descType descIndex lang : Z)
           (output : MPTR) (outputMaxLength : Z)
           (callbackFuncMPTR callbackParamMPTR : MPTR) : M unit :=
  ok <- Device_GetDescriptor device descType descIndex lang output outputMaxLength ;;
  h <- Device_hid_handle device ;;
  if ok then DoHIDTransferCallback callbackFuncMPTR callbackParamMPTR h 0 0 0
  else DoHIDTransferCallback callbackFuncMPTR callbackParamMPTR h (-1) 0 0.

Definition export_HIDGetDescriptor (hidHandle descType descIndex lang : Z)
           (output : MPTR) (outputMaxLength : Z) (cbFuncMPTR cbParamMPTR : MPTR) : M Z :=
  device <- GetDeviceByHandle hidHandle true ;;
  match device with
  | None => ret (-1)
  | Some d =>
      if cbFuncMPTR =? MPTR_NULL then
        ok <- Device_GetDescriptor d descType descIndex lang output outputMaxLength ;;
        if ok then ret (sint32 outputMaxLength) else ret (-1)
      else
        emit (EvThreadDetach
                (Task_hidGetDescriptorAsync d descType descIndex lang output
                   outputMaxLength cbFuncMPTR cbParamMPTR)) ;;
        ret 0
  end.

Definition _hidSetIdleAsync (device : DevRef) (ifIndex reportId duration : Z)
           (callbackFuncMPTR callbackParamMPTR : MPTR) : M unit :=
  ok <- Device_SetIdle device ifIndex reportId duration ;;
  h <- Device_hid_handle device ;;
  if ok then DoHIDTransferCallback callbackFuncMPTR callbackParamMPTR h 0 0 0
  else DoHIDTransferCallback callbackFuncMPTR callbackParamMPTR h (-1) 0 0.

Definition export_HIDSetIdle (hidHandle ifIndex reportId duration : Z)
           (callbackFuncMPTR callbackParamMPTR : MPTR) : M Z :=
  device <- GetDeviceByHandle hidHandle true ;;
  match device with
  | None => ret (-1)
  | Some d =>
      if callbackFuncMPTR =? MPTR_NULL then
        ok <- Device_SetIdle d ifIndex reportId duration ;;
        if ok then ret 0 else ret (-1)
      else
        emit (EvThreadDetach
                (Task_hidSetIdleAsync d ifIndex reportId duration
                   callbackFuncMPTR callbackParamMPTR)) ;;
        ret 0
  end.

Definition _hidSetProtocolAsync (device : DevRef) (ifIndex protocol : Z)
           (callbackFuncMPTR callbackParamMPTR : MPTR) : M unit :=
  ok <- Device_SetProtocol device ifIndex protocol ;;
  h <- Device_hid_handle device ;;
  if ok then DoHIDTransferCallback callbackFuncMPTR callbackParamMPTR h 0 0 0
  else DoHIDTransferCallback callbackFuncMPTR callbackParamMPTR h (-1) 0 0.

Definition export_HIDSetProtocol (hidHandle ifIndex protocol : Z)
           (callbackFuncMPTR callbackParamMPTR : MPTR) : M Z :=
  device <- GetDeviceByHandle hidHandle true ;;
  match device with
  | None => ret (-1)
  | Some d =>
      if callbackFuncMPTR =? MPTR_NULL then
        ok <- Device_SetProtocol d ifIndex protocol ;;
        if ok then ret 0 else ret (-1)
      else
        emit (EvThreadDetach
                (Task_hidSetProtocolAsync d ifIndex protocol
                   callbackFuncMPTR callbackParamMPTR)) ;;
        ret 0
  end.

Definition _hidSetReportAsync (device : DevRef) (reportType reportId : Z)
           (data : MPTR) (length : Z)
           (callbackFuncMPTR callbackParamMPTR : MPTR) : M unit :=
  ok <- Device_SetReport device (mkReportMessage reportType reportId data length) ;;
  h <- Device_hid_handle device ;;
  if ok then DoHIDTransferCallback callbackFuncMPTR callbackParamMPTR h 0 data length
  else DoHIDTransferCallback callbackFuncMPTR callbackParamMPTR h (-1) data length.

Definition _hidSetReportSync (device : DevRef) (reportType reportId : Z)
           (data : MPTR) (length : Z) : M Z :=
  ok <- Device_SetReport device (mkReportMessage reportType reportId data length) ;;
  emit EvOSSignalEvent ;;
  ret (if ok then sint32 length else 0).

(** The synchronous branch hands the work to [std::async], waits on
    the event the worker signals, and takes the worker's result. *)
Definition export_HIDSetReport (hidHandle reportType reportId : Z) (data : MPTR)
           (dataLength : Z) (callbackFuncMPTR callbackParamMPTR : MPTR) : M Z :=
  device <- GetDeviceByHandle hidHandle true ;;
  match device with
  | None => ret (-1)
  | Some d =>
      if callbackFuncMPTR =? MPTR_NULL then
        emit EvOSInitEvent ;;
        emit EvAsyncLaunch ;;
        returnCode <- _hidSetReportSync d reportType reportId data dataLength ;;
        emit EvOSWaitEvent ;;
        ret returnCode
      else
        emit (EvThreadDetach
                (Task_hidSetReportAsync d reportType reportId data dataLength
                   callbackFuncMPTR callbackParamMPTR)) ;;
        ret 0
  end.

Definition _hidReadInternalSync (device : DevRef) (data : MPTR) (maxLength : Z) : M Z :=
  opened <- Device_IsOpened device ;;
  if negb opened then ret (-1)
  else
    call_memset data 0 maxLength ;;
    '(readResult, bytesRead) <- Device_Read device data maxLength ;;
    match readResult with
    | ReadResult_Success => ret bytesRead
    | ReadResult_Error => ret (-1)
    | ReadResult_ErrorTimeout => ret (-108)
    end.

Definition _hidReadAsync (device : DevRef) (data : MPTR) (maxLength : Z)
           (callbackFuncMPTR callbackParamMPTR : MPTR) : M unit :=
  returnCode <- _hidReadInternalSync device data maxLength ;;
  let errorCode := if returnCode <? 0 then returnCode else 0 in
  h <- Device_hid_handle device ;;
  DoHIDTransferCallback callbackFuncMPTR callbackParamMPTR h errorCode data
    (if returnCode >? 0 then returnCode else 0).

Definition _hidReadSync (device : DevRef) (data : MPTR) (maxLength : Z) : M Z :=
  returnCode <- _hidReadInternalSync device data maxLength ;;
  emit EvOSSignalEvent ;;
  ret returnCode.

(** [maxLength] arrives as [uint32] and is passed on as [sint32]. *)
Definition export_HIDRead (hidHandle : Z) (data : MPTR) (maxLength : Z)
           (callbackFuncMPTR callbackParamMPTR : MPTR) : M Z :=
  device <- GetDeviceByHandle hidHandle true ;;
  match device with
  | None => ret (-1)
  | Some d =>
      if negb (callbackFuncMPTR =? MPTR_NULL) then
        emit (EvThreadDetach
                (Task_hidReadAsync d data (sint32 maxLength)
                   callbackFuncMPTR callbackParamMPTR)) ;;
        ret 0
      else
        emit EvOSInitEvent ;;
        emit EvAsyncLaunch ;;
        returnCode <- _hidReadSync d data (sint32 maxLength) ;;
        emit EvOSWaitEvent ;;
        ret returnCode
  end.

Definition _hidWriteInternalSync (device : DevRef) (data : MPTR) (maxLength : Z) : M Z :=
  opened <- Device_IsOpened device ;;
  if negb opened then ret (-1)
  else
    '(writeResult, bytesWritten) <- Device_Write device data maxLength ;;
    match writeResult with
    | WriteResult_Success => ret bytesWritten
    | WriteResult_Error => ret (-1)
    | WriteResult_ErrorTimeout => ret (-108)
    end.

Definition _hidWriteAsync (device : DevRef) (data : MPTR) (maxLength : Z)
           (callbackFuncMPTR callbackParamMPTR : MPTR) : M unit :=
  returnCode <- _hidWriteInternalSync device data maxLength ;;
  let errorCode := if returnCode <? 0 then returnCode else 0 in
  h <- Device_hid_handle device ;;
  DoHIDTransferCallback callbackFuncMPTR callbackParamMPTR h errorCode data
    (if returnCode >? 0 then returnCode else 0).

Definition _hidWriteSync (device : DevRef) (data : MPTR) (maxLength : Z) : M Z :=
  returnCode <- _hidWriteInternalSync device data maxLength ;;
  emit EvOSSignalEvent ;;
  ret returnCode.

Definition export_HIDWrite (hidHandle : Z) (data : MPTR) (maxLength : Z)
           (callbackFuncMPTR callbackParamMPTR : MPTR) : M Z :=
  device <- GetDeviceByHandle hidHandle true ;;
  match device with
  | None => ret (-1)
  | Some d =>
      if negb (callbackFuncMPTR =? MPTR_NULL) then
        emit (EvThreadDetach
                (Task_hidWriteAsync d data (sint32 maxLength)
                   callbackFuncMPTR callbackParamMPTR)) ;;
        ret 0
      else
        emit EvOSInitEvent ;;
        emit EvAsyncLaunch ;;
        returnCode <- _hidWriteSync d data (sint32 maxLength) ;;
        emit EvOSWaitEvent ;;
        ret returnCode
  end.

(** [*ukn0 = 0x3FF; *ukn1 = (uint32)-0x7FFF;] through [uint32be]
    pointers, then [osLib_returnFromFunction(hCPU, 0)]. *)
Definition export_HIDDecodeError (errorCode : Z) (ukn0 ukn1 : MPTR) : M Z :=
  modify (fun s => set_mem (store_uint32be (mem s) ukn0 0x3FF) s) ;;
  modify (fun s => set_mem (store_uint32be (mem s) ukn1 (uint32 (- 0x7FFF))) s) ;;
  ret 0.

(** What a detached worker thread does once it runs. *)
Definition run_task (t : Task) : M unit :=
  match t with
  | Task_hidGetDescriptorAsync d descType descIndex lang output len f p =>
      _hidGetDescriptorAsync d descType descIndex lang output len f p
  | Task_hidSetIdleAsync d ifIndex reportId duration f p =>
      _hidSetIdleAsync d ifIndex reportId duration f p
  | Task_hidSetProtocolAsync d ifIndex protocol f p =>
      _hidSetProtocolAsync d ifIndex protocol f p
  | Task_hidSetReportAsync d reportType reportId data len f p =>
      _hidSetReportAsync d reportType reportId data len f p
  | Task_hidReadAsync d data maxLength f p => _hidReadAsync d data maxLength f p
  | Task_hidWriteAsync d data maxLength f p => _hidWriteAsync d data maxLength f p
  end.

(** The slots the pool can still hand out. *)
Definition free_slots (s : State) : list nat :=
  if HIDPoolIndexQueueInitialized s then HIDPoolIndexQueue s
  else HIDPoolIndexQueue s ++ seq 0 HID_MAX_NUM_DEVICES.

(** ** Sequences of registry operations *)

Inductive RegistryOp :=
| OpAttach (device : DevRef)
| OpDetach (device : DevRef).

(** [device->m_hid->handle] as a pure reading of the state. *)
Definition slot_handle (s : State) (d : DevRef) : option Z :=
  match m_hid (objects s d) with
  | Some i => Some (handle (HIDPool s i))
  | None => None
  end.

(** Runs the operations in order.  For each [AttachDevice] it keeps
    the returned flag and the handle found in the device's slot right
    after the call. *)
Fixpoint run_ops (ops : list RegistryOp) (s : State)
  : option (list (bool * option Z) * State) :=
  match ops with
  | [] => Some ([], s)
  | OpAttach d :: ops' =>
      match AttachDevice d s with
      | None => None
      | Some (r, s1, _) =>
          match run_ops ops' s1 with
          | None => None
          | Some (rs, s2) => Some ((r, slot_handle s1 d) :: rs, s2)
          end
      end
  | OpDetach d :: ops' =>
      match DetachDevice d s with
      | None => None
      | Some (_, s1, _) => run_ops ops' s1
      end
  end.

(** The handles bound by the attaches that succeeded, oldest first. *)
Definition dispensed (rs : list (bool * option Z)) : list (option Z) :=
  map snd (filter fst rs).

(** [n] successive calls of the handle generator. *)
Fixpoint dispense (n : nat) : M (list Z) :=
  match n with
  | O => ret []
  | S n' => h <- GenerateHIDHandle ;; hs <- dispense n' ;; ret (h :: hs)
  end.

(** What attach and detach maintain: the counter is a [uint32],
    every registered device points at a slot, and registered devices
    and free slots together make up the pool. *)
Definition registry_inv (s : State) : Prop :=
  0 <= _lastGeneratedHidHandle s < 2 ^ 32 /\
  (forall d, In d (deviceList s) -> m_hid (objects s d) <> None) /\
  (length (deviceList s) + length (free_slots s) = HID_MAX_NUM_DEVICES)%nat.

(** ** Reading an effect log *)

(** Nesting depth of the recursive mutex after a log, starting from
    depth [n]. *)
Fixpoint lock_depth (n : nat) (t : list Event) : nat :=
  match t with
  | [] => n
  | EvLock :: t' => lock_depth (S n) t'
  | EvUnlock :: t' => lock_depth (pred n) t'
  | _ :: t' => lock_depth n t'
  end.

Definition is_inline_callback (e : Event) : bool :=
  match e with EvPPCCoreCallback _ _ => true | _ => false end.

Definition is_queued_callback (e : Event) : bool :=
  match e with EvAsyncCallbackAdd _ _ => true | _ => false end.

End Nsyshid.

Arguments Device : clear implicits.
Arguments State : clear implicits.
Arguments M : clear implicits.

(** ** Backends

    A [Backend] object holds its attached flag and the devices it
    attached.  The object is passed in and handed back.  Its own
    mutex, [m_devicesMutex], guards these two fields only; the effect
    log records [hidMutex] and has no event for it. *)

Record Backend := mkBackend {
  m_isAttached : bool;
  m_devices : list DevRef
}.

(** [Backend::Backend]. *)
Definition Backend_new : Backend := mkBackend false [].

Inductive BackendOp :=
| BAttachDevice (device : DevRef)
| BDetachDevice (device : DevRef)
| BDetachAllDevices
| BOnAttach (visible : list DevRef)
| BOnDetach.

Section Backends.

Context {B : Type} `{DeviceImpl B}.

Local Notation "x <- c1 ;; c2" := (bind c1 (fun x => c2))
  (at level 61, c1 at next level, right associativity).
Local Notation "c1 ;; c2" := (bind c1 (fun _ => c2))
  (at level 61, right associativity).

Definition Backend_DetachAllDevices (b : Backend) : M B Backend :=
  if m_isAttached b then
    for_each (m_devices b) (fun device => DetachDevice device) ;;
    ret (mkBackend (m_isAttached b) [])
  else ret b.

(** [m_isAttached && nsyshid::AttachDevice(device)]: the registry is
    not asked while the backend is detached. *)
Definition Backend_AttachDevice (b : Backend) (device : DevRef) : M B (bool * Backend) :=
  if m_isAttached b then
    r <- AttachDevice device ;;
    if r then ret (true, mkBackend (m_isAttached b) (m_devices b ++ [device]))
    else ret (false, b)
  else ret (false, b).

(** [m_devices.remove(device)] takes out every equal element. *)
Definition Backend_DetachDevice (b : Backend) (device : DevRef) : M B Backend :=
  if m_isAttached b then
    DetachDevice device ;;
    ret (mkBackend (m_isAttached b)
                   (filter (fun x => negb (Nat.eqb x device)) (m_devices b)))
  else ret b.

Definition Backend_FindDevice (b : Backend)
           (isWantedDevice : DevRef -> Device B -> bool) : M B (option DevRef) :=
  s <- get ;; ret (find (fun d => isWantedDevice d (objects s d)) (m_devices b)).

Definition Backend_FindDeviceById (b : Backend) (vendorId productId : Z)
  : M B (option DevRef) :=
  FindDeviceById vendorId productId.

(** [AttachVisibleDevices] is pure virtual; it is an argument here. *)
Definition Backend_OnAttach (AttachVisibleDevices : Backend -> M B Backend)
           (b : Backend) : M B Backend :=
  AttachVisibleDevices (mkBackend true (m_devices b)).

Definition Backend_OnDetach (b : Backend) : M B Backend :=
  b' <- Backend_DetachAllDevices b ;;
  ret (mkBackend false (m_devices b')).

Definition Backend_IsBackendAttached (b : Backend) : bool := m_isAttached b.

(** An [AttachVisibleDevices] that offers the devices of [visible],
    in order, to [Backend::AttachDevice]. *)
Fixpoint attach_each (visible : list DevRef) (b : Backend) : M B Backend :=
  match visible with
  | [] => ret b
  | device :: rest =>
      rb <- Backend_AttachDevice b device ;;
      attach_each rest (snd rb)
  end.

Definition run_backend_op (op : BackendOp) (b : Backend) : M B Backend :=
  match op with
  | BAttachDevice device => rb <- Backend_AttachDevice b device ;; ret (snd rb)
  | BDetachDevice device => Backend_DetachDevice b device
  | BDetachAllDevices => Backend_DetachAllDevices b
  | BOnAttach visible => Backend_OnAttach (attach_each visible) b
  | BOnDetach => Backend_OnDetach b
  end.

(** The calls of [ops] on one backend, in order. *)
Fixpoint run_backend (ops : list BackendOp) (b : Backend) : M B Backend :=
  match ops with
  | [] => ret b
  | op :: ops' => b' <- run_backend_op op b ;; run_backend ops' b'
  end.

(** ** State predicates *)

(** The handle in the slot a device points at; 0 for a device
    without a slot. *)
Definition handle_at (s : State B) (d : DevRef) : Z :=
  match slot_handle s d with
  | Some h => h
  | None => 0
  end.

(** The slot pointers of the registered devices, in registry order. *)
Definition bound_slots (s : State B) : list HIDPtr :=
  map (fun d => m_hid (objects s d)) (deviceList s).

(** What [Device::AssignHID] leaves in a slot. *)
Definition slot_describes (h : HID_t) (dev : Device B) : Prop :=
  ukn04 h = 0x11223344 /\
  vendorId h = m_vendorId dev /\
  productId h = m_productId dev /\
  ifIndex h = m_interfaceIndex dev /\
  subClass h = m_interfaceSubClass dev /\
  protocol h = m_protocol dev /\
  paddingGuessed0F h = 0 /\
  maxPacketSizeRX h = m_maxPacketSizeRX dev /\
  maxPacketSizeTX h = m_maxPacketSizeTX dev.

(** No device is registered twice; the slots of the registered
    devices and the free slots are the 128 slots of the pool, each
    once; and the slot of a registered device describes it. *)
Definition registry_wf (s : State B) : Prop :=
  registry_inv s /\
  NoDup (deviceList s) /\
  Permutation (bound_slots s ++ map Some (free_slots s))
              (map Some (seq 0 HID_MAX_NUM_DEVICES)) /\
  (forall d i, In d (deviceList s) -> m_hid (objects s d) = Some i ->
               slot_describes (HIDPool s i) (objects s d)).

(** Handles grow along the registry and lie between 2 and the
    counter. *)
Definition handles_wf (s : State B) : Prop :=
  1 <= _lastGeneratedHidHandle s /\
  StronglySorted Z.lt (map (handle_at s) (deviceList s)) /\
  Forall (fun d => 2 <= handle_at s d <= _lastGeneratedHidHandle s) (deviceList s).

Definition matches_id (dev : Device B) (vendorId productId : Z) : bool :=
  (m_vendorId dev =? vendorId) && (m_productId dev =? productId).

(** A backend that is the registry's only caller lists exactly the
    registered devices, and lists none while it is detached. *)
Definition backend_inv (b : Backend) (s : State B) : Prop :=
  registry_wf s /\
  m_devices b = deviceList s /\
  (m_isAttached b = false -> m_devices b = []).

End Backends.

(** ** A scripted device

    A [Device] implementation whose answers are fixed in advance; it
    stands in for a backend where a concrete run is needed. *)

Record Scripted := mkScripted {
  sc_opened : bool;
  sc_canOpen : bool;
  sc_descriptor : option (list Z);   (* what GetDescriptor copies out *)
  sc_control : bool;                 (* answer of SetIdle / SetProtocol / SetReport *)
  sc_readResult : ReadResult;
  sc_readData : list Z;              (* what Read copies out *)
  sc_bytesRead : Z;
  sc_writeResult : WriteResult;
  sc_bytesWritten : Z
}.

Definition Scripted_set_opened (b : Scripted) (o : bool) : Scripted :=
  mkScripted o (sc_canOpen b) (sc_descriptor b) (sc_control b) (sc_readResult b)
             (sc_readData b) (sc_bytesRead b) (sc_writeResult b) (sc_bytesWritten b).

Fixpoint write_bytes (m : Memory) (a : Z) (l : list Z) : Memory :=
  match l with
  | [] => m
  | v :: l' => write_bytes (store_uint8 m a v) (a + 1) l'
  end.

#[export] Instance Scripted_DeviceImpl : DeviceImpl Scripted := {
  dev_IsOpened b := sc_opened b;
  dev_Open b :=
    if sc_canOpen b then (true, Scripted_set_opened b true) else (false, b);
  dev_Close b := Scripted_set_opened b false;
  dev_GetDescriptor b descType descIndex lang output outputMaxLength m :=
    match sc_descriptor b with
    | Some bytes => (true, write_bytes m output (firstn (Z.to_nat outputMaxLength) bytes), b)
    | None => (false, m, b)
    end;
  dev_SetIdle b ifIndex reportId duration := (sc_control b, b);
  dev_SetProtocol b ifIndex protocol := (sc_control b, b);
  dev_SetReport b message m := (sc_control b, b);
  dev_Read b data length m :=
    (sc_readResult b, sc_bytesRead b,
     write_bytes m data (firstn (Z.to_nat length) (sc_readData b)), b);
  dev_Write b data length m := (sc_writeResult b, sc_bytesWritten b, b)
}.

(** An opened gamepad that answers every request, and the same
    device closed and unable to open. *)
Definition pad : Scripted :=
  mkScripted true true (Some [9; 2]) true ReadResult_Success [1; 2; 3] 3
             WriteResult_Success 10.

Definition pad_closed : Scripted :=
  mkScripted false false None false ReadResult_Error [] 0 WriteResult_Error 0.

Definition pad_timeout : Scripted :=
  mkScripted true true None false ReadResult_ErrorTimeout [] 0
             WriteResult_ErrorTimeout 0.

Definition blank_HID : HID_t := mkHID 0 0 0 0 0 0 0 0 0 0.

(** Program start with every Device object built by [Device_new]
    around the same implementation state, and zeroed memory. *)
Definition boot (b : Scripted) : State Scripted :=
  initial_state (fun _ => blank_HID)
                (fun _ => Device_new 0x057E 0x0337 0 0 0 b)
                (fun _ => 0).

(** The state reached from [s] by running [m]; [s] itself on a fault. *)
Definition after {A : Type} (m : M Scripted A) (s : State Scripted) : State Scripted :=
  match m s with
  | Some (_, s', _) => s'
  | None => s
  end.

(** The value and the effect log of a run. *)
Definition result_of {S A : Type} (r : option (A * S * list Event)) : option A :=
  match r with
  | Some (a, _, _) => Some a
  | None => None
  end.

Definition log_of {S A : Type} (r : option (A * S * list Event)) : option (list Event) :=
  match r with
  | Some (_, _, t) => Some t
  | None => None
  end.

(** Device 0 attached (handle 2, slot 0). *)
Definition one_device (b : Scripted) : State Scripted :=
  after (AttachDevice 0%nat) (boot b).

(** One client at guest address 0x2000 with callback 0x8000, then
    device 0 attached. *)
Definition one_client_one_device (b : Scripted) : State Scripted :=
  after (AttachDevice 0%nat) (after (export_HIDAddClient 0x2000 0x8000) (boot b)).

(** * Facts *)

(** ** Integers and memory *)

Ltac zeqb :=
  repeat match goal with
         | |- context [?x =? ?y] => destruct (Z.eqb_spec x y); try lia
         end.

Lemma uint32_bytes (v : Z) :
  (v / 2 ^ 24) mod 256 * 2 ^ 24 + (v / 2 ^ 16) mod 256 * 2 ^ 16 +
  (v / 2 ^ 8) mod 256 * 2 ^ 8 + v mod 256 = v mod 2 ^ 32.
Proof.
  change (2 ^ 24) with 16777216; change (2 ^ 16) with 65536;
    change (2 ^ 8) with 256; change (2 ^ 32) with 4294967296.
  Z.div_mod_to_equations; lia.
Qed.

Lemma load_store_uint32be (m : Memory) (a v : Z) :
  load_uint32be (store_uint32be m a v) a = uint32 v.
Proof.
  unfold load_uint32be, store_uint32be, store_uint8, uint32.
  zeqb. apply uint32_bytes.
Qed.

Lemma load_store_uint32be_other (m : Memory) (a a' v : Z) :
  a' + 4 <= a \/ a + 4 <= a' ->
  load_uint32be (store_uint32be m a' v) a = load_uint32be m a.
Proof.
  intros Hd. unfold load_uint32be, store_uint32be, store_uint8.
  zeqb; reflexivity.
Qed.

Lemma uint32_range (z : Z) : 0 <= uint32 z < 2 ^ 32.
Proof. unfold uint32. apply Z.mod_pos_bound. lia. Qed.

Lemma uint32_small (z : Z) : 0 <= z < 2 ^ 32 -> uint32 z = z.
Proof. intros. unfold uint32. apply Z.mod_small. assumption. Qed.

Lemma uint32_succ (z : Z) : uint32 (uint32 z + 1) = uint32 (z + 1).
Proof. unfold uint32. apply Zplus_mod_idemp_l. Qed.

Lemma sint32_small (z : Z) : - 2 ^ 31 <= z < 2 ^ 31 -> sint32 z = z.
Proof.
  intros Hz. unfold sint32. rewrite Z.mod_small; lia.
Qed.

Lemma sint32_uint32 (z : Z) : sint32 (uint32 z) = sint32 z.
Proof.
  unfold sint32, uint32.
  rewrite Zplus_mod_idemp_l. reflexivity.
Qed.

Lemma memset_inside (m : Memory) (p n x : Z) :
  p <= x < p + n -> memset m p 0 n x = 0.
Proof.
  intros Hx. unfold memset.
  destruct (Z.leb_spec p x); destruct (Z.ltb_spec x (p + n)); try lia.
  reflexivity.
Qed.

Lemma memset_outside (m : Memory) (p v n x : Z) :
  x < p \/ p + n <= x -> memset m p v n x = m x.
Proof.
  intros Hx. unfold memset.
  destruct (Z.leb_spec p x); destruct (Z.ltb_spec x (p + n)); try lia;
    reflexivity.
Qed.

(** ** Running the operations *)

Section Runs.

Context {B : Type} `{DeviceImpl B}.

Implicit Types (s : State B) (d device : DevRef).

Lemma bind_run {A C : Type} (m : M B A) (k : A -> M B C) s a s1 t1 c s2 t2 :
  m s = Some (a, s1, t1) ->
  k a s1 = Some (c, s2, t2) ->
  bind m k s = Some (c, s2, t1 ++ t2).
Proof. intros Hm Hk. unfold bind. rewrite Hm, Hk. reflexivity. Qed.

Lemma state_eta s :
  mkState (deviceList s) (HIDClientList s) (_lastGeneratedHidHandle s)
          (HIDPoolIndexQueueInitialized s) (HIDPoolIndexQueue s) (HIDPool s)
          (objects s) (mem s) = s.
Proof. destruct s; reflexivity. Qed.

(** A loop whose body only logs leaves the state alone and logs one
    event per element, in list order. *)
Lemma for_each_emit {A : Type} (body : A -> M B unit) (g : A -> Event) s (l : list A) :
  (forall x, body x s = Some (tt, s, [g x])) ->
  for_each l body s = Some (tt, s, map g l).
Proof.
  intros Hbody. induction l as [|x l IH]; cbn [for_each map].
  - reflexivity.
  - apply (bind_run _ _ _ _ _ _ _ _ _ (Hbody x) IH).
Qed.

Lemma for_each_push (l : list nat) : forall s,
  for_each l (fun i => modify (fun s' => set_HIDPoolIndexQueue (HIDPoolIndexQueue s' ++ [i]) s')) s
  = Some (tt, set_HIDPoolIndexQueue (HIDPoolIndexQueue s ++ l) s, []).
Proof.
  induction l as [|i l IH]; intros s; cbn [for_each].
  - unfold ret, set_HIDPoolIndexQueue. rewrite app_nil_r, state_eta. reflexivity.
  - unfold bind at 1. unfold modify at 1. rewrite IH.
    destruct s; cbn. rewrite <- app_assoc. reflexivity.
Qed.

Lemma GenerateHIDHandle_run s :
  GenerateHIDHandle s =
  Some (uint32 (_lastGeneratedHidHandle s + 1),
        set_lastGeneratedHidHandle (uint32 (_lastGeneratedHidHandle s + 1)) s,
        [EvLock; EvUnlock]).
Proof. reflexivity. Qed.

Lemma InitHIDPoolIndexQueue_run s :
  InitHIDPoolIndexQueue s =
  Some (tt,
        set_HIDPoolIndexQueueInitialized true (set_HIDPoolIndexQueue (free_slots s) s),
        [EvLock; EvUnlock]).
Proof.
  unfold InitHIDPoolIndexQueue, lock_guard, free_slots.
  unfold bind, get, emit, ret.
  destruct (HIDPoolIndexQueueInitialized s) eqn:E.
  - cbn [app]. repeat f_equal. destruct s; cbn in *. subst. reflexivity.
  - unfold modify at 1. rewrite for_each_push. reflexivity.
Qed.

Lemma GetFreeHID_run s :
  GetFreeHID s =
  Some (match free_slots s with [] => None | index :: _ => Some index end,
        set_HIDPoolIndexQueueInitialized true
          (set_HIDPoolIndexQueue (tl (free_slots s)) s),
        [EvLock; EvLock; EvUnlock; EvUnlock]).
Proof.
  unfold GetFreeHID, lock_guard.
  unfold bind at 1. unfold emit at 1.
  unfold bind at 1. unfold bind at 1. rewrite InitHIDPoolIndexQueue_run.
  unfold bind, get, emit, ret, modify.
  cbn [HIDPoolIndexQueue set_HIDPoolIndexQueueInitialized set_HIDPoolIndexQueue].
  destruct (free_slots s) as [|index rest]; reflexivity.
Qed.

Lemma ReleaseHID_run s (index : nat) :
  ReleaseHID (Some index) s =
  Some (tt,
        set_HIDPoolIndexQueueInitialized true
          (set_HIDPoolIndexQueue (free_slots s ++ [index]) s),
        [EvLock; EvLock; EvUnlock; EvUnlock]).
Proof.
  unfold ReleaseHID, lock_guard.
  unfold bind at 1. unfold emit at 1.
  unfold bind at 1. unfold bind at 1. rewrite InitHIDPoolIndexQueue_run.
  reflexivity.
Qed.

End Runs.

(** ** The registry *)

Ltac state_proj :=
  cbn [HIDPool set_HIDPool set_lastGeneratedHidHandle
       set_HIDPoolIndexQueueInitialized set_HIDPoolIndexQueue set_objects
       set_deviceList set_HIDClientList set_mem
       objects deviceList HIDClientList _lastGeneratedHidHandle
       HIDPoolIndexQueueInitialized HIDPoolIndexQueue mem].

Tactic Notation "state_proj" "in" hyp(H) :=
  cbn [HIDPool set_HIDPool set_lastGeneratedHidHandle
       set_HIDPoolIndexQueueInitialized set_HIDPoolIndexQueue set_objects
       set_deviceList set_HIDClientList set_mem
       objects deviceList HIDClientList _lastGeneratedHidHandle
       HIDPoolIndexQueueInitialized HIDPoolIndexQueue mem] in H.

Section Registry.

Context {B : Type} `{DeviceImpl B}.

Implicit Types (s : State B) (d device : DevRef).

Lemma update_same {A : Type} (f : nat -> A) (i : nat) (v : A) : update f i v i = v.
Proof. unfold update. rewrite Nat.eqb_refl. reflexivity. Qed.

Lemma update_other {A : Type} (f : nat -> A) (i j : nat) (v : A) :
  j <> i -> update f i v j = f j.
Proof. intros Hne. unfold update. destruct (Nat.eqb_spec j i); congruence. Qed.

Lemma is_attached_In d (l : list DevRef) : is_attached d l = true <-> In d l.
Proof.
  unfold is_attached. rewrite existsb_exists. split.
  - intros [x [Hin Heq]]. apply Nat.eqb_eq in Heq. subst. assumption.
  - intros Hin. exists d. split; [assumption | apply Nat.eqb_refl].
Qed.

Lemma is_attached_not_In d (l : list DevRef) : is_attached d l = false <-> ~ In d l.
Proof.
  rewrite <- is_attached_In. destruct (is_attached d l); split; congruence.
Qed.

Lemma erase_first_length d (l : list DevRef) :
  In d l -> S (length (erase_first d l)) = length l.
Proof.
  induction l as [|x l IH]; cbn [erase_first In length].
  - intros [].
  - intros Hin. destruct (Nat.eqb_spec d x) as [->|Hne].
    + reflexivity.
    + cbn [length]. f_equal. apply IH. destruct Hin; congruence.
Qed.

Lemma erase_first_absent d (l : list DevRef) : ~ In d l -> erase_first d l = l.
Proof.
  induction l as [|x l IH]; cbn [erase_first In]; intros Hn.
  - reflexivity.
  - destruct (Nat.eqb_spec d x) as [->|Hne].
    + exfalso. apply Hn. left. reflexivity.
    + f_equal. apply IH. intros Hin. apply Hn. right. assumption.
Qed.

Lemma erase_first_incl d (l : list DevRef) x : In x (erase_first d l) -> In x l.
Proof.
  induction l as [|y l IH]; cbn [erase_first In].
  - intros [].
  - destruct (Nat.eqb_spec d y) as [->|Hne]; cbn [In]; intuition.
Qed.

Lemma notify_attach_async s d (l : list MPTR) :
  for_each l (fun client => DoAttachCallbackAsync client d) s =
  Some (tt, s,
        map (fun c => EvAsyncCallbackAdd (load_uint32be (mem s) c)
                        [Word c; HIDAddr (m_hid (objects s d)); Word HID_CALLBACK_ATTACH]) l).
Proof. apply for_each_emit. reflexivity. Qed.

Lemma notify_detach_async s d (l : list MPTR) :
  for_each l (fun client => DoDetachCallbackAsync client d) s =
  Some (tt, s,
        map (fun c => EvAsyncCallbackAdd (load_uint32be (mem s) c)
                        [Word c; HIDAddr (m_hid (objects s d)); Word HID_CALLBACK_DETACH]) l).
Proof. apply for_each_emit. reflexivity. Qed.

Lemma notify_attach_inline s (c : MPTR) (l : list DevRef) :
  for_each l (fun device => DoAttachCallback c device) s =
  Some (tt, s,
        map (fun d => EvPPCCoreCallback (load_uint32be (mem s) c)
                        [Word c; HIDAddr (m_hid (objects s d)); Word HID_CALLBACK_ATTACH]) l).
Proof. apply for_each_emit. reflexivity. Qed.

Lemma notify_detach_inline s (c : MPTR) (l : list DevRef) :
  for_each l (fun device => DoDetachCallback c device) s =
  Some (tt, s,
        map (fun d => EvPPCCoreCallback (load_uint32be (mem s) c)
                        [Word c; HIDAddr (m_hid (objects s d)); Word HID_CALLBACK_DETACH]) l).
Proof. apply for_each_emit. reflexivity. Qed.

Lemma free_slots_nil s :
  free_slots s = [] ->
  HIDPoolIndexQueueInitialized s = true /\ HIDPoolIndexQueue s = [].
Proof.
  unfold free_slots. destruct (HIDPoolIndexQueueInitialized s).
  - intros ->. split; reflexivity.
  - intros Hnil. apply app_eq_nil in Hnil. destruct Hnil as [_ Hseq].
    discriminate Hseq.
Qed.

Lemma AttachDevice_already s d :
  is_attached d (deviceList s) = true ->
  AttachDevice d s = Some (false, s, [EvLock; EvUnlock]).
Proof.
  intros Hin. unfold AttachDevice, lock_guard.
  cbv [bind get emit ret]. rewrite Hin. reflexivity.
Qed.

Lemma AttachDevice_exhausted s d :
  is_attached d (deviceList s) = false ->
  free_slots s = [] ->
  AttachDevice d s =
  Some (false, s, [EvLock; EvLock; EvLock; EvUnlock; EvUnlock; EvUnlock]).
Proof.
  intros Hna Hfree. unfold AttachDevice, lock_guard.
  cbv [bind get emit ret]. rewrite Hna.
  rewrite GetFreeHID_run, Hfree.
  apply free_slots_nil in Hfree. destruct Hfree as [Hi Hq].
  destruct s; cbn in *. subst. reflexivity.
Qed.

Lemma AttachDevice_ok s d (i : nat) (rest : list nat) :
  is_attached d (deviceList s) = false ->
  free_slots s = i :: rest ->
  exists s',
    AttachDevice d s =
    Some (true, s',
          [EvLock; EvLock; EvLock; EvUnlock; EvUnlock; EvLock; EvUnlock] ++
          map (fun c => EvAsyncCallbackAdd (load_uint32be (mem s) c)
                          [Word c; HIDAddr (Some i); Word HID_CALLBACK_ATTACH])
              (HIDClientList s) ++ [EvUnlock]) /\
    deviceList s' = deviceList s ++ [d] /\
    HIDClientList s' = HIDClientList s /\
    _lastGeneratedHidHandle s' = uint32 (_lastGeneratedHidHandle s + 1) /\
    HIDPoolIndexQueueInitialized s' = true /\
    HIDPoolIndexQueue s' = rest /\
    handle (HIDPool s' i) = uint32 (_lastGeneratedHidHandle s + 1) /\
    (forall j, j <> i -> HIDPool s' j = HIDPool s j) /\
    objects s' d = Device_set_hid (objects s d) (Some i) /\
    (forall d', d' <> d -> objects s' d' = objects s d') /\
    mem s' = mem s.
Proof.
  intros Hna Hfree.
  unfold AttachDevice, lock_guard.
  cbv [bind get emit ret]. rewrite Hna.
  rewrite GetFreeHID_run, Hfree.
  cbv beta iota. rewrite GenerateHIDHandle_run.
  cbv beta iota.
  cbv [modify Device_AssignHID bind get ret].
  state_proj. cbn [tl].
  rewrite notify_attach_async. state_proj.
  rewrite !update_same. cbn [m_hid Device_set_hid handle HID_set_handle app].
  rewrite !app_nil_r.
  eexists. split; [reflexivity|].
  state_proj. rewrite !update_same. cbn [handle].
  repeat split; try reflexivity.
  - intros j Hj. rewrite !update_other by assumption. reflexivity.
  - intros d' Hd'. rewrite update_other by assumption. reflexivity.
Qed.

Lemma DetachDevice_absent s d :
  is_attached d (deviceList s) = false ->
  DetachDevice d s = Some (tt, s, [EvLock; EvUnlock]).
Proof.
  intros Hna. unfold DetachDevice, lock_guard.
  cbv [bind get emit ret]. rewrite Hna. reflexivity.
Qed.

Lemma DetachDevice_run s d (i : nat) :
  is_attached d (deviceList s) = true ->
  m_hid (objects s d) = Some i ->
  DetachDevice d s =
  Some (tt,
        set_objects
          (update (objects s) d
             (Device_set_impl (objects s d) (dev_Close (m_impl (objects s d)))))
          (set_HIDPoolIndexQueueInitialized true
             (set_HIDPoolIndexQueue (free_slots s ++ [i])
                (set_deviceList (erase_first d (deviceList s)) s))),
        [EvLock] ++
        map (fun c => EvAsyncCallbackAdd (load_uint32be (mem s) c)
                        [Word c; HIDAddr (Some i); Word HID_CALLBACK_DETACH])
            (HIDClientList s) ++
        [EvLock; EvLock; EvUnlock; EvUnlock; EvUnlock; EvDeviceClose d]).
Proof.
  intros Hin Hhid.
  unfold DetachDevice, lock_guard.
  cbv [bind get emit ret]. rewrite Hin. cbv [negb].
  cbv [modify]. state_proj.
  rewrite notify_detach_async. state_proj.
  cbv [Device_hid bind get ret]. state_proj. rewrite Hhid.
  rewrite ReleaseHID_run.
  cbv [Device_Close store_impl bind get emit modify ret]. state_proj.
  cbn [app]. rewrite ?app_nil_r, <- ?app_assoc. cbn [app].
  reflexivity.
Qed.

Lemma DetachDevice_ok s d (i : nat) :
  is_attached d (deviceList s) = true ->
  m_hid (objects s d) = Some i ->
  exists s',
    DetachDevice d s =
    Some (tt, s',
          [EvLock] ++
          map (fun c => EvAsyncCallbackAdd (load_uint32be (mem s) c)
                          [Word c; HIDAddr (Some i); Word HID_CALLBACK_DETACH])
              (HIDClientList s) ++
          [EvLock; EvLock; EvUnlock; EvUnlock; EvUnlock; EvDeviceClose d]) /\
    deviceList s' = erase_first d (deviceList s) /\
    HIDClientList s' = HIDClientList s /\
    _lastGeneratedHidHandle s' = _lastGeneratedHidHandle s /\
    HIDPoolIndexQueueInitialized s' = true /\
    HIDPoolIndexQueue s' = free_slots s ++ [i] /\
    HIDPool s' = HIDPool s /\
    objects s' d = Device_set_impl (objects s d) (dev_Close (m_impl (objects s d))) /\
    (forall d', d' <> d -> objects s' d' = objects s d') /\
    mem s' = mem s.
Proof.
  intros Hin Hhid.
  eexists. split; [apply DetachDevice_run; eassumption|].
  state_proj. rewrite update_same.
  repeat split; try reflexivity.
  intros d' Hd'. rewrite update_other by assumption. reflexivity.
Qed.

End Registry.

(** ** The registry invariant *)

Section Invariant.

Context {B : Type} `{DeviceImpl B}.

Implicit Types (s : State B) (d device : DevRef).

Lemma registry_inv_initial (pool : nat -> HID_t) (objs : DevRef -> Device B) (m : Memory) :
  registry_inv (initial_state pool objs m).
Proof.
  unfold registry_inv, initial_state, free_slots. state_proj.
  split; [lia|]. split.
  - intros d [].
  - cbn [length app]. rewrite length_seq. reflexivity.
Qed.

Lemma free_slots_initialized s :
  HIDPoolIndexQueueInitialized s = true -> free_slots s = HIDPoolIndexQueue s.
Proof. intros Hi. unfold free_slots. rewrite Hi. reflexivity. Qed.

Lemma AttachDevice_total s d :
  exists r s' t, AttachDevice d s = Some (r, s', t).
Proof.
  destruct (is_attached d (deviceList s)) eqn:Hin.
  - do 3 eexists. apply AttachDevice_already. assumption.
  - destruct (free_slots s) as [|i rest] eqn:Hfree.
    + do 3 eexists. apply AttachDevice_exhausted; assumption.
    + destruct (AttachDevice_ok s d i rest Hin Hfree) as [s' [Hrun _]].
      do 3 eexists. exact Hrun.
Qed.

Lemma AttachDevice_inv s d r s' t :
  registry_inv s ->
  AttachDevice d s = Some (r, s', t) ->
  registry_inv s'.
Proof.
  intros Hinv Hrun.
  destruct (is_attached d (deviceList s)) eqn:Hin.
  - rewrite (AttachDevice_already s d Hin) in Hrun. congruence.
  - destruct (free_slots s) as [|i rest] eqn:Hfree.
    + rewrite (AttachDevice_exhausted s d Hin Hfree) in Hrun. congruence.
    + destruct (AttachDevice_ok s d i rest Hin Hfree)
        as [s1 [Hrun1 [Hdl [_ [Hlast [Hinit [Hq [_ [_ [Hobj [Hother _]]]]]]]]]]].
      rewrite Hrun1 in Hrun. injection Hrun as <- <- <-.
      destruct Hinv as [_ [Hbound Hcount]].
      unfold registry_inv. rewrite Hlast, Hdl, (free_slots_initialized _ Hinit), Hq.
      split; [apply uint32_range|]. split.
      * intros d' Hd'. apply in_app_or in Hd'.
        destruct (Nat.eq_dec d' d) as [->|Hne].
        -- rewrite Hobj. cbn. discriminate.
        -- rewrite (Hother d' Hne). apply Hbound.
           destruct Hd' as [Hd'|[Hd'|[]]]; [assumption | congruence].
      * rewrite Hfree in Hcount. rewrite length_app. cbn [length] in *. lia.
Qed.

Lemma DetachDevice_inv s d :
  registry_inv s ->
  exists s' t,
    DetachDevice d s = Some (tt, s', t) /\
    registry_inv s' /\
    _lastGeneratedHidHandle s' = _lastGeneratedHidHandle s.
Proof.
  intros Hinv.
  destruct (is_attached d (deviceList s)) eqn:Hin.
  - destruct Hinv as [Hrange [Hbound Hcount]].
    assert (Hd : In d (deviceList s)) by (apply is_attached_In; assumption).
    destruct (m_hid (objects s d)) as [i|] eqn:Hhid;
      [|exfalso; apply (Hbound d Hd); assumption].
    destruct (DetachDevice_ok s d i Hin Hhid)
      as [s' [Hrun [Hdl [_ [Hlast [Hinit [Hq [_ [Hobj [Hother _]]]]]]]]]].
    exists s'. eexists. split; [exact Hrun|]. split; [|exact Hlast].
    unfold registry_inv. rewrite Hlast, Hdl, (free_slots_initialized _ Hinit), Hq.
    split; [assumption|]. split.
    + intros d' Hd'. apply erase_first_incl in Hd'.
      destruct (Nat.eq_dec d' d) as [->|Hne].
      * rewrite Hobj. cbn. rewrite Hhid. discriminate.
      * rewrite (Hother d' Hne). apply Hbound. assumption.
    + pose proof (erase_first_length d (deviceList s) Hd) as Hlen.
      rewrite length_app. cbn [length]. lia.
  - exists s. eexists.
    split; [apply DetachDevice_absent; assumption|]. split; [assumption | reflexivity].
Qed.

Lemma run_ops_inv (ops : list RegistryOp) : forall s,
  registry_inv s ->
  exists rs s', run_ops ops s = Some (rs, s') /\ registry_inv s'.
Proof.
  induction ops as [|op ops IH]; intros s Hinv; cbn [run_ops].
  - exists [], s. split; [reflexivity | assumption].
  - destruct op as [d|d].
    + destruct (AttachDevice_total s d) as [r [s1 [t Hrun]]].
      rewrite Hrun.
      destruct (IH s1 (AttachDevice_inv _ _ _ _ _ Hinv Hrun)) as [rs [s2 [Hrest Hinv2]]].
      rewrite Hrest. do 2 eexists. split; [reflexivity | assumption].
    + destruct (DetachDevice_inv s d Hinv) as [s1 [t [Hrun [Hinv1 _]]]].
      rewrite Hrun. apply IH. assumption.
Qed.

(** With the pool used up, every attach is refused and changes
    nothing. *)
Lemma AttachDevice_full s d :
  registry_inv s ->
  length (deviceList s) = HID_MAX_NUM_DEVICES ->
  exists t, AttachDevice d s = Some (false, s, t).
Proof.
  intros [_ [_ Hcount]] Hfull.
  assert (Hfree : free_slots s = []).
  { destruct (free_slots s); [reflexivity | cbn [length] in Hcount; lia]. }
  destruct (is_attached d (deviceList s)) eqn:Hin.
  - eexists. apply AttachDevice_already. assumption.
  - eexists. apply AttachDevice_exhausted; assumption.
Qed.

Lemma attach_fresh_run (ds : list DevRef) : forall s,
  registry_inv s ->
  NoDup ds ->
  (forall d, In d ds -> ~ In d (deviceList s)) ->
  (length (deviceList s) + length ds <= HID_MAX_NUM_DEVICES)%nat ->
  exists rs s',
    run_ops (map OpAttach ds) s = Some (rs, s') /\
    map fst rs = repeat true (length ds) /\
    deviceList s' = deviceList s ++ ds /\
    registry_inv s'.
Proof.
  induction ds as [|d ds IH]; intros s Hinv Hnd Hfresh Hroom; cbn [map run_ops].
  - exists [], s. rewrite app_nil_r.
    split; [reflexivity|]. split; [reflexivity|]. split; [reflexivity | assumption].
  - assert (Hna : is_attached d (deviceList s) = false).
    { apply is_attached_not_In. apply Hfresh. left. reflexivity. }
    destruct (free_slots s) as [|i rest] eqn:Hfree.
    { destruct Hinv as [_ [_ Hcount]]. rewrite Hfree in Hcount.
      cbn [length] in *. lia. }
    destruct (AttachDevice_ok s d i rest Hna Hfree) as [s1 [Hrun [Hdl _]]].
    rewrite Hrun.
    inversion Hnd as [|? ? Hnotin Hnd']; subst.
    destruct (IH s1) as [rs [s2 [Hrest [Hres [Hdl2 Hinv2]]]]].
    + eapply AttachDevice_inv; eassumption.
    + assumption.
    + intros d' Hd' Hin'. rewrite Hdl in Hin'. apply in_app_or in Hin'.
      destruct Hin' as [Hin'|[<-|[]]].
      * apply (Hfresh d'); [right; assumption | assumption].
      * contradiction.
    + rewrite Hdl, length_app. cbn [length] in *. lia.
    + rewrite Hrest. do 2 eexists. split; [reflexivity|].
      cbn [map fst length repeat]. rewrite Hres, Hdl2, Hdl, <- app_assoc.
      split; [reflexivity|]. split; [reflexivity | assumption].
Qed.

(** ** The handle generator *)

Lemma dispense_run (n : nat) : forall s,
  exists s' t,
    dispense n s =
    Some (map (fun k => uint32 (_lastGeneratedHidHandle s + Z.of_nat k)) (seq 1 n), s', t).
Proof.
  induction n as [|n IH]; intros s; cbn [dispense seq map].
  - do 2 eexists. reflexivity.
  - destruct (IH (set_lastGeneratedHidHandle (uint32 (_lastGeneratedHidHandle s + 1)) s))
      as [s' [t Hrest]].
    cbn [_lastGeneratedHidHandle set_lastGeneratedHidHandle] in Hrest.
    assert (Hshift :
              map (fun k => uint32 (uint32 (_lastGeneratedHidHandle s + 1) + Z.of_nat k))
                  (seq 1 n) =
              map (fun k => uint32 (_lastGeneratedHidHandle s + Z.of_nat k)) (seq 2 n)).
    { rewrite <- (seq_shift n 1), map_map.
      apply map_ext. intros k. rewrite Nat2Z.inj_succ.
      unfold uint32. rewrite Zplus_mod_idemp_l. f_equal. lia. }
    rewrite Hshift in Hrest.
    unfold bind at 1. rewrite GenerateHIDHandle_run.
    unfold bind at 1. rewrite Hrest. unfold ret.
    do 2 eexists. reflexivity.
Qed.

(** The handle a successful attach leaves in the device's slot is the
    generator's next value. *)
Lemma AttachDevice_handle s d s' t :
  AttachDevice d s = Some (true, s', t) ->
  slot_handle s' d = Some (uint32 (_lastGeneratedHidHandle s + 1)) /\
  _lastGeneratedHidHandle s' = uint32 (_lastGeneratedHidHandle s + 1).
Proof.
  intros Hrun.
  destruct (is_attached d (deviceList s)) eqn:Hin.
  - rewrite (AttachDevice_already s d Hin) in Hrun. discriminate.
  - destruct (free_slots s) as [|i rest] eqn:Hfree.
    + rewrite (AttachDevice_exhausted s d Hin Hfree) in Hrun. discriminate.
    + destruct (AttachDevice_ok s d i rest Hin Hfree)
        as [s1 [Hrun1 [_ [_ [Hlast [_ [_ [Hh [_ [Hobj _]]]]]]]]]].
      rewrite Hrun1 in Hrun. injection Hrun as <- <-.
      split; [|exact Hlast].
      unfold slot_handle. rewrite Hobj. cbn [m_hid Device_set_hid].
      rewrite Hh. reflexivity.
Qed.

Lemma AttachDevice_refused s d s' t :
  AttachDevice d s = Some (false, s', t) -> s' = s.
Proof.
  intros Hrun.
  destruct (is_attached d (deviceList s)) eqn:Hin.
  - rewrite (AttachDevice_already s d Hin) in Hrun. congruence.
  - destruct (free_slots s) as [|i rest] eqn:Hfree.
    + rewrite (AttachDevice_exhausted s d Hin Hfree) in Hrun. congruence.
    + destruct (AttachDevice_ok s d i rest Hin Hfree) as [s1 [Hrun1 _]].
      rewrite Hrun1 in Hrun. discriminate.
Qed.

(** Over any run of attaches and detaches, the handles bound are the
    generator's successive values. *)
Lemma run_ops_dispensed (ops : list RegistryOp) : forall s,
  registry_inv s ->
  exists rs s',
    run_ops ops s = Some (rs, s') /\
    dispensed rs =
    map (fun k => Some (uint32 (_lastGeneratedHidHandle s + Z.of_nat k)))
        (seq 1 (length (dispensed rs))) /\
    _lastGeneratedHidHandle s' =
    uint32 (_lastGeneratedHidHandle s + Z.of_nat (length (dispensed rs))).
Proof.
  induction ops as [|op ops IH]; intros s Hinv; cbn [run_ops].
  - exists [], s. split; [reflexivity|]. split; [reflexivity|].
    cbn. rewrite Z.add_0_r. symmetry. apply uint32_small. apply Hinv.
  - destruct op as [d|d].
    + destruct (AttachDevice_total s d) as [r [s1 [t Hrun]]].
      rewrite Hrun.
      destruct (IH s1 (AttachDevice_inv _ _ _ _ _ Hinv Hrun))
        as [rs [s2 [Hrest [Hhs Hlast]]]].
      rewrite Hrest. do 2 eexists. split; [reflexivity|].
      unfold dispensed in *. cbn [filter fst].
      destruct r.
      * destruct (AttachDevice_handle _ _ _ _ Hrun) as [Hslot Hc].
        cbn [map snd length seq]. rewrite Hslot, Hlast, Hc.
        split.
        -- f_equal. rewrite Hhs at 1. rewrite Hc.
           rewrite <- (seq_shift _ 1), map_map. apply map_ext. intros k.
           rewrite Nat2Z.inj_succ. unfold uint32. rewrite Zplus_mod_idemp_l.
           do 2 f_equal. lia.
        -- rewrite Nat2Z.inj_succ. unfold uint32. rewrite Zplus_mod_idemp_l.
           f_equal. lia.
      * apply AttachDevice_refused in Hrun. subst s1. split; assumption.
    + destruct (DetachDevice_inv s d Hinv) as [s1 [t [Hrun [Hinv1 Hc]]]].
      rewrite Hrun. rewrite <- Hc. apply IH. assumption.
Qed.

Lemma sorted_last_two (l : list Z) (a b : Z) :
  StronglySorted Z.lt (l ++ [a; b]) -> a < b.
Proof.
  induction l as [|x l IH]; cbn [app]; intros Hs.
  - inversion Hs as [|? ? _ Hall]; subst.
    inversion Hall; subst. assumption.
  - inversion Hs; subst. apply IH. assumption.
Qed.

Lemma consecutive_sorted (n : nat) : forall a : nat,
  StronglySorted Z.lt (map Z.of_nat (seq a n)).
Proof.
  induction n as [|n IH]; intros a; cbn [seq map].
  - constructor.
  - constructor; [apply IH|].
    apply Forall_forall. intros x Hx. apply in_map_iff in Hx.
    destruct Hx as [k [<- Hk]]. apply in_seq in Hk. lia.
Qed.

Lemma consecutive_NoDup (n : nat) : forall a : nat,
  NoDup (map Z.of_nat (seq a n)).
Proof.
  induction n as [|n IH]; intros a; cbn [seq map].
  - constructor.
  - constructor; [|apply IH].
    intros Hx. apply in_map_iff in Hx.
    destruct Hx as [k [Heq Hk]]. apply in_seq in Hk. lia.
Qed.

Lemma consecutive_handles (c : Z) (n : nat) :
  c = 1 ->
  Z.of_nat n < 2 ^ 32 - 1 ->
  map (fun k => uint32 (c + Z.of_nat k)) (seq 1 n) = map Z.of_nat (seq 2 n).
Proof.
  intros -> Hn. rewrite <- (seq_shift n 1), map_map.
  apply map_ext_in. intros k Hk. apply in_seq in Hk.
  rewrite Nat2Z.inj_succ, uint32_small by lia. lia.
Qed.

End Invariant.

(** * The claims *)

Section RegistryClaims.

Context {B : Type} `{DeviceImpl B}.

Implicit Types (s : State B) (d device : DevRef).

(** C3.  Whatever attaches and detaches are run from program start,
    all of them complete, the registry never holds more than 128
    devices, and registered devices plus free slots always number
    128.  Once the registry holds 128 devices every further attach
    returns false and changes nothing.  In particular, attaching
    devices 0 to 127 succeeds 128 times, and the attach after that
    returns false and leaves the registry at 128 entries. *)
Theorem registry_never_exceeds_pool
        (pool : nat -> HID_t) (objs : DevRef -> Device B) (m : Memory) :
  (forall ops : list RegistryOp,
      exists rs s,
        run_ops ops (initial_state pool objs m) = Some (rs, s) /\
        (length (deviceList s) <= 128)%nat /\
        (length (deviceList s) + length (free_slots s) = 128)%nat /\
        (length (deviceList s) = 128%nat ->
         forall d, exists t, AttachDevice d s = Some (false, s, t))) /\
  (exists rs s,
      run_ops (map OpAttach (seq 0 128)) (initial_state pool objs m) = Some (rs, s) /\
      map fst rs = repeat true 128 /\
      length (deviceList s) = 128%nat /\
      forall d, exists t,
          AttachDevice d s = Some (false, s, t) /\ length (deviceList s) = 128%nat).
Proof.
  pose proof (registry_inv_initial pool objs m) as Hinit.
  split.
  - intros ops.
    destruct (run_ops_inv ops _ Hinit) as [rs [s [Hrun Hinv]]].
    exists rs, s. split; [exact Hrun|].
    pose proof Hinv as [_ [_ Hcount]].
    change HID_MAX_NUM_DEVICES with 128%nat in Hcount.
    split; [lia|]. split; [exact Hcount|].
    intros Hfull d. apply AttachDevice_full; assumption.
  - destruct (attach_fresh_run (seq 0 128) _ Hinit) as [rs [s [Hrun [Hres [Hdl Hinv]]]]].
    + apply seq_NoDup.
    + intros d _ [].
    + rewrite length_seq. cbn [initial_state deviceList length].
      change HID_MAX_NUM_DEVICES with 128%nat. lia.
    + rewrite length_seq in Hres.
      assert (Hlen : length (deviceList s) = 128%nat).
      { rewrite Hdl. cbn [initial_state deviceList app]. apply length_seq. }
      exists rs, s. split; [exact Hrun|]. split; [exact Hres|].
      split; [exact Hlen|].
      intros d. destruct (AttachDevice_full s d Hinv Hlen) as [t Ht].
      exists t. split; assumption.
Qed.

(** C4.  AttachDevice always returns.  It returns false exactly when
    the device is already in the registry or the pool has no free
    slot, and then the whole state (registry, free-slot queue, handle
    counter, pool, device objects, memory) is unchanged and nothing
    but the mutex was touched.  After a successful attach, attaching
    the same device again returns false and changes nothing. *)
Theorem AttachDevice_fails_without_effect s d :
  exists r s' t,
    AttachDevice d s = Some (r, s', t) /\
    (r = false <-> In d (deviceList s) \/ free_slots s = []) /\
    (r = false -> s' = s /\ forall e, In e t -> e = EvLock \/ e = EvUnlock) /\
    (r = true -> AttachDevice d s' = Some (false, s', [EvLock; EvUnlock])).
Proof.
  destruct (is_attached d (deviceList s)) eqn:Hin.
  - exists false, s, [EvLock; EvUnlock].
    split; [apply AttachDevice_already; assumption|].
    split; [|split].
    + split; [|reflexivity]. intros _. left. apply is_attached_In. assumption.
    + intros _. split; [reflexivity|]. cbn [In]. intuition.
    + discriminate.
  - destruct (free_slots s) as [|i rest] eqn:Hfree.
    + exists false, s, [EvLock; EvLock; EvLock; EvUnlock; EvUnlock; EvUnlock].
      split; [apply AttachDevice_exhausted; assumption|].
      split; [|split].
      * split; [|reflexivity]. intros _. right. reflexivity.
      * intros _. split; [reflexivity|]. cbn [In]. intuition.
      * discriminate.
    + destruct (AttachDevice_ok s d i rest Hin Hfree) as [s' [Hrun [Hdl _]]].
      exists true, s'. eexists. split; [exact Hrun|].
      split; [|split].
      * split; [discriminate|]. intros [Hd|Hnil]; [|discriminate].
        apply is_attached_In in Hd. congruence.
      * discriminate.
      * intros _. apply AttachDevice_already. apply is_attached_In.
        rewrite Hdl. apply in_or_app. right. left. reflexivity.
Qed.

End RegistryClaims.

Section HandleClaims.

Context {B : Type} `{DeviceImpl B}.

(** C2, as the code has it.  While fewer than 2^32 - 1 handles have
    been dispensed since program start, the generator's successive
    values are 2, 3, 4, ...: strictly increasing, never repeated, the
    first one 2.  The handles bound by the successful attaches of any
    run of attaches and detaches are those values in that order, so
    a slot that is reused gets a new handle. *)
Theorem handles_increase_until_wrap
        (n : nat) (pool : nat -> HID_t) (objs : DevRef -> Device B) (m : Memory) :
  Z.of_nat n < 2 ^ 32 - 1 ->
  (exists s t,
      dispense n (initial_state pool objs m) = Some (map Z.of_nat (seq 2 n), s, t)) /\
  StronglySorted Z.lt (map Z.of_nat (seq 2 n)) /\
  NoDup (map Z.of_nat (seq 2 n)) /\
  Forall (fun h => 2 <= h) (map Z.of_nat (seq 2 n)) /\
  (forall ops : list RegistryOp,
      exists rs s,
        run_ops ops (initial_state pool objs m) = Some (rs, s) /\
        (length (dispensed rs) = n ->
         dispensed rs = map (fun k => Some (Z.of_nat k)) (seq 2 n))).
Proof.
  intros Hn. split; [|split; [|split; [|split]]].
  - destruct (dispense_run n (initial_state pool objs m)) as [s [t Hrun]].
    exists s, t. rewrite Hrun.
    cbn [initial_state _lastGeneratedHidHandle].
    rewrite (consecutive_handles 1 n eq_refl Hn). reflexivity.
  - apply consecutive_sorted.
  - apply consecutive_NoDup.
  - apply Forall_forall. intros h Hh. apply in_map_iff in Hh.
    destruct Hh as [k [<- Hk]]. apply in_seq in Hk. lia.
  - intros ops.
    destruct (run_ops_dispensed ops _ (registry_inv_initial pool objs m))
      as [rs [s [Hrun [Hhs _]]]].
    exists rs, s. split; [exact Hrun|].
    intros Hlen. rewrite Hhs, Hlen.
    cbn [initial_state _lastGeneratedHidHandle].
    rewrite <- (map_map (fun k => uint32 (1 + Z.of_nat k)) Some).
    rewrite (consecutive_handles 1 n eq_refl Hn), map_map. reflexivity.
Qed.

End HandleClaims.

(** Three handles from program start are 2, 3, 4. *)
Lemma handles_increase_until_wrap_witness :
  Z.of_nat 3 < 2 ^ 32 - 1 /\
  (exists s t, dispense 3 (boot pad) = Some ([2; 3; 4], s, t)) /\
  StronglySorted Z.lt [2; 3; 4].
Proof.
  assert (Hn : Z.of_nat 3 < 2 ^ 32 - 1) by (cbn; lia).
  split; [exact Hn|].
  pose proof (handles_increase_until_wrap
                3 (fun _ => blank_HID) (fun _ => Device_new 0x057E 0x0337 0 0 0 pad)
                (fun _ => 0) Hn) as [Hrun [Hsorted _]].
  split; [exact Hrun | exact Hsorted].
Defined.

(** C2 as stated fails: the counter is a [uint32].  The 4294967294th
    handle dispensed since program start is 4294967295 and the next
    one is 0: the sequence is not increasing, and 0 is below 2. *)
Lemma handle_counter_wraps :
  exists hs s t,
    dispense (Z.to_nat 4294967295) (boot pad) = Some (hs ++ [4294967295; 0], s, t) /\
    ~ StronglySorted Z.lt (hs ++ [4294967295; 0]).
Proof.
  remember (Z.to_nat 4294967293) as k eqn:Hk.
  assert (Hkz : Z.of_nat k = 4294967293) by (subst k; apply Z2Nat.id; lia).
  assert (Hn : Z.to_nat 4294967295 = (k + 2)%nat) by lia.
  rewrite Hn. clear Hn Hk.
  destruct (dispense_run (k + 2) (boot pad)) as [s [t Hrun]].
  exists (map (fun j => uint32 (1 + Z.of_nat j)) (seq 1 k)), s, t.
  split.
  - rewrite Hrun. f_equal. f_equal. f_equal.
    rewrite seq_app, map_app. f_equal.
    cbn [seq map boot initial_state _lastGeneratedHidHandle].
    replace (Z.of_nat (S (1 + k))) with 4294967295 by lia.
    replace (Z.of_nat (1 + k)) with 4294967294 by lia.
    reflexivity.
  - intros Hsorted. apply sorted_last_two in Hsorted. lia.
Qed.

(** ** Notifications *)

Lemma lock_depth_app (t1 t2 : list Event) : forall n,
  lock_depth n (t1 ++ t2) = lock_depth (lock_depth n t1) t2.
Proof.
  induction t1 as [|e t1 IH]; intros n; cbn [app lock_depth].
  - reflexivity.
  - destruct e; apply IH.
Qed.

Lemma lock_depth_queued {A : Type} (f : A -> MPTR) (g : A -> list Arg) (l : list A) (n : nat) :
  lock_depth n (map (fun x => EvAsyncCallbackAdd (f x) (g x)) l) = n.
Proof. induction l as [|x l IH]; cbn [map lock_depth]; [reflexivity | exact IH]. Qed.

Lemma filter_inline_queued {A : Type} (f : A -> MPTR) (g : A -> list Arg) (l : list A) :
  filter is_inline_callback (map (fun x => EvAsyncCallbackAdd (f x) (g x)) l) = [].
Proof. induction l as [|x l IH]; cbn [map filter is_inline_callback]; [reflexivity | exact IH]. Qed.

Lemma filter_inline_inline {A : Type} (f : A -> MPTR) (g : A -> list Arg) (l : list A) :
  filter is_inline_callback (map (fun x => EvPPCCoreCallback (f x) (g x)) l) =
  map (fun x => EvPPCCoreCallback (f x) (g x)) l.
Proof.
  induction l as [|x l IH]; cbn [map filter is_inline_callback];
    [reflexivity | rewrite IH; reflexivity].
Qed.

Lemma filter_queued_inline {A : Type} (f : A -> MPTR) (g : A -> list Arg) (l : list A) :
  filter is_queued_callback (map (fun x => EvPPCCoreCallback (f x) (g x)) l) = [].
Proof. induction l as [|x l IH]; cbn [map filter is_queued_callback]; [reflexivity | exact IH]. Qed.

Section NotificationClaims.

Context {B : Type} `{DeviceImpl B}.

Implicit Types (s : State B) (d device : DevRef).

(** C5, as the code has it.  In a state that attach and detach can
    reach, detaching a registered device runs four phases in this
    order: it erases the device from the registry; in that state it
    queues one detach notification per registered client through
    [coreinitAsyncCallback_add], running no guest callback inline; it
    releases the device's slot to the back of the free queue; and,
    after the last release of the mutex, it calls the device's Close.
    Detaching a device that is not registered changes nothing. *)
Theorem DetachDevice_phases s d :
  registry_inv s ->
  (In d (deviceList s) ->
   exists i s2 s3,
     let s1 := set_deviceList (erase_first d (deviceList s)) s in
     let notes :=
       map (fun c => EvAsyncCallbackAdd (load_uint32be (mem s) c)
                       [Word c; HIDAddr (Some i); Word HID_CALLBACK_DETACH])
           (HIDClientList s) in
     let locked :=
       [EvLock] ++ notes ++ [EvLock; EvLock; EvUnlock; EvUnlock] ++ [EvUnlock] in
     m_hid (objects s d) = Some i /\
     for_each (HIDClientList s1) (fun c => DoDetachCallbackAsync c d) s1 =
       Some (tt, s1, notes) /\
     ReleaseHID (Some i) s1 = Some (tt, s2, [EvLock; EvLock; EvUnlock; EvUnlock]) /\
     HIDPoolIndexQueue s2 = free_slots s ++ [i] /\
     Device_Close d s2 = Some (tt, s3, [EvDeviceClose d]) /\
     DetachDevice d s = Some (tt, s3, locked ++ [EvDeviceClose d]) /\
     lock_depth 0 locked = 0%nat /\
     filter is_inline_callback (locked ++ [EvDeviceClose d]) = [] /\
     S (length (deviceList s3)) = length (deviceList s) /\
     length (free_slots s3) = S (length (free_slots s))) /\
  (~ In d (deviceList s) ->
   DetachDevice d s = Some (tt, s, [EvLock; EvUnlock])).
Proof.
  intros Hinv. split.
  - intros Hd. destruct Hinv as [_ [Hbound _]].
    destruct (m_hid (objects s d)) as [i|] eqn:Hhid;
      [|exfalso; apply (Hbound d Hd); assumption].
    assert (Hin : is_attached d (deviceList s) = true) by (apply is_attached_In; assumption).
    exists i. do 2 eexists. cbv zeta.
    split; [reflexivity|].
    split; [rewrite notify_detach_async; state_proj; rewrite Hhid; reflexivity|].
    split; [apply ReleaseHID_run|].
    split; [reflexivity|].
    split; [reflexivity|].
    split.
    { rewrite (DetachDevice_run s d i Hin Hhid).
      f_equal. f_equal. rewrite <- !app_assoc. reflexivity. }
    split.
    { cbn [app lock_depth]. rewrite lock_depth_app, lock_depth_queued. reflexivity. }
    split.
    { cbn [app filter is_inline_callback]. rewrite !filter_app, filter_inline_queued.
      reflexivity. }
    split.
    { state_proj. apply erase_first_length. assumption. }
    unfold free_slots at 1. state_proj.
    change (free_slots (set_deviceList (erase_first d (deviceList s)) s))
      with (free_slots s).
    rewrite length_app. cbn [length]. lia.
  - intros Hd. apply DetachDevice_absent. apply is_attached_not_In. assumption.
Qed.

(** C8.  Registering a client stores its callback address, puts it
    at the front of the client list, and before returning 0 runs one
    attach callback inline ([PPCCoreCallback]) for each device of the
    registry, in registry order, and queues none: with N devices
    attached that is exactly N callbacks.  Removing a client takes it
    off the list and, before returning 0, runs one detach callback
    inline for each device of the registry, in registry order. *)
Theorem client_registration_notifies_inline s (hidClient callbackFuncMPTR : MPTR) :
  (exists s',
      let notes :=
        map (fun d => EvPPCCoreCallback (uint32 callbackFuncMPTR)
                        [Word hidClient; HIDAddr (m_hid (objects s d));
                         Word HID_CALLBACK_ATTACH])
            (deviceList s) in
      let log := [EvLock; EvLock; EvUnlock] ++ notes ++ [EvUnlock] in
      export_HIDAddClient hidClient callbackFuncMPTR s = Some (0, s', log) /\
      filter is_inline_callback log = notes /\
      length (filter is_inline_callback log) = length (deviceList s) /\
      filter is_queued_callback log = [] /\
      HIDClientList s' = hidClient :: HIDClientList s /\
      deviceList s' = deviceList s) /\
  (exists s',
      let notes :=
        map (fun d => EvPPCCoreCallback (load_uint32be (mem s) hidClient)
                        [Word hidClient; HIDAddr (m_hid (objects s d));
                         Word HID_CALLBACK_DETACH])
            (deviceList s) in
      let log := [EvLock; EvLock; EvUnlock] ++ notes ++ [EvUnlock] in
      export_HIDDelClient hidClient s = Some (0, s', log) /\
      filter is_inline_callback log = notes /\
      length (filter is_inline_callback log) = length (deviceList s) /\
      filter is_queued_callback log = [] /\
      ~ In hidClient (HIDClientList s') /\
      deviceList s' = deviceList s).
Proof.
  split.
  - eexists. cbv zeta.
    assert (Hf : forall notes : list Event,
               filter is_inline_callback ([EvLock; EvLock; EvUnlock] ++ notes ++ [EvUnlock])
               = filter is_inline_callback notes).
    { intros notes. cbn [app filter is_inline_callback].
      rewrite filter_app. cbn [filter is_inline_callback]. apply app_nil_r. }
    split; [|split; [|split; [|split]]].
    + unfold export_HIDAddClient, lock_guard, AttachClientToList, lock_guard.
      cbv [bind modify get emit ret]. state_proj.
      rewrite notify_attach_inline. state_proj.
      rewrite load_store_uint32be.
      cbn [app]. rewrite ?app_nil_r, <- ?app_assoc. cbn [app]. reflexivity.
    + rewrite Hf. apply filter_inline_inline.
    + rewrite Hf, filter_inline_inline. apply length_map.
    + cbn [app filter is_queued_callback].
      rewrite filter_app, filter_queued_inline. reflexivity.
    + split; reflexivity.
  - eexists. cbv zeta.
    assert (Hf : forall notes : list Event,
               filter is_inline_callback ([EvLock; EvLock; EvUnlock] ++ notes ++ [EvUnlock])
               = filter is_inline_callback notes).
    { intros notes. cbn [app filter is_inline_callback].
      rewrite filter_app. cbn [filter is_inline_callback]. apply app_nil_r. }
    split; [|split; [|split; [|split]]].
    + unfold export_HIDDelClient, lock_guard, DetachClientFromList, lock_guard.
      cbv [bind modify get emit ret]. state_proj.
      rewrite notify_detach_inline. state_proj.
      cbn [app]. rewrite ?app_nil_r, <- ?app_assoc. cbn [app]. reflexivity.
    + rewrite Hf. apply filter_inline_inline.
    + rewrite Hf, filter_inline_inline. apply length_map.
    + cbn [app filter is_queued_callback].
      rewrite filter_app, filter_queued_inline. reflexivity.
    + split; [|reflexivity]. state_proj.
      intros Hin. apply filter_In in Hin. destruct Hin as [_ Hneq].
      rewrite Z.eqb_refl in Hneq. discriminate.
Qed.

End NotificationClaims.

Lemma one_client_one_device_inv : registry_inv (one_client_one_device pad).
Proof.
  unfold registry_inv. split; [|split].
  - vm_compute. split; [discriminate | reflexivity].
  - intros d Hd. vm_compute in Hd. destruct Hd as [<-|[]].
    vm_compute. discriminate.
  - vm_compute. reflexivity.
Qed.

(** Detaching device 0 with one client registered. *)
Lemma DetachDevice_phases_witness :
  registry_inv (one_client_one_device pad) /\
  In 0%nat (deviceList (one_client_one_device pad)) /\
  log_of (DetachDevice 0%nat (one_client_one_device pad)) =
  Some [EvLock;
        EvAsyncCallbackAdd 0x8000 [Word 0x2000; HIDAddr (Some 0%nat); Word 0];
        EvLock; EvLock; EvUnlock; EvUnlock; EvUnlock;
        EvDeviceClose 0%nat].
Proof.
  assert (Hin : In 0%nat (deviceList (one_client_one_device pad)))
    by (vm_compute; left; reflexivity).
  split; [exact one_client_one_device_inv|]. split; [exact Hin|].
  destruct (DetachDevice_phases (one_client_one_device pad) 0%nat
                                one_client_one_device_inv) as [Hreg _].
  destruct (Hreg Hin) as [i [s2 [s3 [Hhid [_ [_ [_ [_ [Hrun _]]]]]]]]].
  rewrite Hrun. vm_compute in Hhid. injection Hhid as <-.
  vm_compute. reflexivity.
Defined.

(** C5 as stated fails on "synchronous notification": with a client
    registered, detaching the device runs no guest callback inline;
    the client's notification is handed to
    [coreinitAsyncCallback_add]. *)
Lemma detach_notification_is_queued :
  HIDClientList (one_client_one_device pad) = [0x2000] /\
  log_of (DetachDevice 0%nat (one_client_one_device pad)) =
  Some [EvLock;
        EvAsyncCallbackAdd 0x8000 [Word 0x2000; HIDAddr (Some 0%nat); Word 0];
        EvLock; EvLock; EvUnlock; EvUnlock; EvUnlock;
        EvDeviceClose 0%nat] /\
  option_map (existsb is_inline_callback)
             (log_of (DetachDevice 0%nat (one_client_one_device pad))) = Some false.
Proof. split; [|split]; vm_compute; reflexivity. Qed.

(** ** Transfers *)

Section TransferClaims.

Context {B : Type} `{DeviceImpl B}.

Implicit Types (s : State B) (d device : DevRef).

(** C10.  HIDDecodeError does the same whatever the error code: it
    stores 0x3FF as a big-endian word at its first pointer, then
    (uint32)-0x7FFF at its second, and returns 0.  The second word
    reads back as -0x7FFF when taken as signed, and the first reads
    back as 0x3FF when the two words do not overlap. *)
Theorem HIDDecodeError_constants s (errorCode : Z) (ukn0 ukn1 : MPTR) :
  exists s',
    export_HIDDecodeError errorCode ukn0 ukn1 s = Some (0, s', []) /\
    s' = set_mem (store_uint32be (store_uint32be (mem s) ukn0 0x3FF) ukn1
                                 (uint32 (- 0x7FFF))) s /\
    sint32 (load_uint32be (mem s') ukn1) = - 0x7FFF /\
    (ukn1 + 4 <= ukn0 \/ ukn0 + 4 <= ukn1 -> load_uint32be (mem s') ukn0 = 0x3FF) /\
    (forall errorCode',
        export_HIDDecodeError errorCode' ukn0 ukn1 s =
        export_HIDDecodeError errorCode ukn0 ukn1 s).
Proof.
  eexists. split; [reflexivity|]. split; [reflexivity|].
  state_proj. split; [|split].
  - rewrite load_store_uint32be. reflexivity.
  - intros Hd. rewrite load_store_uint32be_other by assumption.
    rewrite load_store_uint32be. reflexivity.
  - intros errorCode'. reflexivity.
Qed.

End TransferClaims.

Section ReadWrite.

Context {B : Type} `{DeviceImpl B}.

Implicit Types (s : State B) (d device : DevRef).

Lemma memset_size_ok (n : Z) :
  0 <= n < 2 ^ 31 -> (PTRDIFF_MAX <? size_t n) = false.
Proof.
  intros Hn. apply Z.ltb_ge. unfold size_t, PTRDIFF_MAX.
  rewrite Z.mod_small; lia.
Qed.

Lemma memset_size_too_large (n : Z) :
  - 2 ^ 31 <= n < 0 -> (PTRDIFF_MAX <? size_t n) = true.
Proof.
  intros Hn. apply Z.ltb_lt. unfold size_t, PTRDIFF_MAX.
  replace n with (n + 2 ^ 64 + (-1) * 2 ^ 64) by lia.
  rewrite Z.mod_add by lia. rewrite Z.mod_small; lia.
Qed.

Lemma _hidReadInternalSync_closed s d (data : MPTR) (maxLength : Z) :
  dev_IsOpened (m_impl (objects s d)) = false ->
  _hidReadInternalSync d data maxLength s = Some (-1, s, []).
Proof.
  intros Hc. unfold _hidReadInternalSync, Device_IsOpened.
  cbv [bind get ret]. rewrite Hc. reflexivity.
Qed.

Lemma _hidReadInternalSync_open s d (data : MPTR) (maxLength : Z)
      (r : ReadResult) (n : Z) (m' : Memory) (b' : B) :
  dev_IsOpened (m_impl (objects s d)) = true ->
  0 <= maxLength < 2 ^ 31 ->
  dev_Read (m_impl (objects s d)) data maxLength
           (memset (mem s) data 0 (size_t maxLength)) = (r, n, m', b') ->
  _hidReadInternalSync d data maxLength s =
  Some (match r with
        | ReadResult_Success => n
        | ReadResult_Error => -1
        | ReadResult_ErrorTimeout => -108
        end,
        set_objects (update (objects s) d (Device_set_impl (objects s d) b'))
                    (set_mem m' s),
        [EvDeviceRead d]).
Proof.
  intros Ho Hlen Hr.
  unfold _hidReadInternalSync, call_memset, Device_IsOpened, Device_Read, store_impl.
  rewrite (memset_size_ok maxLength Hlen).
  cbv [bind get ret modify emit]. rewrite Ho. cbv [negb]. state_proj.
  rewrite Hr. state_proj. destruct r; reflexivity.
Qed.

(** On an opened device a negative length ends the run in [memset],
    before the device is asked to read. *)
Lemma _hidReadInternalSync_negative s d (data : MPTR) (maxLength : Z) :
  dev_IsOpened (m_impl (objects s d)) = true ->
  - 2 ^ 31 <= maxLength < 0 ->
  _hidReadInternalSync d data maxLength s = None.
Proof.
  intros Ho Hlen.
  unfold _hidReadInternalSync, call_memset, Device_IsOpened.
  rewrite (memset_size_too_large maxLength Hlen).
  cbv [bind get ret fault]. rewrite Ho. reflexivity.
Qed.

Lemma _hidWriteInternalSync_closed s d (data : MPTR) (maxLength : Z) :
  dev_IsOpened (m_impl (objects s d)) = false ->
  _hidWriteInternalSync d data maxLength s = Some (-1, s, []).
Proof.
  intros Hc. unfold _hidWriteInternalSync, Device_IsOpened.
  cbv [bind get ret]. rewrite Hc. reflexivity.
Qed.

Lemma _hidWriteInternalSync_open s d (data : MPTR) (maxLength : Z)
      (w : WriteResult) (k : Z) (b' : B) :
  dev_IsOpened (m_impl (objects s d)) = true ->
  dev_Write (m_impl (objects s d)) data maxLength (mem s) = (w, k, b') ->
  _hidWriteInternalSync d data maxLength s =
  Some (match w with
        | WriteResult_Success => k
        | WriteResult_Error => -1
        | WriteResult_ErrorTimeout => -108
        end,
        set_objects (update (objects s) d (Device_set_impl (objects s d) b')) s,
        [EvDeviceWrite d]).
Proof.
  intros Ho Hw. unfold _hidWriteInternalSync, Device_IsOpened, Device_Write, store_impl.
  cbv [bind get ret modify emit]. rewrite Ho. cbv [negb].
  rewrite Hw. destruct w; reflexivity.
Qed.

(** The completion callback of an asynchronous Read or Write, from
    the return code of the synchronous core. *)
Lemma async_completion (core : M B Z) (cbF cbP data : MPTR)
      s d (i : nat) (code : Z) s1 (t1 : list Event) :
  core s = Some (code, s1, t1) ->
  m_hid (objects s1 d) = Some i ->
  bind core
       (fun returnCode =>
          bind (Device_hid_handle d)
               (fun h =>
                  DoHIDTransferCallback cbF cbP h
                    (if returnCode <? 0 then returnCode else 0) data
                    (if returnCode >? 0 then returnCode else 0))) s =
  Some (tt, s1,
        t1 ++ [EvAsyncCallbackAdd cbF
                 [Word (handle (HIDPool s1 i));
                  Word (uint32 (if code <? 0 then code else 0));
                  Word data;
                  Word (sint32 (if code >? 0 then code else 0));
                  Word cbP]]).
Proof.
  intros Hcore Hhid. unfold bind at 1. rewrite Hcore.
  unfold Device_hid_handle, DoHIDTransferCallback.
  cbv [bind get ret emit]. rewrite Hhid. reflexivity.
Qed.

End ReadWrite.

Section ReadWriteClaims.

Context {B : Type} `{DeviceImpl B}.

Implicit Types (s : State B) (d device : DevRef).

(** C1.  On an attached, opened device, let the device answer a Read
    with result [r] and byte count [n], and a Write with [w] and [k];
    for the Read let maxLength be a non-negative [sint32] (with a
    negative one the Read core dies in [memset] and the device is
    never asked).
    The synchronous core returns the byte count on Success (0
    included), -1 on Error and -108 on ErrorTimeout.  The
    asynchronous wrapper performs the same transfer and then queues
    one completion callback carrying the device's handle, an error
    code, the buffer address and a length: on Success with a byte
    count that is a non-negative [sint32] the error code is 0 and the
    length is the byte count; on Error and ErrorTimeout the error
    code is -1 and -108 as a 32-bit word and the length is 0. *)
Theorem transfer_status_mapping
        s d (i : nat) (data : MPTR) (maxLength : Z) (cbF cbP : MPTR)
        (r : ReadResult) (n : Z) (m' : Memory) (b' : B)
        (w : WriteResult) (k : Z) (b'' : B) :
  dev_IsOpened (m_impl (objects s d)) = true ->
  m_hid (objects s d) = Some i ->
  dev_Read (m_impl (objects s d)) data maxLength
           (memset (mem s) data 0 (size_t maxLength)) = (r, n, m', b') ->
  dev_Write (m_impl (objects s d)) data maxLength (mem s) = (w, k, b'') ->
  (0 <= maxLength < 2 ^ 31 ->
   result_of (_hidReadInternalSync d data maxLength s) =
     Some (match r with
           | ReadResult_Success => n
           | ReadResult_Error => -1
           | ReadResult_ErrorTimeout => -108
           end)) /\
  result_of (_hidWriteInternalSync d data maxLength s) =
    Some (match w with
          | WriteResult_Success => k
          | WriteResult_Error => -1
          | WriteResult_ErrorTimeout => -108
          end) /\
  (0 <= maxLength < 2 ^ 31 ->
   exists e len,
      log_of (_hidReadAsync d data maxLength cbF cbP s) =
        Some [EvDeviceRead d;
              EvAsyncCallbackAdd cbF
                [Word (handle (HIDPool s i)); Word e; Word data; Word len; Word cbP]] /\
      match r with
      | ReadResult_Success => 0 <= n < 2 ^ 31 -> e = 0 /\ len = n
      | ReadResult_Error => sint32 e = -1 /\ len = 0
      | ReadResult_ErrorTimeout => sint32 e = -108 /\ len = 0
      end) /\
  (exists e len,
      log_of (_hidWriteAsync d data maxLength cbF cbP s) =
        Some [EvDeviceWrite d;
              EvAsyncCallbackAdd cbF
                [Word (handle (HIDPool s i)); Word e; Word data; Word len; Word cbP]] /\
      match w with
      | WriteResult_Success => 0 <= k < 2 ^ 31 -> e = 0 /\ len = k
      | WriteResult_Error => sint32 e = -1 /\ len = 0
      | WriteResult_ErrorTimeout => sint32 e = -108 /\ len = 0
      end).
Proof.
  intros Ho Hhid Hr Hw.
  pose proof (fun Hlen => _hidReadInternalSync_open s d data maxLength r n m' b'
                            Ho Hlen Hr) as Hread.
  pose proof (_hidWriteInternalSync_open s d data maxLength w k b'' Ho Hw) as Hwrite.
  assert (Hsuccess : forall c, 0 <= c < 2 ^ 31 ->
            uint32 (if c <? 0 then c else 0) = 0 /\
            sint32 (if c >? 0 then c else 0) = c).
  { intros c Hc. destruct (Z.ltb_spec c 0); [lia|].
    split; [reflexivity|].
    destruct (Z.gtb_spec c 0); [apply sint32_small; lia|].
    replace c with 0 by lia. reflexivity. }
  split; [intros Hlen; rewrite (Hread Hlen); reflexivity|].
  split; [rewrite Hwrite; reflexivity|].
  split.
  - intros Hlen.
    assert (Hasync := async_completion (_hidReadInternalSync d data maxLength)
                        cbF cbP data s d i _ _ _ (Hread Hlen)).
    state_proj in Hasync. rewrite update_same in Hasync.
    specialize (Hasync Hhid).
    do 2 eexists. split.
    + unfold _hidReadAsync. cbv zeta. rewrite Hasync. reflexivity.
    + destruct r.
      * apply Hsuccess.
      * split; reflexivity.
      * split; reflexivity.
  - assert (Hasync := async_completion (_hidWriteInternalSync d data maxLength)
                        cbF cbP data s d i _ _ _ Hwrite).
    state_proj in Hasync. rewrite update_same in Hasync.
    specialize (Hasync Hhid).
    do 2 eexists. split.
    + unfold _hidWriteAsync. cbv zeta. rewrite Hasync. reflexivity.
    + destruct w.
      * apply Hsuccess.
      * split; reflexivity.
      * split; reflexivity.
Qed.

End ReadWriteClaims.

(** An opened pad on handle 2 answers a 16-byte Read with 3 bytes
    and a Write with 10 bytes accepted. *)
Lemma transfer_status_mapping_witness :
  dev_IsOpened (m_impl (objects (one_device pad) 0%nat)) = true /\
  m_hid (objects (one_device pad) 0%nat) = Some 0%nat /\
  result_of (_hidReadInternalSync 0%nat 0x1000 16 (one_device pad)) = Some 3 /\
  result_of (_hidWriteInternalSync 0%nat 0x1000 16 (one_device pad)) = Some 10 /\
  log_of (_hidReadAsync 0%nat 0x1000 16 0x500 7 (one_device pad)) =
    Some [EvDeviceRead 0%nat;
          EvAsyncCallbackAdd 0x500 [Word 2; Word 0; Word 0x1000; Word 3; Word 7]].
Proof.
  assert (Ho : dev_IsOpened (m_impl (objects (one_device pad) 0%nat)) = true)
    by reflexivity.
  assert (Hhid : m_hid (objects (one_device pad) 0%nat) = Some 0%nat)
    by reflexivity.
  assert (Hr : dev_Read (m_impl (objects (one_device pad) 0%nat)) 0x1000 16
                        (memset (mem (one_device pad)) 0x1000 0 (size_t 16)) =
               (ReadResult_Success, 3,
                write_bytes (memset (mem (one_device pad)) 0x1000 0 (size_t 16))
                            0x1000 [1; 2; 3],
                pad))
    by reflexivity.
  assert (Hw : dev_Write (m_impl (objects (one_device pad) 0%nat)) 0x1000 16
                         (mem (one_device pad)) =
               (WriteResult_Success, 10, pad))
    by reflexivity.
  assert (Hlen : 0 <= 16 < 2 ^ 31) by (cbn; lia).
  destruct (transfer_status_mapping (one_device pad) 0%nat 0%nat 0x1000 16 0x500 7
              _ _ _ _ _ _ _ Ho Hhid Hr Hw)
    as [Hread [Hwrite [Hasync _]]].
  destruct (Hasync Hlen) as [e [len [Hlog He]]].
  split; [exact Ho|]. split; [exact Hhid|].
  split; [exact (Hread Hlen)|]. split; [exact Hwrite|].
  destruct He as [-> ->]; [cbn; lia|].
  exact Hlog.
Defined.

Section ReadBufferClaim.

Context {B : Type} `{DeviceImpl B}.

Implicit Types (s : State B) (d device : DevRef).

(** C7.  For a [sint32] maxLength: on a closed device the
    synchronous Read returns -1 and the state, memory included, is
    the one it was given, with no device call made, whatever
    maxLength is.  On an opened device with maxLength at least 0 the
    Read capability is called exactly once, on a memory whose bytes
    from the buffer address up to maxLength are 0 and whose bytes
    outside the cleared range are the caller's; the returned status
    and the final memory are what that call produced, whatever its
    result.  On an opened device with a negative maxLength the size
    handed to [memset] is at least 2^64 - 2^31: the run ends there,
    the device is not asked to read and nothing is returned. *)
Theorem read_clears_buffer_after_open_check s d (data : MPTR) (maxLength : Z) :
  - 2 ^ 31 <= maxLength < 2 ^ 31 ->
  if dev_IsOpened (m_impl (objects s d)) then
    if maxLength <? 0 then
      2 ^ 64 - 2 ^ 31 <= size_t maxLength /\
      _hidReadInternalSync d data maxLength s = None
    else
      let cleared := memset (mem s) data 0 maxLength in
      (forall a, data <= a < data + maxLength -> cleared a = 0) /\
      (forall a, a < data \/ data + maxLength <= a -> cleared a = mem s a) /\
      exists s',
        _hidReadInternalSync d data maxLength s =
          Some (match fst (fst (fst (dev_Read (m_impl (objects s d)) data maxLength
                                              cleared))) with
                | ReadResult_Success =>
                    snd (fst (fst (dev_Read (m_impl (objects s d)) data maxLength
                                            cleared)))
                | ReadResult_Error => -1
                | ReadResult_ErrorTimeout => -108
                end,
                s', [EvDeviceRead d]) /\
        mem s' = snd (fst (dev_Read (m_impl (objects s d)) data maxLength cleared))
  else
    _hidReadInternalSync d data maxLength s = Some (-1, s, []).
Proof.
  intros Hlen.
  destruct (dev_IsOpened (m_impl (objects s d))) eqn:Ho.
  - destruct (Z.ltb_spec maxLength 0) as [Hneg|Hpos].
    + split.
      * unfold size_t.
        replace maxLength with (maxLength + 2 ^ 64 + (-1) * 2 ^ 64) by lia.
        rewrite Z.mod_add by lia. rewrite Z.mod_small; lia.
      * apply _hidReadInternalSync_negative; [assumption | lia].
    + assert (Hsz : size_t maxLength = maxLength)
        by (unfold size_t; apply Z.mod_small; lia).
      cbv zeta. split; [|split].
      * intros a Ha. apply memset_inside. assumption.
      * intros a Ha. apply memset_outside. assumption.
      * destruct (dev_Read (m_impl (objects s d)) data maxLength
                           (memset (mem s) data 0 maxLength))
          as [[[r n] m'] b'] eqn:Hr.
        eexists. split.
        -- apply (_hidReadInternalSync_open s d data maxLength r n m' b' Ho);
             [lia | rewrite Hsz; exact Hr].
        -- reflexivity.
  - apply _hidReadInternalSync_closed. assumption.
Qed.

End ReadBufferClaim.

(** A closed pad: -1 and nothing touched.  An opened pad asked for 16
    bytes: the three delivered bytes land on a zeroed buffer.  The
    same pad asked for -1 bytes: no result. *)
Lemma read_clears_buffer_after_open_check_witness :
  - 2 ^ 31 <= 16 < 2 ^ 31 /\
  - 2 ^ 31 <= -1 < 2 ^ 31 /\
  _hidReadInternalSync 0%nat 0x1000 16 (one_device pad_closed) =
    Some (-1, one_device pad_closed, []) /\
  (forall a, 0x1000 <= a < 0x1000 + 16 ->
             memset (mem (one_device pad)) 0x1000 0 16 a = 0) /\
  result_of (_hidReadInternalSync 0%nat 0x1000 16 (one_device pad)) = Some 3 /\
  _hidReadInternalSync 0%nat 0x1000 (-1) (one_device pad) = None.
Proof.
  assert (Hlen : - 2 ^ 31 <= 16 < 2 ^ 31) by (cbn; lia).
  assert (Hneg : - 2 ^ 31 <= -1 < 2 ^ 31) by (cbn; lia).
  split; [exact Hlen|]. split; [exact Hneg|]. split; [|split; [|split]].
  - exact (read_clears_buffer_after_open_check (one_device pad_closed) 0%nat 0x1000 16 Hlen).
  - exact (proj1 (read_clears_buffer_after_open_check (one_device pad) 0%nat 0x1000 16 Hlen)).
  - destruct (read_clears_buffer_after_open_check (one_device pad) 0%nat 0x1000 16 Hlen)
      as [_ [_ [s' [Hrun _]]]].
    rewrite Hrun. reflexivity.
  - exact (proj2 (read_clears_buffer_after_open_check (one_device pad) 0%nat 0x1000 (-1)
                    Hneg)).
Defined.

Section DispatchClaims.

Context {B : Type} `{DeviceImpl B}.

Implicit Types (s : State B) (d device : DevRef).

Lemma resolved_bind {A : Type} (k : option DevRef -> M B A) (h : Z) s
      (r : option DevRef) s1 (t1 : list Event) :
  GetDeviceByHandle h true s = Some (r, s1, t1) ->
  bind (GetDeviceByHandle h true) k s =
  match k r s1 with
  | Some (a, s2, t2) => Some (a, s2, t1 ++ t2)
  | None => None
  end.
Proof. intros Hres. unfold bind. rewrite Hres. reflexivity. Qed.

(** C6, as the code has it.  When the handle resolves and no
    callback is given, HIDGetDescriptor calls the device's
    GetDescriptor once and returns outputMaxLength, read as a
    [sint32], if the device reports success, and -1 if it reports
    failure; what the device wrote is in memory but plays no part in
    the return value. *)
Theorem GetDescriptor_sync_returns_capacity
        s (hidHandle descType descIndex lang : Z) (output : MPTR)
        (outputMaxLength : Z) (cbParamMPTR : MPTR) d s1 (t1 : list Event) :
  GetDeviceByHandle hidHandle true s = Some (Some d, s1, t1) ->
  exists s2,
    export_HIDGetDescriptor hidHandle descType descIndex lang output outputMaxLength
                            MPTR_NULL cbParamMPTR s =
    Some (if fst (fst (dev_GetDescriptor (m_impl (objects s1 d)) descType descIndex lang
                                         output outputMaxLength (mem s1)))
          then sint32 outputMaxLength
          else -1,
          s2, t1 ++ [EvDeviceGetDescriptor d]) /\
    mem s2 = snd (fst (dev_GetDescriptor (m_impl (objects s1 d)) descType descIndex lang
                                         output outputMaxLength (mem s1))).
Proof.
  intros Hres. unfold export_HIDGetDescriptor.
  rewrite (resolved_bind _ _ _ _ _ _ Hres).
  cbn [Z.eqb MPTR_NULL].
  unfold Device_GetDescriptor, store_impl. cbv [bind get ret modify emit].
  destruct (dev_GetDescriptor (m_impl (objects s1 d)) descType descIndex lang
                              output outputMaxLength (mem s1)) as [[ok m'] b'].
  state_proj. cbn [fst snd]. destruct ok; eexists; split; reflexivity.
Qed.

End DispatchClaims.

(** Handle 2 resolves to the pad, whose descriptor is two bytes
    long; asked with a 16-byte buffer the call returns 16. *)
Lemma GetDescriptor_sync_returns_capacity_witness :
  GetDeviceByHandle 2 true (one_device pad) =
    Some (Some 0%nat, one_device pad, [EvLock; EvUnlock]) /\
  result_of (export_HIDGetDescriptor 2 1 0 0 0x1000 16 MPTR_NULL 0 (one_device pad)) =
    Some 16.
Proof.
  assert (Hres : GetDeviceByHandle 2 true (one_device pad) =
                 Some (Some 0%nat, one_device pad, [EvLock; EvUnlock]))
    by (vm_compute; reflexivity).
  split; [exact Hres|].
  destruct (GetDescriptor_sync_returns_capacity
              (one_device pad) 2 1 0 0 0x1000 16 0 0%nat _ _ Hres) as [s2 [Hrun _]].
  rewrite Hrun. vm_compute. reflexivity.
Defined.

(** C6 as stated fails: the pad writes its two descriptor bytes into
    a 16-byte buffer, and the synchronous call returns 16, the
    buffer's capacity, not 2. *)
Lemma GetDescriptor_returns_capacity_not_count :
  result_of (export_HIDGetDescriptor 2 1 0 0 0x1000 16 MPTR_NULL 0 (one_device pad)) =
    Some 16 /\
  mem (after (export_HIDGetDescriptor 2 1 0 0 0x1000 16 MPTR_NULL 0) (one_device pad)) =
    write_bytes (mem (one_device pad)) 0x1000 [9; 2] /\
  16 <> Z.of_nat (length [9; 2]).
Proof.
  split; [|split].
  - vm_compute. reflexivity.
  - vm_compute. reflexivity.
  - cbn. discriminate.
Qed.

Section ModeClaims.

Context {B : Type} `{DeviceImpl B}.

Implicit Types (s : State B) (d device : DevRef).

Ltac run_device_ops :=
  unfold _hidSetReportSync, _hidReadSync, _hidWriteSync,
    _hidReadInternalSync, _hidWriteInternalSync,
    Device_GetDescriptor, Device_SetIdle, Device_SetProtocol, Device_SetReport,
    Device_Read, Device_Write, Device_IsOpened, store_impl;
  cbv [bind get ret modify emit]; state_proj.

(** C9, as the code has it.  Each of the six transfer entry points
    first resolves the handle (opening the device if it is closed).
    If that gives no device the call returns -1, callback or not.  If
    it gives a device: with a non-null callback address the call
    detaches a worker thread for the request, performs no device
    operation itself and returns 0; with a null callback address no
    thread is detached and the device operation is carried out
    before the call returns (for SetReport, Read and Write on a
    launched worker the call waits for).  One synchronous call does
    not return: a Read on an opened device with a maxLength that is
    negative as a [sint32], whose worker dies in [memset]. *)
Theorem callback_selects_mode
        s (hidHandle : Z) (r : option DevRef) s1 (t1 : list Event)
        (descType descIndex lang : Z) (output : MPTR) (outputMaxLength : Z)
        (ifIndex reportId duration protocol : Z)
        (reportType : Z) (data : MPTR) (dataLength maxLength : Z)
        (callbackFuncMPTR callbackParamMPTR : MPTR) :
  GetDeviceByHandle hidHandle true s = Some (r, s1, t1) ->
  match r with
  | None =>
      export_HIDGetDescriptor hidHandle descType descIndex lang output outputMaxLength
        callbackFuncMPTR callbackParamMPTR s = Some (-1, s1, t1) /\
      export_HIDSetIdle hidHandle ifIndex reportId duration
        callbackFuncMPTR callbackParamMPTR s = Some (-1, s1, t1) /\
      export_HIDSetProtocol hidHandle ifIndex protocol
        callbackFuncMPTR callbackParamMPTR s = Some (-1, s1, t1) /\
      export_HIDSetReport hidHandle reportType reportId data dataLength
        callbackFuncMPTR callbackParamMPTR s = Some (-1, s1, t1) /\
      export_HIDRead hidHandle data maxLength
        callbackFuncMPTR callbackParamMPTR s = Some (-1, s1, t1) /\
      export_HIDWrite hidHandle data maxLength
        callbackFuncMPTR callbackParamMPTR s = Some (-1, s1, t1)
  | Some d =>
      (callbackFuncMPTR <> MPTR_NULL ->
       export_HIDGetDescriptor hidHandle descType descIndex lang output outputMaxLength
         callbackFuncMPTR callbackParamMPTR s =
         Some (0, s1,
               t1 ++ [EvThreadDetach
                        (Task_hidGetDescriptorAsync d descType descIndex lang output
                           outputMaxLength callbackFuncMPTR callbackParamMPTR)]) /\
       export_HIDSetIdle hidHandle ifIndex reportId duration
         callbackFuncMPTR callbackParamMPTR s =
         Some (0, s1,
               t1 ++ [EvThreadDetach
                        (Task_hidSetIdleAsync d ifIndex reportId duration
                           callbackFuncMPTR callbackParamMPTR)]) /\
       export_HIDSetProtocol hidHandle ifIndex protocol
         callbackFuncMPTR callbackParamMPTR s =
         Some (0, s1,
               t1 ++ [EvThreadDetach
                        (Task_hidSetProtocolAsync d ifIndex protocol
                           callbackFuncMPTR callbackParamMPTR)]) /\
       export_HIDSetReport hidHandle reportType reportId data dataLength
         callbackFuncMPTR callbackParamMPTR s =
         Some (0, s1,
               t1 ++ [EvThreadDetach
                        (Task_hidSetReportAsync d reportType reportId data dataLength
                           callbackFuncMPTR callbackParamMPTR)]) /\
       export_HIDRead hidHandle data maxLength
         callbackFuncMPTR callbackParamMPTR s =
         Some (0, s1,
               t1 ++ [EvThreadDetach
                        (Task_hidReadAsync d data (sint32 maxLength)
                           callbackFuncMPTR callbackParamMPTR)]) /\
       export_HIDWrite hidHandle data maxLength
         callbackFuncMPTR callbackParamMPTR s =
         Some (0, s1,
               t1 ++ [EvThreadDetach
                        (Task_hidWriteAsync d data (sint32 maxLength)
                           callbackFuncMPTR callbackParamMPTR)])) /\
      (exists rc s2,
          export_HIDGetDescriptor hidHandle descType descIndex lang output
            outputMaxLength MPTR_NULL callbackParamMPTR s =
          Some (rc, s2, t1 ++ [EvDeviceGetDescriptor d])) /\
      (exists rc s2,
          export_HIDSetIdle hidHandle ifIndex reportId duration
            MPTR_NULL callbackParamMPTR s =
          Some (rc, s2, t1 ++ [EvDeviceSetIdle d])) /\
      (exists rc s2,
          export_HIDSetProtocol hidHandle ifIndex protocol
            MPTR_NULL callbackParamMPTR s =
          Some (rc, s2, t1 ++ [EvDeviceSetProtocol d])) /\
      (exists rc s2,
          export_HIDSetReport hidHandle reportType reportId data dataLength
            MPTR_NULL callbackParamMPTR s =
          Some (rc, s2,
                t1 ++ [EvOSInitEvent; EvAsyncLaunch; EvDeviceSetReport d;
                       EvOSSignalEvent; EvOSWaitEvent])) /\
      (if dev_IsOpened (m_impl (objects s1 d)) && (sint32 maxLength <? 0) then
         export_HIDRead hidHandle data maxLength MPTR_NULL callbackParamMPTR s = None
       else
         exists rc s2,
           export_HIDRead hidHandle data maxLength MPTR_NULL callbackParamMPTR s =
           Some (rc, s2,
                 t1 ++ [EvOSInitEvent; EvAsyncLaunch] ++
                 (if dev_IsOpened (m_impl (objects s1 d)) then [EvDeviceRead d] else []) ++
                 [EvOSSignalEvent; EvOSWaitEvent])) /\
      (exists rc s2,
          export_HIDWrite hidHandle data maxLength MPTR_NULL callbackParamMPTR s =
          Some (rc, s2,
                t1 ++ [EvOSInitEvent; EvAsyncLaunch] ++
                (if dev_IsOpened (m_impl (objects s1 d)) then [EvDeviceWrite d] else []) ++
                [EvOSSignalEvent; EvOSWaitEvent]))
  end.
Proof.
  intros Hres.
  unfold export_HIDGetDescriptor, export_HIDSetIdle, export_HIDSetProtocol,
    export_HIDSetReport, export_HIDRead, export_HIDWrite.
  rewrite !(resolved_bind _ _ _ _ _ _ Hres).
  destruct r as [d|].
  - split; [|repeat split].
    + intros Hcb. apply Z.eqb_neq in Hcb. rewrite Hcb.
      cbv [negb bind emit ret]. cbn [app]. repeat split; reflexivity.
    + cbn [Z.eqb MPTR_NULL]. run_device_ops.
      destruct (dev_GetDescriptor (m_impl (objects s1 d)) descType descIndex lang
                                  output outputMaxLength (mem s1)) as [[ok m'] b'].
      destruct ok; do 2 eexists; reflexivity.
    + cbn [Z.eqb MPTR_NULL]. run_device_ops.
      destruct (dev_SetIdle (m_impl (objects s1 d)) ifIndex reportId duration) as [ok b'].
      destruct ok; do 2 eexists; reflexivity.
    + cbn [Z.eqb MPTR_NULL]. run_device_ops.
      destruct (dev_SetProtocol (m_impl (objects s1 d)) ifIndex protocol) as [ok b'].
      destruct ok; do 2 eexists; reflexivity.
    + cbn [Z.eqb MPTR_NULL]. run_device_ops.
      destruct (dev_SetReport (m_impl (objects s1 d))
                              (mkReportMessage reportType reportId data dataLength)
                              (mem s1)) as [ok b'].
      do 2 eexists. reflexivity.
    + cbn [Z.eqb MPTR_NULL negb].
      assert (Hrange : - 2 ^ 31 <= sint32 maxLength < 2 ^ 31).
      { unfold sint32. pose proof (Z.mod_pos_bound (maxLength + 2 ^ 31) (2 ^ 32)). lia. }
      destruct (dev_IsOpened (m_impl (objects s1 d))) eqn:Ho; cbn [andb].
      * destruct (Z.ltb_spec (sint32 maxLength) 0) as [Hneg|Hpos].
        -- unfold _hidReadSync. cbv [bind emit ret].
           rewrite (_hidReadInternalSync_negative s1 d data (sint32 maxLength) Ho)
             by lia.
           reflexivity.
        -- unfold _hidReadSync, _hidReadInternalSync, call_memset.
           rewrite (memset_size_ok (sint32 maxLength)) by lia.
           run_device_ops. rewrite Ho. cbv [negb]. state_proj.
           destruct (dev_Read (m_impl (objects s1 d)) data (sint32 maxLength)
                              (memset (mem s1) data 0 (size_t (sint32 maxLength))))
             as [[[rr n] m'] b'].
           state_proj. destruct rr; do 2 eexists; reflexivity.
      * run_device_ops. rewrite Ho. cbv [negb]. do 2 eexists. reflexivity.
    + cbn [Z.eqb MPTR_NULL negb]. run_device_ops.
      destruct (dev_IsOpened (m_impl (objects s1 d))); cbv [negb].
      * destruct (dev_Write (m_impl (objects s1 d)) data (sint32 maxLength) (mem s1))
          as [[ww n] b'].
        destruct ww; do 2 eexists; reflexivity.
      * do 2 eexists. reflexivity.
  - unfold ret. rewrite app_nil_r. repeat split; reflexivity.
Qed.

End ModeClaims.

(** Handle 2 resolves to the opened pad: a Read with callback 0x500
    detaches a worker and returns 0; without a callback it returns
    the three bytes read. *)
Lemma callback_selects_mode_witness :
  GetDeviceByHandle 2 true (one_device pad) =
    Some (Some 0%nat, one_device pad, [EvLock; EvUnlock]) /\
  0x500 <> MPTR_NULL /\
  export_HIDRead 2 0x1000 16 0x500 7 (one_device pad) =
    Some (0, one_device pad,
          [EvLock; EvUnlock] ++
          [EvThreadDetach (Task_hidReadAsync 0%nat 0x1000 (sint32 16) 0x500 7)]) /\
  log_of (export_HIDRead 2 0x1000 16 MPTR_NULL 7 (one_device pad)) =
    Some [EvLock; EvUnlock; EvOSInitEvent; EvAsyncLaunch; EvDeviceRead 0%nat;
          EvOSSignalEvent; EvOSWaitEvent].
Proof.
  assert (Hres : GetDeviceByHandle 2 true (one_device pad) =
                 Some (Some 0%nat, one_device pad, [EvLock; EvUnlock]))
    by (vm_compute; reflexivity).
  assert (Hcb : 0x500 <> MPTR_NULL) by discriminate.
  destruct (callback_selects_mode (one_device pad) 2 (Some 0%nat) (one_device pad)
              [EvLock; EvUnlock] 1 0 0 0x1000 16 0 0 0 0 2 0x1000 16 16 0x500 7 Hres)
    as [Hasync [_ [_ [_ [_ [Hsync' _]]]]]].
  assert (Hplain : dev_IsOpened (m_impl (objects (one_device pad) 0%nat)) &&
                   (sint32 16 <? 0) = false) by (vm_compute; reflexivity).
  rewrite Hplain in Hsync'. destruct Hsync' as [rc [s2 Hsync]].
  destruct (Hasync Hcb) as [_ [_ [_ [_ [Hread _]]]]].
  split; [exact Hres|]. split; [exact Hcb|]. split; [exact Hread|].
  rewrite Hsync. vm_compute. reflexivity.
Defined.

(** C9 as stated fails: a non-null callback does not force 0 when the
    handle does not resolve.  No device carries handle 7 at program
    start, and handle 2 belongs to a pad that cannot be opened: both
    calls return -1 and detach no thread. *)
Lemma callback_does_not_force_zero :
  0x500 <> MPTR_NULL /\
  result_of (export_HIDRead 7 0x1000 16 0x500 0 (boot pad)) = Some (-1) /\
  log_of (export_HIDRead 7 0x1000 16 0x500 0 (boot pad)) = Some [EvLock; EvUnlock] /\
  result_of (export_HIDWrite 2 0x1000 16 0x500 0 (one_device pad_closed)) = Some (-1) /\
  log_of (export_HIDWrite 2 0x1000 16 0x500 0 (one_device pad_closed)) =
    Some [EvLock; EvUnlock; EvDeviceOpen 0%nat].
Proof.
  split; [discriminate|].
  repeat split; vm_compute; reflexivity.
Qed.

(** ** Concrete runs of the unconditional claims *)

(** Devices 0 to 127 fill the pool; device 128 is then refused. *)
Lemma registry_never_exceeds_pool_witness :
  exists rs s,
    run_ops (map OpAttach (seq 0 128)) (boot pad) = Some (rs, s) /\
    map fst rs = repeat true 128 /\
    length (deviceList s) = 128%nat /\
    result_of (AttachDevice 128%nat s) = Some false.
Proof.
  destruct (registry_never_exceeds_pool
              (fun _ => blank_HID) (fun _ => Device_new 0x057E 0x0337 0 0 0 pad)
              (fun _ => 0))
    as [_ [rs [s [Hrun [Hres [Hlen Hfull]]]]]].
  exists rs, s. split; [exact Hrun|]. split; [exact Hres|]. split; [exact Hlen|].
  destruct (Hfull 128%nat) as [t [Ht _]]. rewrite Ht. reflexivity.
Defined.

(** Attaching device 0 a second time. *)
Lemma AttachDevice_fails_without_effect_witness :
  In 0%nat (deviceList (one_device pad)) /\
  result_of (AttachDevice 0%nat (one_device pad)) = Some false /\
  after (AttachDevice 0%nat) (one_device pad) = one_device pad.
Proof.
  assert (Hin : In 0%nat (deviceList (one_device pad)))
    by (vm_compute; left; reflexivity).
  destruct (AttachDevice_fails_without_effect (one_device pad) 0%nat)
    as [r [s' [t [Hrun [Hiff [Hsame _]]]]]].
  assert (Hr : r = false) by (apply Hiff; left; exact Hin).
  destruct (Hsame Hr) as [Hs _].
  split; [exact Hin|]. unfold after. rewrite Hrun, Hr, Hs.
  split; reflexivity.
Defined.

(** A second client registers while device 0 is attached: one inline
    attach callback, for slot 0. *)
Lemma client_registration_notifies_inline_witness :
  deviceList (one_client_one_device pad) = [0%nat] /\
  log_of (export_HIDAddClient 0x3000 0x9000 (one_client_one_device pad)) =
    Some [EvLock; EvLock; EvUnlock;
          EvPPCCoreCallback 0x9000 [Word 0x3000; HIDAddr (Some 0%nat); Word 1];
          EvUnlock] /\
  log_of (export_HIDDelClient 0x2000 (one_client_one_device pad)) =
    Some [EvLock; EvLock; EvUnlock;
          EvPPCCoreCallback 0x8000 [Word 0x2000; HIDAddr (Some 0%nat); Word 0];
          EvUnlock].
Proof.
  destruct (client_registration_notifies_inline (one_client_one_device pad) 0x3000 0x9000)
    as [[s' [Hadd _]] _].
  destruct (client_registration_notifies_inline (one_client_one_device pad) 0x2000 0)
    as [_ [s'' [Hdel _]]].
  split; [vm_compute; reflexivity|].
  rewrite Hadd, Hdel. split; vm_compute; reflexivity.
Defined.

(** Two adjacent output words. *)
Lemma HIDDecodeError_constants_witness :
  (0x104 + 4 <= 0x100 \/ 0x100 + 4 <= 0x104) /\
  result_of (export_HIDDecodeError 5 0x100 0x104 (boot pad)) = Some 0 /\
  load_uint32be (mem (after (export_HIDDecodeError 5 0x100 0x104) (boot pad))) 0x100 =
    0x3FF /\
  sint32 (load_uint32be (mem (after (export_HIDDecodeError 5 0x100 0x104) (boot pad)))
                        0x104) = - 0x7FFF.
Proof.
  assert (Hd : 0x104 + 4 <= 0x100 \/ 0x100 + 4 <= 0x104) by (right; cbn; lia).
  destruct (HIDDecodeError_constants (boot pad) 5 0x100 0x104)
    as [s' [Hrun [_ [H1 [H0 _]]]]].
  split; [exact Hd|]. unfold after. rewrite Hrun.
  split; [reflexivity|]. split; [exact (H0 Hd) | exact H1].
Defined.

(** * More of the registry *)

Lemma NoDup_app_disjoint {A : Type} (l1 l2 : list A) (x : A) :
  NoDup (l1 ++ l2) -> In x l1 -> In x l2 -> False.
Proof.
  induction l1 as [|a l1 IH]; cbn [app In]; intros Hnd H1 H2.
  - exact H1.
  - inversion Hnd as [|? ? Hnotin Hnd']; subst.
    destruct H1 as [->|H1].
    + apply Hnotin. apply in_or_app. right. assumption.
    + apply IH; assumption.
Qed.

Lemma NoDup_map_Some {A : Type} (l : list A) : NoDup l -> NoDup (map Some l).
Proof.
  induction 1 as [|x l Hnotin Hnd IH]; cbn [map]; constructor; [|assumption].
  intros Hin. apply in_map_iff in Hin. destruct Hin as [y [Heq Hy]].
  injection Heq as ->. contradiction.
Qed.

Lemma perm_release {A : Type} (a c f : list A) (x : A) :
  Permutation ((a ++ c) ++ f ++ [x]) ((a ++ x :: c) ++ f).
Proof.
  apply Permutation_trans with (x :: (a ++ c) ++ f).
  - rewrite (app_assoc (a ++ c) f [x]).
    apply Permutation_sym, Permutation_cons_append.
  - apply (Permutation_app_tail f (Permutation_middle a c x)).
Qed.

Lemma sorted_snoc (l : list Z) (x : Z) :
  StronglySorted Z.lt l -> Forall (fun h => h < x) l ->
  StronglySorted Z.lt (l ++ [x]).
Proof.
  induction l as [|a l IH]; cbn [app]; intros Hs Hall.
  - constructor; constructor.
  - inversion Hs as [|? ? Hs' Ha]; subst.
    inversion Hall as [|? ? Hax Hall']; subst.
    constructor.
    + apply IH; assumption.
    + apply Forall_app. split; [assumption|]. constructor; [assumption | constructor].
Qed.

Lemma erase_first_split (d : DevRef) (l : list DevRef) :
  In d l ->
  exists l1 l2, l = l1 ++ d :: l2 /\ ~ In d l1 /\ erase_first d l = l1 ++ l2.
Proof.
  induction l as [|x l IH]; cbn [In erase_first].
  - intros [].
  - intros Hin. destruct (Nat.eqb_spec d x) as [->|Hne].
    + exists [], l. repeat split. intros [].
    + destruct Hin as [Heq|Hin]; [congruence|].
      destruct (IH Hin) as [l1 [l2 [-> [Hn He]]]].
      exists (x :: l1), l2. cbn [app]. rewrite He.
      repeat split. intros [Hx|Hx]; [congruence | contradiction].
Qed.

Lemma erase_first_NoDup (d : DevRef) (l : list DevRef) :
  NoDup l -> NoDup (erase_first d l) /\ ~ In d (erase_first d l).
Proof.
  induction l as [|x l IH]; cbn [erase_first]; intros Hnd.
  - split; [constructor | intros []].
  - inversion Hnd as [|? ? Hnotin Hnd']; subst.
    destruct (Nat.eqb_spec d x) as [->|Hne].
    + split; assumption.
    + destruct (IH Hnd') as [Hnd1 Hn1]. split.
      * constructor; [|assumption].
        intros Hin. apply Hnotin. eapply erase_first_incl. eassumption.
      * intros [Hx|Hx]; [congruence | contradiction].
Qed.

Lemma sorted_erase_first (g : DevRef -> Z) (d : DevRef) (l : list DevRef) :
  StronglySorted Z.lt (map g l) -> StronglySorted Z.lt (map g (erase_first d l)).
Proof.
  induction l as [|x l IH]; cbn [erase_first map]; intros Hs.
  - constructor.
  - inversion Hs as [|? ? Hs' Hx]; subst.
    destruct (Nat.eqb_spec d x) as [->|Hne]; [assumption|].
    cbn [map]. constructor; [apply IH; assumption|].
    apply Forall_forall. intros h Hh. apply in_map_iff in Hh.
    destruct Hh as [y [<- Hy]]. apply erase_first_incl in Hy.
    rewrite Forall_forall in Hx. apply Hx. apply in_map. assumption.
Qed.

Section WellFormed.

Context {B : Type} `{DeviceImpl B}.

Implicit Types (s : State B) (d device : DevRef).

Lemma AttachDevice_slot s d (i : nat) (rest : list nat) s' (t : list Event) :
  is_attached d (deviceList s) = false ->
  free_slots s = i :: rest ->
  AttachDevice d s = Some (true, s', t) ->
  HIDPool s' i =
  mkHID (uint32 (_lastGeneratedHidHandle s + 1)) 0x11223344
        (m_vendorId (objects s d)) (m_productId (objects s d))
        (m_interfaceIndex (objects s d)) (m_interfaceSubClass (objects s d))
        (m_protocol (objects s d)) 0
        (m_maxPacketSizeRX (objects s d)) (m_maxPacketSizeTX (objects s d)).
Proof.
  intros Hna Hfree.
  unfold AttachDevice, lock_guard.
  cbv [bind get emit ret]. rewrite Hna.
  rewrite GetFreeHID_run, Hfree.
  cbv beta iota. rewrite GenerateHIDHandle_run.
  cbv beta iota.
  cbv [modify Device_AssignHID bind get ret].
  state_proj. cbn [tl].
  rewrite notify_attach_async. state_proj.
  rewrite !update_same. cbn [m_hid Device_set_hid handle HID_set_handle app].
  intros Hrun. injection Hrun as <- _.
  state_proj. rewrite update_same. reflexivity.
Qed.

Lemma registry_wf_initial (pool : nat -> HID_t) (objs : DevRef -> Device B) (m : Memory) :
  registry_wf (initial_state pool objs m).
Proof.
  split; [apply registry_inv_initial|].
  split; [constructor|]. split.
  - apply Permutation_refl.
  - intros d i [].
Qed.

Lemma wf_bound_not_free s d (j : nat) :
  registry_wf s -> In d (deviceList s) -> m_hid (objects s d) = Some j ->
  ~ In j (free_slots s).
Proof.
  intros [_ [_ [Hperm _]]] Hd Hj Hfree.
  assert (Hnd : NoDup (bound_slots s ++ map Some (free_slots s))).
  { eapply Permutation_NoDup; [apply Permutation_sym; exact Hperm|].
    apply NoDup_map_Some, seq_NoDup. }
  apply (NoDup_app_disjoint _ _ (Some j) Hnd).
  - unfold bound_slots. rewrite <- Hj. apply in_map with (f := fun x => m_hid (objects s x)).
    assumption.
  - apply in_map. assumption.
Qed.

(** The slots in use and the free slots, as plain facts. *)
Lemma wf_slots s :
  registry_wf s ->
  NoDup (bound_slots s ++ map Some (free_slots s)) /\
  (forall p, In p (bound_slots s ++ map Some (free_slots s)) ->
             exists i, p = Some i /\ (i < HID_MAX_NUM_DEVICES)%nat).
Proof.
  intros [_ [_ [Hperm _]]]. split.
  - eapply Permutation_NoDup; [apply Permutation_sym; exact Hperm|].
    apply NoDup_map_Some, seq_NoDup.
  - intros p Hp. eapply Permutation_in in Hp; [|exact Hperm].
    apply in_map_iff in Hp. destruct Hp as [i [<- Hi]].
    exists i. split; [reflexivity|]. apply in_seq in Hi. lia.
Qed.

Lemma AttachDevice_wf s d (r : bool) s' (t : list Event) :
  registry_wf s ->
  AttachDevice d s = Some (r, s', t) ->
  registry_wf s'.
Proof.
  intros Hwf Hrun.
  destruct (is_attached d (deviceList s)) eqn:Hin.
  { rewrite (AttachDevice_already s d Hin) in Hrun. congruence. }
  destruct (free_slots s) as [|i rest] eqn:Hfree.
  { rewrite (AttachDevice_exhausted s d Hin Hfree) in Hrun. congruence. }
  destruct (AttachDevice_ok s d i rest Hin Hfree)
    as [s1 [Hrun1 [Hdl [_ [_ [Hinit [Hq [_ [Hpool [Hobj [Hother _]]]]]]]]]]].
  rewrite Hrun1 in Hrun. injection Hrun as <- <- <-.
  pose proof (AttachDevice_slot s d i rest s1 _ Hin Hfree Hrun1) as Hslot.
  assert (Hnot : ~ In d (deviceList s)) by (apply is_attached_not_In; assumption).
  pose proof Hwf as [Hinv [Hnd [Hperm Hdesc]]].
  split; [eapply AttachDevice_inv; eassumption|].
  split; [|split].
  - rewrite Hdl. eapply Permutation_NoDup; [apply Permutation_cons_append|].
    constructor; assumption.
  - assert (Hbs : bound_slots s1 = bound_slots s ++ [Some i]).
    { unfold bound_slots. rewrite Hdl, map_app. cbn [map]. rewrite Hobj.
      cbn [m_hid Device_set_hid]. f_equal.
      apply map_ext_in. intros x Hx. rewrite Hother; [reflexivity|].
      intros ->. contradiction. }
    rewrite Hbs, (free_slots_initialized _ Hinit), Hq, <- app_assoc.
    rewrite Hfree in Hperm. exact Hperm.
  - intros x j Hx Hj. rewrite Hdl in Hx. apply in_app_or in Hx.
    destruct (Nat.eq_dec x d) as [->|Hne].
    + rewrite Hobj in Hj. cbn [m_hid Device_set_hid] in Hj. injection Hj as <-.
      rewrite Hslot, Hobj. unfold slot_describes. cbn. repeat split; reflexivity.
    + destruct Hx as [Hx|[Hx|[]]]; [|congruence].
      rewrite (Hother x Hne) in *.
      assert (Hji : j <> i).
      { intros ->. apply (wf_bound_not_free s x i Hwf Hx Hj).
        rewrite Hfree. left. reflexivity. }
      rewrite (Hpool j Hji). apply Hdesc; assumption.
Qed.

Lemma DetachDevice_wf s d s' (t : list Event) :
  registry_wf s ->
  DetachDevice d s = Some (tt, s', t) ->
  registry_wf s'.
Proof.
  intros Hwf Hrun.
  destruct (is_attached d (deviceList s)) eqn:Hin.
  2:{ rewrite (DetachDevice_absent s d Hin) in Hrun. congruence. }
  pose proof Hwf as [Hinv [Hnd [Hperm Hdesc]]].
  assert (Hd : In d (deviceList s)) by (apply is_attached_In; assumption).
  destruct (m_hid (objects s d)) as [i|] eqn:Hhid.
  2:{ exfalso. destruct Hinv as [_ [Hbound _]]. apply (Hbound d Hd). assumption. }
  destruct (DetachDevice_inv s d Hinv) as [s2 [t2 [Hrun2 [Hinv2 _]]]].
  rewrite Hrun in Hrun2. injection Hrun2 as <- <-.
  destruct (DetachDevice_ok s d i Hin Hhid)
    as [s1 [Hrun1 [Hdl [_ [_ [Hinit [Hq [Hpool [Hobj [Hother _]]]]]]]]]].
  rewrite Hrun in Hrun1. injection Hrun1 as <- _.
  assert (Hsame : forall x, m_hid (objects s' x) = m_hid (objects s x)).
  { intros x. destruct (Nat.eq_dec x d) as [->|Hne].
    - rewrite Hobj. reflexivity.
    - rewrite (Hother x Hne). reflexivity. }
  split; [assumption|]. split; [|split].
  - rewrite Hdl. apply erase_first_NoDup. assumption.
  - destruct (erase_first_split d (deviceList s) Hd) as [l1 [l2 [Hl [_ He]]]].
    unfold bound_slots in *. rewrite Hdl, He.
    rewrite (map_ext _ _ Hsame).
    rewrite (free_slots_initialized _ Hinit), Hq.
    rewrite Hl in Hperm. rewrite !map_app in *. cbn [map] in *.
    rewrite Hhid in Hperm.
    eapply Permutation_trans; [|exact Hperm].
    apply perm_release.
  - intros x j Hx Hj. rewrite Hdl in Hx. apply erase_first_incl in Hx.
    rewrite Hsame in Hj. rewrite Hpool.
    specialize (Hdesc x j Hx Hj).
    destruct (Nat.eq_dec x d) as [->|Hne].
    + rewrite Hobj. exact Hdesc.
    + rewrite (Hother x Hne). exact Hdesc.
Qed.

Lemma run_ops_wf (ops : list RegistryOp) : forall s,
  registry_wf s ->
  exists rs s', run_ops ops s = Some (rs, s') /\ registry_wf s'.
Proof.
  induction ops as [|op ops IH]; intros s Hwf; cbn [run_ops].
  - exists [], s. split; [reflexivity | assumption].
  - destruct op as [d|d].
    + destruct (AttachDevice_total s d) as [r [s1 [t Hrun]]].
      rewrite Hrun.
      destruct (IH s1 (AttachDevice_wf _ _ _ _ _ Hwf Hrun)) as [rs [s2 [Hrest Hwf2]]].
      rewrite Hrest. do 2 eexists. split; [reflexivity | assumption].
    + destruct (DetachDevice_inv s d (proj1 Hwf)) as [s1 [t [Hrun _]]].
      rewrite Hrun. apply IH. eapply DetachDevice_wf; eassumption.
Qed.

End WellFormed.

(** ** Handles and lookup *)

Section Handles.

Context {B : Type} `{DeviceImpl B}.

Implicit Types (s : State B) (d device : DevRef).

Lemma handles_wf_initial (pool : nat -> HID_t) (objs : DevRef -> Device B) (m : Memory) :
  handles_wf (initial_state pool objs m).
Proof.
  split; [cbn; lia|]. split; constructor.
Qed.

Lemma AttachDevice_handles s d (r : bool) s' (t : list Event) :
  registry_wf s ->
  handles_wf s ->
  _lastGeneratedHidHandle s + 1 < 2 ^ 32 ->
  AttachDevice d s = Some (r, s', t) ->
  handles_wf s' /\
  _lastGeneratedHidHandle s <= _lastGeneratedHidHandle s' <= _lastGeneratedHidHandle s + 1.
Proof.
  intros Hwf [Hone [Hsorted Hall]] Hroom Hrun.
  destruct (is_attached d (deviceList s)) eqn:Hin.
  { rewrite (AttachDevice_already s d Hin) in Hrun. injection Hrun as _ <- _.
    split; [repeat split; assumption | lia]. }
  destruct (free_slots s) as [|i rest] eqn:Hfree.
  { rewrite (AttachDevice_exhausted s d Hin Hfree) in Hrun. injection Hrun as _ <- _.
    split; [repeat split; assumption | lia]. }
  destruct (AttachDevice_ok s d i rest Hin Hfree)
    as [s1 [Hrun1 [Hdl [_ [Hlast [_ [_ [Hh [Hpool [Hobj [Hother _]]]]]]]]]]].
  rewrite Hrun1 in Hrun. injection Hrun as <- <- <-.
  assert (Hnot : ~ In d (deviceList s)) by (apply is_attached_not_In; assumption).
  assert (Hnew : uint32 (_lastGeneratedHidHandle s + 1) = _lastGeneratedHidHandle s + 1)
    by (apply uint32_small; lia).
  rewrite Hnew in *.
  assert (Hkeep : forall x, In x (deviceList s) -> handle_at s1 x = handle_at s x).
  { intros x Hx. assert (Hne : x <> d) by (intros ->; contradiction).
    unfold handle_at, slot_handle. rewrite (Hother x Hne).
    destruct (m_hid (objects s x)) as [j|] eqn:Hj; [|reflexivity].
    rewrite Hpool; [reflexivity|].
    intros ->. apply (wf_bound_not_free s x i Hwf Hx Hj).
    rewrite Hfree. left. reflexivity. }
  assert (Hd : handle_at s1 d = _lastGeneratedHidHandle s + 1).
  { unfold handle_at, slot_handle. rewrite Hobj. cbn [m_hid Device_set_hid].
    rewrite Hh. reflexivity. }
  split; [|lia].
  split; [lia|]. rewrite Hdl, Hlast. split.
  - rewrite map_app. cbn [map]. rewrite Hd, (map_ext_in _ _ _ Hkeep).
    apply sorted_snoc; [assumption|].
    apply Forall_forall. intros h Hh'. apply in_map_iff in Hh'.
    destruct Hh' as [x [<- Hx]]. rewrite Forall_forall in Hall.
    specialize (Hall x Hx). lia.
  - apply Forall_app. split.
    + apply Forall_forall. intros x Hx. rewrite (Hkeep x Hx).
      rewrite Forall_forall in Hall. specialize (Hall x Hx). lia.
    + constructor; [rewrite Hd; lia | constructor].
Qed.

Lemma DetachDevice_handles s d s' (t : list Event) :
  registry_wf s ->
  handles_wf s ->
  DetachDevice d s = Some (tt, s', t) ->
  handles_wf s' /\ _lastGeneratedHidHandle s' = _lastGeneratedHidHandle s.
Proof.
  intros Hwf [Hone [Hsorted Hall]] Hrun.
  destruct (is_attached d (deviceList s)) eqn:Hin.
  2:{ rewrite (DetachDevice_absent s d Hin) in Hrun. injection Hrun as <- _.
      split; [repeat split; assumption | reflexivity]. }
  pose proof Hwf as [Hinv _].
  assert (Hd : In d (deviceList s)) by (apply is_attached_In; assumption).
  destruct (m_hid (objects s d)) as [i|] eqn:Hhid.
  2:{ exfalso. destruct Hinv as [_ [Hbound _]]. apply (Hbound d Hd). assumption. }
  destruct (DetachDevice_ok s d i Hin Hhid)
    as [s1 [Hrun1 [Hdl [_ [Hlast [_ [_ [Hpool [Hobj [Hother _]]]]]]]]]].
  rewrite Hrun in Hrun1. injection Hrun1 as <- _.
  assert (Hkeep : forall x, handle_at s' x = handle_at s x).
  { intros x. unfold handle_at, slot_handle. rewrite Hpool.
    destruct (Nat.eq_dec x d) as [->|Hne].
    - rewrite Hobj. reflexivity.
    - rewrite (Hother x Hne). reflexivity. }
  split; [|exact Hlast].
  split; [lia|]. rewrite Hdl, Hlast. split.
  - rewrite (map_ext _ _ Hkeep). apply sorted_erase_first. assumption.
  - apply Forall_forall. intros x Hx. apply erase_first_incl in Hx.
    rewrite Hkeep. rewrite Forall_forall in Hall. apply Hall. assumption.
Qed.

Lemma run_ops_handles (ops : list RegistryOp) : forall s,
  registry_wf s ->
  handles_wf s ->
  _lastGeneratedHidHandle s + Z.of_nat (length ops) < 2 ^ 32 ->
  exists rs s',
    run_ops ops s = Some (rs, s') /\ registry_wf s' /\ handles_wf s'.
Proof.
  induction ops as [|op ops IH]; intros s Hwf Hh Hroom; cbn [run_ops].
  - exists [], s. split; [reflexivity|]. split; assumption.
  - cbn [length] in Hroom. rewrite Nat2Z.inj_succ in Hroom.
    destruct op as [d|d].
    + destruct (AttachDevice_total s d) as [r [s1 [t Hrun]]].
      rewrite Hrun.
      destruct (AttachDevice_handles s d r s1 t Hwf Hh ltac:(lia) Hrun) as [Hh1 Hc].
      destruct (IH s1 (AttachDevice_wf _ _ _ _ _ Hwf Hrun) Hh1 ltac:(lia))
        as [rs [s2 [Hrest [Hwf2 Hh2]]]].
      rewrite Hrest. do 2 eexists. split; [reflexivity|]. split; assumption.
    + destruct (DetachDevice_inv s d (proj1 Hwf)) as [s1 [t [Hrun _]]].
      rewrite Hrun.
      destruct (DetachDevice_handles s d s1 t Hwf Hh Hrun) as [Hh1 Hc].
      apply IH; [eapply DetachDevice_wf; eassumption | assumption | lia].
Qed.

Lemma find_handle_step (x : DevRef) (l : list DevRef) (h : Z) s (j : nat) :
  m_hid (objects s x) = Some j ->
  find_handle (x :: l) h s =
  if handle (HIDPool s j) =? h then Some (Some x, s, [])
  else match find_handle l h s with
       | Some (r, s', t) => Some (r, s', [] ++ [] ++ t)
       | None => None
       end.
Proof.
  intros Hj. cbn [find_handle]. unfold bind, Device_hid_handle, get. cbn.
  rewrite Hj. cbn. destruct (handle (HIDPool s j) =? h); [reflexivity|].
  destruct (find_handle l h s) as [[[r s'] t]|]; reflexivity.
Qed.

Lemma find_handle_first (l : list DevRef) (h : Z) s :
  (forall x, In x l -> m_hid (objects s x) <> None) ->
  find_handle l h s =
  Some (find (fun x => handle_at s x =? h) l, s, []).
Proof.
  induction l as [|x l IH]; intros Hslots.
  - reflexivity.
  - destruct (m_hid (objects s x)) as [j|] eqn:Hj;
      [|exfalso; apply (Hslots x); [left; reflexivity | assumption]].
    rewrite (find_handle_step x l h s j Hj). cbn [find].
    unfold handle_at at 1, slot_handle. rewrite Hj.
    destruct (handle (HIDPool s j) =? h); [reflexivity|].
    rewrite IH; [reflexivity|]. intros y Hy. apply Hslots. right. assumption.
Qed.

Lemma GetDeviceByHandle_run (h : Z) (openIfClosed : bool) s :
  (forall x, In x (deviceList s) -> m_hid (objects s x) <> None) ->
  GetDeviceByHandle h openIfClosed s =
  match find (fun x => handle_at s x =? h) (deviceList s) with
  | None => Some (None, s, [EvLock; EvUnlock])
  | Some d =>
      if openIfClosed && negb (dev_IsOpened (m_impl (objects s d))) then
        Some (if fst (dev_Open (m_impl (objects s d))) then Some d else None,
              set_objects
                (update (objects s) d
                   (Device_set_impl (objects s d)
                      (snd (dev_Open (m_impl (objects s d)))))) s,
              [EvLock; EvUnlock; EvDeviceOpen d])
      else Some (Some d, s, [EvLock; EvUnlock])
  end.
Proof.
  intros Hslots. unfold GetDeviceByHandle, lock_guard.
  unfold bind at 1. unfold bind at 1. unfold emit at 1.
  unfold bind at 1. unfold bind at 1. unfold get at 1.
  rewrite (find_handle_first _ h s Hslots).
  cbv [bind emit ret]. cbn [app].
  destruct (find (fun x => handle_at s x =? h) (deviceList s)) as [d|]; [|reflexivity].
  unfold Device_IsOpened, Device_Open, store_impl. cbv [bind get ret emit modify].
  destruct (dev_IsOpened (m_impl (objects s d))); cbn [negb andb].
  - rewrite andb_false_r. reflexivity.
  - rewrite andb_true_r. destruct openIfClosed; [|reflexivity].
    destruct (dev_Open (m_impl (objects s d))) as [ok b']. cbn [fst snd].
    destruct ok; reflexivity.
Qed.

Lemma find_unique_handle (l : list DevRef) (g : DevRef -> Z) (d : DevRef) :
  StronglySorted Z.lt (map g l) -> In d l ->
  find (fun x => g x =? g d) l = Some d.
Proof.
  induction l as [|x l IH]; cbn [map find In]; intros Hs Hd.
  - destruct Hd.
  - inversion Hs as [|? ? Hs' Hx]; subst.
    destruct (Z.eqb_spec (g x) (g d)) as [Heq|Hne].
    + destruct Hd as [->|Hd]; [reflexivity|].
      rewrite Forall_forall in Hx. specialize (Hx (g d) (in_map g l d Hd)). lia.
    + destruct Hd as [->|Hd]; [congruence|]. apply IH; assumption.
Qed.

End Handles.

Lemma NoDup_map_inj_in {A C : Type} (f : A -> C) (l : list A) (x y : A) :
  NoDup (map f l) -> In x l -> In y l -> f x = f y -> x = y.
Proof.
  induction l as [|a l IH]; cbn [map In]; intros Hnd Hx Hy Heq.
  - destruct Hx.
  - inversion Hnd as [|? ? Hnotin Hnd']; subst.
    destruct Hx as [->|Hx]; destruct Hy as [->|Hy].
    + reflexivity.
    + exfalso. apply Hnotin. rewrite Heq. apply in_map. assumption.
    + exfalso. apply Hnotin. rewrite <- Heq. apply in_map. assumption.
    + apply IH; assumption.
Qed.

Section AllocationOrder.

Context {B : Type} `{DeviceImpl B}.

Implicit Types (s : State B) (d device : DevRef).

Lemma attach_in_order (ds : list DevRef) : forall s (a r : nat),
  free_slots s = seq a (length ds + r) ->
  NoDup ds ->
  (forall d, In d ds -> ~ In d (deviceList s)) ->
  0 <= _lastGeneratedHidHandle s ->
  _lastGeneratedHidHandle s + Z.of_nat (length ds) < 2 ^ 32 ->
  exists rs s',
    run_ops (map OpAttach ds) s = Some (rs, s') /\
    map fst rs = repeat true (length ds) /\
    deviceList s' = deviceList s ++ ds /\
    free_slots s' = seq (a + length ds) r /\
    (forall k, (k < length ds)%nat ->
               m_hid (objects s' (nth k ds 0%nat)) = Some (a + k)%nat /\
               handle (HIDPool s' (a + k)%nat) =
               _lastGeneratedHidHandle s + Z.of_nat k + 1) /\
    (forall x, ~ In x ds -> objects s' x = objects s x) /\
    (forall j, (j < a)%nat -> HIDPool s' j = HIDPool s j).
Proof.
  induction ds as [|d ds IH]; intros s a r Hfree Hnd Hfresh Hpos Hroom;
    cbn [map run_ops length].
  - exists [], s. cbn [length] in *. rewrite Nat.add_0_r, app_nil_r.
    split; [reflexivity|]. split; [reflexivity|]. split; [reflexivity|].
    split; [exact Hfree|]. split; [intros k Hk; lia|].
    split; intros; reflexivity.
  - cbn [length] in Hfree, Hroom. cbn [Nat.add seq] in Hfree.
    rewrite Nat2Z.inj_succ in Hroom.
    assert (Hna : is_attached d (deviceList s) = false).
    { apply is_attached_not_In. apply Hfresh. left. reflexivity. }
    destruct (AttachDevice_ok s d a _ Hna Hfree)
      as [s1 [Hrun [Hdl [_ [Hlast [Hinit [Hq [Hh [Hpool [Hobj [Hother _]]]]]]]]]]].
    rewrite uint32_small in Hlast, Hh by lia.
    rewrite Hrun.
    inversion Hnd as [|? ? Hnotin Hnd']; subst.
    destruct (IH s1 (S a) r) as [rs [s2 [Hrest [Hres [Hdl2 [Hfree2 [Hk [Hobj2 Hpool2]]]]]]]].
    + rewrite (free_slots_initialized _ Hinit), Hq. reflexivity.
    + assumption.
    + intros d' Hd' Hin'. rewrite Hdl in Hin'. apply in_app_or in Hin'.
      destruct Hin' as [Hin'|[<-|[]]].
      * apply (Hfresh d'); [right; assumption | assumption].
      * contradiction.
    + lia.
    + lia.
    + rewrite Hrest. do 2 eexists. split; [reflexivity|].
      cbn [map fst repeat]. rewrite Hres, Hdl2, Hdl, <- app_assoc, Hfree2.
      split; [reflexivity|]. split; [reflexivity|].
      split; [f_equal; lia|]. split; [|split].
      * intros k Hlt. destruct k as [|k]; cbn [nth].
        -- rewrite Nat.add_0_r, (Hobj2 d Hnotin), Hobj, (Hpool2 a), Hh by lia.
           cbn [m_hid Device_set_hid]. split; [reflexivity | lia].
        -- destruct (Hk k ltac:(lia)) as [Hm Hv].
           replace (a + S k)%nat with (S a + k)%nat by lia.
           rewrite Hm, Hv, Hlast, Nat2Z.inj_succ. split; [reflexivity | lia].
      * intros x Hx. rewrite Hobj2, Hother; [reflexivity| |].
        -- intros ->. apply Hx. left. reflexivity.
        -- intros Hin'. apply Hx. right. assumption.
      * intros j Hj. rewrite Hpool2, Hpool by lia. reflexivity.
Qed.

End AllocationOrder.

Lemma find_none_all {A : Type} (f : A -> bool) (l : list A) :
  (forall x, In x l -> f x = false) -> find f l = None.
Proof.
  induction l as [|x l IH]; cbn [find]; intros Hall; [reflexivity|].
  rewrite (Hall x (or_introl eq_refl)). apply IH.
  intros y Hy. apply Hall. right. assumption.
Qed.

Lemma find_split {A : Type} (f : A -> bool) (l : list A) (x : A) :
  find f l = Some x ->
  exists l1 l2, l = l1 ++ x :: l2 /\ f x = true /\ forall y, In y l1 -> f y = false.
Proof.
  induction l as [|a l IH]; cbn [find]; [discriminate|].
  destruct (f a) eqn:Hfa.
  - intros Heq. injection Heq as <-. exists [], l.
    split; [reflexivity|]. split; [assumption | intros y []].
  - intros Hfind. destruct (IH Hfind) as [l1 [l2 [-> [Hfx Hl1]]]].
    exists (a :: l1), l2. split; [reflexivity|]. split; [assumption|].
    intros y [<-|Hy]; [assumption | apply Hl1; assumption].
Qed.

(** * Further properties *)

Section RegistryProperties.

Context {B : Type} `{DeviceImpl B}.

Implicit Types (s : State B) (d device : DevRef).

(** X1.  After any run of attaches and detaches from program start:
    every registered device points at a slot of the pool that is not
    in the free queue, no two registered devices point at the same
    slot, and the free queue holds slots of the pool with no slot
    twice.  So [GetFreeHID] never hands out a slot a registered
    device still uses. *)
Theorem slots_are_exclusive
        (pool : nat -> HID_t) (objs : DevRef -> Device B) (m : Memory)
        (ops : list RegistryOp) :
  exists rs s,
    run_ops ops (initial_state pool objs m) = Some (rs, s) /\
    (forall d, In d (deviceList s) ->
               exists i, m_hid (objects s d) = Some i /\ (i < 128)%nat /\
                         ~ In i (free_slots s)) /\
    (forall d1 d2, In d1 (deviceList s) -> In d2 (deviceList s) ->
                   m_hid (objects s d1) = m_hid (objects s d2) -> d1 = d2) /\
    NoDup (free_slots s) /\
    (forall i, In i (free_slots s) -> (i < 128)%nat).
Proof.
  destruct (run_ops_wf ops _ (registry_wf_initial pool objs m)) as [rs [s [Hrun Hwf]]].
  exists rs, s. split; [exact Hrun|].
  destruct (wf_slots s Hwf) as [Hnd Hrange].
  split; [|split; [|split]].
  - intros d Hd.
    destruct (Hrange (m_hid (objects s d))) as [i [Hi Hlt]].
    { apply in_or_app. left. unfold bound_slots.
      apply in_map with (f := fun x => m_hid (objects s x)). assumption. }
    exists i. split; [exact Hi|]. split; [exact Hlt|].
    apply (wf_bound_not_free s d i Hwf Hd Hi).
  - intros d1 d2 H1 H2 Heq.
    apply (NoDup_map_inj_in (fun x => m_hid (objects s x)) (deviceList s)); try assumption.
    apply NoDup_app_remove_r in Hnd. exact Hnd.
  - apply NoDup_app_remove_l in Hnd. apply NoDup_map_inv in Hnd. exact Hnd.
  - intros i Hi. destruct (Hrange (Some i)) as [j [Hj Hlt]].
    { apply in_or_app. right. apply in_map. assumption. }
    injection Hj as ->. exact Hlt.
Qed.

(** X2.  After any run of attaches and detaches from program start
    no device is in the registry twice, and the slot of every
    registered device carries what [AssignHID] copied from that
    device: its vendor and product id, interface index and subclass,
    protocol and packet sizes, with [ukn04] = 0x11223344 and the
    padding 0. *)
Theorem registered_slot_describes_device
        (pool : nat -> HID_t) (objs : DevRef -> Device B) (m : Memory)
        (ops : list RegistryOp) :
  exists rs s,
    run_ops ops (initial_state pool objs m) = Some (rs, s) /\
    NoDup (deviceList s) /\
    (forall d i, In d (deviceList s) -> m_hid (objects s d) = Some i ->
                 slot_describes (HIDPool s i) (objects s d)).
Proof.
  destruct (run_ops_wf ops _ (registry_wf_initial pool objs m))
    as [rs [s [Hrun [_ [Hnd [_ Hdesc]]]]]].
  exists rs, s. split; [exact Hrun|]. split; assumption.
Qed.

(** X3.  From program start, attaching up to 128 distinct devices
    one after the other succeeds every time; the k-th of them
    (counting from 0) gets slot k and handle k + 2, and the slots
    from then on are still free, in order. *)
Theorem first_attaches_take_slots_in_order
        (pool : nat -> HID_t) (objs : DevRef -> Device B) (m : Memory)
        (ds : list DevRef) :
  NoDup ds ->
  (length ds <= 128)%nat ->
  exists rs s,
    run_ops (map OpAttach ds) (initial_state pool objs m) = Some (rs, s) /\
    map fst rs = repeat true (length ds) /\
    deviceList s = ds /\
    free_slots s = seq (length ds) (128 - length ds) /\
    (forall k, (k < length ds)%nat ->
               m_hid (objects s (nth k ds 0%nat)) = Some k /\
               handle (HIDPool s k) = Z.of_nat k + 2).
Proof.
  intros Hnd Hlen.
  destruct (attach_in_order ds (initial_state pool objs m) 0 (128 - length ds))
    as [rs [s [Hrun [Hres [Hdl [Hfree [Hk _]]]]]]].
  - unfold free_slots. cbn [initial_state HIDPoolIndexQueueInitialized HIDPoolIndexQueue app].
    f_equal. change HID_MAX_NUM_DEVICES with 128%nat. lia.
  - assumption.
  - intros d _ [].
  - cbn. lia.
  - cbn [initial_state _lastGeneratedHidHandle]. lia.
  - exists rs, s. split; [exact Hrun|]. split; [exact Hres|].
    split; [exact Hdl|]. split; [exact Hfree|].
    intros k Hlt. destruct (Hk k Hlt) as [Hm Hv].
    cbn [Nat.add initial_state _lastGeneratedHidHandle] in Hm, Hv.
    split; [exact Hm | lia].
Qed.

(** X4.  While fewer than 2^32 - 1 attaches and detaches have been
    run since program start, the handles of the registered devices
    grow strictly along the registry, and looking a registered
    device up by the handle in its slot finds that device, leaves
    the state as it was and opens nothing. *)
Theorem lookup_by_handle_finds_device
        (pool : nat -> HID_t) (objs : DevRef -> Device B) (m : Memory)
        (ops : list RegistryOp) :
  Z.of_nat (length ops) < 2 ^ 32 - 1 ->
  exists rs s,
    run_ops ops (initial_state pool objs m) = Some (rs, s) /\
    StronglySorted Z.lt (map (handle_at s) (deviceList s)) /\
    (forall d, In d (deviceList s) ->
               exists h, slot_handle s d = Some h /\
                         2 <= h <= _lastGeneratedHidHandle s /\
                         GetDeviceByHandle h false s =
                         Some (Some d, s, [EvLock; EvUnlock])).
Proof.
  intros Hn.
  destruct (run_ops_handles ops _ (registry_wf_initial pool objs m)
                            (handles_wf_initial pool objs m))
    as [rs [s [Hrun [Hwf [_ [Hsorted Hall]]]]]].
  { cbn [initial_state _lastGeneratedHidHandle]. lia. }
  exists rs, s. split; [exact Hrun|]. split; [exact Hsorted|].
  intros d Hd.
  pose proof Hwf as [[_ [Hbound _]] _].
  exists (handle_at s d).
  rewrite Forall_forall in Hall.
  split; [|split; [apply Hall; assumption|]].
  - unfold handle_at, slot_handle.
    destruct (m_hid (objects s d)) as [i|] eqn:Hi; [reflexivity|].
    exfalso. apply (Hbound d Hd). assumption.
  - rewrite (GetDeviceByHandle_run _ false s Hbound).
    rewrite (find_unique_handle _ (handle_at s) d Hsorted Hd). reflexivity.
Qed.

(** X5.  While fewer than 2^32 - 1 attaches and detaches have been
    run since program start, a handle below 2 (so the values 0 and
    1) or above the last generated handle belongs to no device:
    looking it up gives nothing, with or without open-if-closed,
    opens no device and leaves the state as it was. *)
Theorem undispensed_handle_resolves_to_nothing
        (pool : nat -> HID_t) (objs : DevRef -> Device B) (m : Memory)
        (ops : list RegistryOp) :
  Z.of_nat (length ops) < 2 ^ 32 - 1 ->
  exists rs s,
    run_ops ops (initial_state pool objs m) = Some (rs, s) /\
    forall (h : Z) (openIfClosed : bool),
      h < 2 \/ _lastGeneratedHidHandle s < h ->
      GetDeviceByHandle h openIfClosed s = Some (None, s, [EvLock; EvUnlock]).
Proof.
  intros Hn.
  destruct (run_ops_handles ops _ (registry_wf_initial pool objs m)
                            (handles_wf_initial pool objs m))
    as [rs [s [Hrun [Hwf [_ [_ Hall]]]]]].
  { cbn [initial_state _lastGeneratedHidHandle]. lia. }
  exists rs, s. split; [exact Hrun|].
  intros h b Hh.
  pose proof Hwf as [[_ [Hbound _]] _].
  rewrite (GetDeviceByHandle_run _ b s Hbound).
  rewrite find_none_all; [reflexivity|].
  intros x Hx. rewrite Forall_forall in Hall. specialize (Hall x Hx).
  apply Z.eqb_neq. lia.
Qed.

(** X6.  In a state where every registered device has a slot, a
    plain lookup by handle changes nothing, touches only the mutex,
    and gives the first registered device whose slot carries the
    handle, or nothing when no registered device carries it.  The
    lookup with open-if-closed gives the same answer when nothing is
    found or the device found is opened; on a closed device it calls
    Open once, after the mutex is released, and gives the device
    only if Open succeeded. *)
Theorem lookup_opens_closed_device s (h : Z) :
  registry_inv s ->
  exists found,
    GetDeviceByHandle h false s = Some (found, s, [EvLock; EvUnlock]) /\
    match found with
    | Some d =>
        (exists l1 l2, deviceList s = l1 ++ d :: l2 /\
                       forall x, In x l1 -> slot_handle s x <> Some h) /\
        slot_handle s d = Some h /\
        GetDeviceByHandle h true s =
        if dev_IsOpened (m_impl (objects s d)) then
          Some (Some d, s, [EvLock; EvUnlock])
        else
          Some (if fst (dev_Open (m_impl (objects s d))) then Some d else None,
                set_objects
                  (update (objects s) d
                     (Device_set_impl (objects s d)
                        (snd (dev_Open (m_impl (objects s d)))))) s,
                [EvLock; EvUnlock; EvDeviceOpen d])
    | None =>
        (forall d, In d (deviceList s) -> slot_handle s d <> Some h) /\
        GetDeviceByHandle h true s = Some (None, s, [EvLock; EvUnlock])
    end.
Proof.
  intros [_ [Hbound _]].
  rewrite !(GetDeviceByHandle_run _ _ s Hbound).
  destruct (find (fun x => handle_at s x =? h) (deviceList s)) as [d|] eqn:Hfind.
  - exists (Some d). cbn [andb]. split; [reflexivity|].
    destruct (find_split _ _ _ Hfind) as [l1 [l2 [Hl [_ Hl1]]]].
    apply find_some in Hfind. destruct Hfind as [Hd Hh].
    apply Z.eqb_eq in Hh. split; [|split].
    + exists l1, l2. split; [exact Hl|].
      intros x Hx Hs. specialize (Hl1 x Hx). cbn beta in Hl1.
      unfold handle_at in Hl1. rewrite Hs, Z.eqb_refl in Hl1. discriminate.
    + unfold handle_at in Hh. destruct (slot_handle s d) as [h'|] eqn:Hs.
      * congruence.
      * exfalso. unfold slot_handle in Hs.
        destruct (m_hid (objects s d)) eqn:Hm; [discriminate|].
        apply (Hbound d Hd). assumption.
    + destruct (dev_IsOpened (m_impl (objects s d))); reflexivity.
  - exists None. split; [reflexivity|]. split; [|reflexivity].
    intros d Hd Hs. pose proof (find_none _ _ Hfind d Hd) as Hne.
    cbn beta in Hne. unfold handle_at in Hne. rewrite Hs in Hne.
    rewrite Z.eqb_refl in Hne. discriminate.
Qed.

End RegistryProperties.

Lemma one_device_inv (b : Scripted) : registry_inv (one_device b).
Proof.
  unfold registry_inv. split; [|split].
  - vm_compute. split; [discriminate | reflexivity].
  - intros d Hd. vm_compute in Hd. destruct Hd as [<-|[]].
    vm_compute. discriminate.
  - vm_compute. reflexivity.
Qed.

(** Devices 7 and 3 attached at program start: device 3 is second,
    in slot 1 with handle 3. *)
Lemma first_attaches_take_slots_in_order_witness :
  NoDup [7%nat; 3%nat] /\
  (length [7%nat; 3%nat] <= 128)%nat /\
  exists rs s,
    run_ops (map OpAttach [7%nat; 3%nat]) (boot pad) = Some (rs, s) /\
    m_hid (objects s 3%nat) = Some 1%nat /\
    handle (HIDPool s 1%nat) = 3.
Proof.
  assert (Hnd : NoDup [7%nat; 3%nat]).
  { constructor; [|constructor; [|constructor]].
    - intros [Heq|[]]. discriminate.
    - intros []. }
  assert (Hlen : (length [7%nat; 3%nat] <= 128)%nat) by (cbn; lia).
  split; [exact Hnd|]. split; [exact Hlen|].
  destruct (first_attaches_take_slots_in_order
              (fun _ => blank_HID) (fun _ => Device_new 0x057E 0x0337 0 0 0 pad)
              (fun _ => 0) [7%nat; 3%nat] Hnd Hlen)
    as [rs [s [Hrun [_ [_ [_ Hk]]]]]].
  exists rs, s. split; [exact Hrun|].
  destruct (Hk 1%nat) as [Hm Hv]; [cbn; lia|].
  split; [exact Hm | exact Hv].
Defined.

(** Devices 0 and 1 attached, 0 detached, 2 attached: the registry
    holds 1 and 2 with handles 3 and 4, and handle 4 finds device 2. *)
Lemma lookup_by_handle_finds_device_witness :
  Z.of_nat (length [OpAttach 0%nat; OpAttach 1%nat; OpDetach 0%nat; OpAttach 2%nat])
    < 2 ^ 32 - 1 /\
  exists rs s,
    run_ops [OpAttach 0%nat; OpAttach 1%nat; OpDetach 0%nat; OpAttach 2%nat] (boot pad)
      = Some (rs, s) /\
    deviceList s = [1%nat; 2%nat] /\
    map (handle_at s) (deviceList s) = [3; 4] /\
    result_of (GetDeviceByHandle 4 false s) = Some (Some 2%nat).
Proof.
  assert (Hn : Z.of_nat (length [OpAttach 0%nat; OpAttach 1%nat; OpDetach 0%nat;
                                 OpAttach 2%nat]) < 2 ^ 32 - 1) by (cbn; lia).
  split; [exact Hn|].
  destruct (lookup_by_handle_finds_device
              (fun _ => blank_HID) (fun _ => Device_new 0x057E 0x0337 0 0 0 pad)
              (fun _ => 0) _ Hn)
    as [rs [s [Hrun [_ Hall]]]].
  exists rs, s. split; [exact Hrun|].
  vm_compute in Hrun. injection Hrun as <- <-.
  split; [vm_compute; reflexivity|]. split; [vm_compute; reflexivity|].
  destruct (Hall 2%nat) as [h [Hs [_ Hget]]].
  { vm_compute. right. left. reflexivity. }
  vm_compute in Hs. injection Hs as <-.
  rewrite Hget. reflexivity.
Defined.

(** After the same run, handle 1 resolves to nothing. *)
Lemma undispensed_handle_resolves_to_nothing_witness :
  Z.of_nat (length [OpAttach 0%nat; OpAttach 1%nat; OpDetach 0%nat; OpAttach 2%nat])
    < 2 ^ 32 - 1 /\
  exists rs s,
    run_ops [OpAttach 0%nat; OpAttach 1%nat; OpDetach 0%nat; OpAttach 2%nat] (boot pad)
      = Some (rs, s) /\
    GetDeviceByHandle 1 true s = Some (None, s, [EvLock; EvUnlock]).
Proof.
  assert (Hn : Z.of_nat (length [OpAttach 0%nat; OpAttach 1%nat; OpDetach 0%nat;
                                 OpAttach 2%nat]) < 2 ^ 32 - 1) by (cbn; lia).
  split; [exact Hn|].
  destruct (undispensed_handle_resolves_to_nothing
              (fun _ => blank_HID) (fun _ => Device_new 0x057E 0x0337 0 0 0 pad)
              (fun _ => 0) _ Hn)
    as [rs [s [Hrun Hnone]]].
  exists rs, s. split; [exact Hrun|].
  apply Hnone. left. lia.
Defined.

(** Handle 2 belongs to a closed pad that cannot be opened: the
    plain lookup finds it, the opening lookup tries Open and gives
    nothing. *)
Lemma lookup_opens_closed_device_witness :
  registry_inv (one_device pad_closed) /\
  result_of (GetDeviceByHandle 2 false (one_device pad_closed)) = Some (Some 0%nat) /\
  result_of (GetDeviceByHandle 2 true (one_device pad_closed)) = Some None /\
  log_of (GetDeviceByHandle 2 true (one_device pad_closed)) =
    Some [EvLock; EvUnlock; EvDeviceOpen 0%nat].
Proof.
  split; [exact (one_device_inv pad_closed)|].
  destruct (lookup_opens_closed_device (one_device pad_closed) 2
                                       (one_device_inv pad_closed))
    as [found [Hplain Hmatch]].
  assert (Hc : result_of (GetDeviceByHandle 2 false (one_device pad_closed)) =
               Some (Some 0%nat)) by (vm_compute; reflexivity).
  split; [exact Hc|].
  rewrite Hplain in Hc. cbn [result_of] in Hc. injection Hc as ->.
  destruct Hmatch as [_ [_ Hopen]].
  rewrite Hopen. split; vm_compute; reflexivity.
Defined.

Lemma filter_queued_queued {A : Type} (f : A -> MPTR) (g : A -> list Arg) (l : list A) :
  filter is_queued_callback (map (fun x => EvAsyncCallbackAdd (f x) (g x)) l) =
  map (fun x => EvAsyncCallbackAdd (f x) (g x)) l.
Proof.
  induction l as [|x l IH]; cbn [map filter is_queued_callback];
    [reflexivity | rewrite IH; reflexivity].
Qed.

Lemma erase_first_last (d : DevRef) (l : list DevRef) :
  ~ In d l -> erase_first d (l ++ [d]) = l.
Proof.
  induction l as [|x l IH]; cbn [app erase_first In]; intros Hn.
  - rewrite Nat.eqb_refl. reflexivity.
  - destruct (Nat.eqb_spec d x) as [->|Hne].
    + exfalso. apply Hn. left. reflexivity.
    + f_equal. apply IH. intros Hin. apply Hn. right. assumption.
Qed.

Lemma filter_absent (c : MPTR) (l : list MPTR) :
  ~ In c l -> filter (fun x => negb (x =? c)) l = l.
Proof.
  induction l as [|x l IH]; cbn [filter In]; intros Hn; [reflexivity|].
  destruct (Z.eqb_spec x c) as [->|Hne]; cbn [negb].
  - exfalso. apply Hn. left. reflexivity.
  - f_equal. apply IH. intros Hin. apply Hn. right. assumption.
Qed.

Section ClientProperties.

Context {B : Type} `{DeviceImpl B}.

Implicit Types (s : State B) (d device : DevRef).

Lemma export_HIDAddClient_run s (hidClient callbackFuncMPTR : MPTR) :
  export_HIDAddClient hidClient callbackFuncMPTR s =
  Some (0,
        set_HIDClientList (hidClient :: HIDClientList s)
          (set_mem (store_uint32be (mem s) hidClient callbackFuncMPTR) s),
        [EvLock; EvLock; EvUnlock] ++
        map (fun d => EvPPCCoreCallback (uint32 callbackFuncMPTR)
                        [Word hidClient; HIDAddr (m_hid (objects s d));
                         Word HID_CALLBACK_ATTACH])
            (deviceList s) ++ [EvUnlock]).
Proof.
  unfold export_HIDAddClient, lock_guard, AttachClientToList, lock_guard.
  cbv [bind modify get emit ret]. state_proj.
  rewrite notify_attach_inline. state_proj.
  rewrite load_store_uint32be.
  cbn [app]. rewrite ?app_nil_r, <- ?app_assoc. cbn [app]. reflexivity.
Qed.

Lemma export_HIDDelClient_run s (hidClient : MPTR) :
  export_HIDDelClient hidClient s =
  Some (0,
        set_HIDClientList
          (filter (fun c => negb (c =? hidClient)) (HIDClientList s)) s,
        [EvLock; EvLock; EvUnlock] ++
        map (fun d => EvPPCCoreCallback (load_uint32be (mem s) hidClient)
                        [Word hidClient; HIDAddr (m_hid (objects s d));
                         Word HID_CALLBACK_DETACH])
            (deviceList s) ++ [EvUnlock]).
Proof.
  unfold export_HIDDelClient, lock_guard, DetachClientFromList, lock_guard.
  cbv [bind modify get emit ret]. state_proj.
  rewrite notify_detach_inline. state_proj.
  cbn [app]. rewrite ?app_nil_r, <- ?app_assoc. cbn [app]. reflexivity.
Qed.

Lemma FindDeviceById_in_find (objs : DevRef -> Device B) (l : list DevRef) (v p : Z) :
  FindDeviceById_in objs l v p = find (fun d => matches_id (objs d) v p) l.
Proof.
  induction l as [|x l IH]; cbn [FindDeviceById_in find]; [reflexivity|].
  unfold matches_id at 1.
  destruct ((m_vendorId (objs x) =? v) && (m_productId (objs x) =? p));
    [reflexivity | exact IH].
Qed.

(** X7.  [FindDeviceById] changes nothing and touches only the
    mutex.  It gives the first device of the registry whose vendor
    and product id both match, so of two registered interfaces of
    one product it always gives the one attached earlier; it gives
    nothing exactly when no registered device matches. *)
Theorem FindDeviceById_first_match s (vendorId productId : Z) :
  exists r,
    FindDeviceById vendorId productId s = Some (r, s, [EvLock; EvUnlock]) /\
    match r with
    | Some d =>
        exists l1 l2,
          deviceList s = l1 ++ d :: l2 /\
          matches_id (objects s d) vendorId productId = true /\
          forall x, In x l1 -> matches_id (objects s x) vendorId productId = false
    | None =>
        forall d, In d (deviceList s) ->
                  matches_id (objects s d) vendorId productId = false
    end.
Proof.
  unfold FindDeviceById, lock_guard. cbv [bind get emit ret]. cbn [app].
  rewrite FindDeviceById_in_find.
  destruct (find (fun d => matches_id (objects s d) vendorId productId) (deviceList s))
    as [d|] eqn:Hfind.
  - exists (Some d). split; [reflexivity|]. apply find_split in Hfind. exact Hfind.
  - exists None. split; [reflexivity|].
    intros d Hd. apply (find_none _ _ Hfind d Hd).
Qed.

(** X8.  Registering a client and then attaching a device: the
    attach queues one notification per client and runs none inline,
    and the client registered last is notified first, with the
    callback address it registered; the clients from before follow
    in their order. *)
Theorem newest_client_is_notified_first
        s (hidClient callbackFuncMPTR : MPTR) d (i : nat) (rest : list nat) :
  ~ In d (deviceList s) ->
  free_slots s = i :: rest ->
  exists s1 t1 s2 t2,
    export_HIDAddClient hidClient callbackFuncMPTR s = Some (0, s1, t1) /\
    AttachDevice d s1 = Some (true, s2, t2) /\
    filter is_inline_callback t2 = [] /\
    filter is_queued_callback t2 =
    EvAsyncCallbackAdd (uint32 callbackFuncMPTR)
      [Word hidClient; HIDAddr (Some i); Word HID_CALLBACK_ATTACH]
    :: map (fun c => EvAsyncCallbackAdd (load_uint32be (mem s1) c)
                       [Word c; HIDAddr (Some i); Word HID_CALLBACK_ATTACH])
           (HIDClientList s).
Proof.
  intros Hnot Hfree.
  rewrite export_HIDAddClient_run.
  set (s1 := set_HIDClientList (hidClient :: HIDClientList s)
               (set_mem (store_uint32be (mem s) hidClient callbackFuncMPTR) s)).
  destruct (AttachDevice_ok s1 d i rest) as [s2 [Hrun _]].
  { apply is_attached_not_In. exact Hnot. }
  { exact Hfree. }
  exists s1. eexists. exists s2. eexists.
  split; [reflexivity|]. split; [exact Hrun|].
  cbn [app filter is_inline_callback is_queued_callback].
  rewrite !filter_app, filter_inline_queued, filter_queued_queued.
  cbn [filter is_inline_callback is_queued_callback app].
  split; [reflexivity|].
  rewrite app_nil_r. subst s1. state_proj. cbn [map].
  rewrite load_store_uint32be. reflexivity.
Qed.

(** X9.  Attaching an unregistered device and detaching it again
    gives back the registry, the client list and memory as they
    were, and closes the device.  The slot it had goes to the back
    of the free queue, so every other free slot is handed out before
    it; the handle counter stays advanced, so the handle is not
    handed out again; and the device still points at the released
    slot, which still holds that handle. *)
Theorem attach_then_detach s d (i : nat) (rest : list nat) :
  ~ In d (deviceList s) ->
  free_slots s = i :: rest ->
  exists s1 t1 s2 t2,
    AttachDevice d s = Some (true, s1, t1) /\
    DetachDevice d s1 = Some (tt, s2, t2) /\
    deviceList s2 = deviceList s /\
    HIDClientList s2 = HIDClientList s /\
    mem s2 = mem s /\
    free_slots s2 = rest ++ [i] /\
    _lastGeneratedHidHandle s2 = uint32 (_lastGeneratedHidHandle s + 1) /\
    m_hid (objects s2 d) = Some i /\
    handle (HIDPool s2 i) = uint32 (_lastGeneratedHidHandle s + 1) /\
    m_impl (objects s2 d) = dev_Close (m_impl (objects s d)).
Proof.
  intros Hnot Hfree.
  destruct (AttachDevice_ok s d i rest) as
      [s1 [Hrun1 [Hdl1 [Hcl1 [Hlast1 [Hinit1 [Hq1 [Hh1 [_ [Hobj1 [_ Hmem1]]]]]]]]]]].
  { apply is_attached_not_In. exact Hnot. }
  { exact Hfree. }
  destruct (DetachDevice_ok s1 d i) as
      [s2 [Hrun2 [Hdl2 [Hcl2 [Hlast2 [Hinit2 [Hq2 [Hpool2 [Hobj2 [_ Hmem2]]]]]]]]]].
  { apply is_attached_In. rewrite Hdl1. apply in_or_app. right. left. reflexivity. }
  { rewrite Hobj1. reflexivity. }
  exists s1. eexists. exists s2. eexists.
  split; [exact Hrun1|]. split; [exact Hrun2|].
  rewrite Hdl2, Hdl1, (erase_first_last d _ Hnot), Hcl2, Hcl1, Hmem2, Hmem1.
  rewrite (free_slots_initialized _ Hinit2), Hq2, (free_slots_initialized _ Hinit1), Hq1.
  rewrite Hlast2, Hlast1, Hobj2, Hpool2, Hh1, Hobj1.
  repeat split; reflexivity.
Qed.

(** X10.  Removing a client that is not in the client list leaves
    the whole state as it was, and all the same runs one detach
    callback inline for every registered device, in registry order,
    at whatever callback address the client's memory holds. *)
Theorem DelClient_of_unregistered_client s (hidClient : MPTR) :
  ~ In hidClient (HIDClientList s) ->
  export_HIDDelClient hidClient s =
  Some (0, s,
        [EvLock; EvLock; EvUnlock] ++
        map (fun d => EvPPCCoreCallback (load_uint32be (mem s) hidClient)
                        [Word hidClient; HIDAddr (m_hid (objects s d));
                         Word HID_CALLBACK_DETACH])
            (deviceList s) ++ [EvUnlock]).
Proof.
  intros Hnot. rewrite export_HIDDelClient_run, (filter_absent _ _ Hnot).
  unfold set_HIDClientList. rewrite state_eta. reflexivity.
Qed.

(** X11.  [HIDAddClient] does not look for an earlier registration:
    a client registered twice is in the client list twice, with the
    callback address of the second call for both entries (they share
    the field), and one [HIDDelClient] takes out both entries and
    leaves the other clients in their order. *)
Theorem client_registered_twice s (hidClient f g : MPTR) :
  ~ In hidClient (HIDClientList s) ->
  exists s1 t1 s2 t2 s3 t3,
    export_HIDAddClient hidClient f s = Some (0, s1, t1) /\
    export_HIDAddClient hidClient g s1 = Some (0, s2, t2) /\
    HIDClientList s2 = hidClient :: hidClient :: HIDClientList s /\
    load_uint32be (mem s2) hidClient = uint32 g /\
    export_HIDDelClient hidClient s2 = Some (0, s3, t3) /\
    HIDClientList s3 = HIDClientList s.
Proof.
  intros Hnot. do 6 eexists.
  split; [apply export_HIDAddClient_run|].
  split; [apply export_HIDAddClient_run|].
  split; [reflexivity|]. state_proj.
  split; [apply load_store_uint32be|].
  split; [apply export_HIDDelClient_run|]. state_proj.
  cbn [filter]. rewrite Z.eqb_refl. cbn [negb].
  apply filter_absent. exact Hnot.
Qed.

End ClientProperties.

(** A first client registers at program start, then device 0 is
    attached: one queued notification, for that client. *)
Lemma newest_client_is_notified_first_witness :
  ~ In 0%nat (deviceList (boot pad)) /\
  free_slots (boot pad) = 0%nat :: seq 1 127 /\
  exists s1 t1 s2 t2,
    export_HIDAddClient 0x2000 0x8000 (boot pad) = Some (0, s1, t1) /\
    AttachDevice 0%nat s1 = Some (true, s2, t2) /\
    filter is_queued_callback t2 =
    [EvAsyncCallbackAdd 0x8000 [Word 0x2000; HIDAddr (Some 0%nat); Word 1]].
Proof.
  assert (Hnot : ~ In 0%nat (deviceList (boot pad))) by (intros []).
  assert (Hfree : free_slots (boot pad) = 0%nat :: seq 1 127) by reflexivity.
  split; [exact Hnot|]. split; [exact Hfree|].
  destruct (newest_client_is_notified_first (boot pad) 0x2000 0x8000 0%nat 0%nat
                                            (seq 1 127) Hnot Hfree)
    as [s1 [t1 [s2 [t2 [Hadd [Hatt [_ Hq]]]]]]].
  exists s1, t1, s2, t2. split; [exact Hadd|]. split; [exact Hatt|].
  rewrite Hq. reflexivity.
Defined.

(** Device 0 attached and detached at program start: slot 0 is last
    in the queue and the counter stands at 2. *)
Lemma attach_then_detach_witness :
  ~ In 0%nat (deviceList (boot pad)) /\
  free_slots (boot pad) = 0%nat :: seq 1 127 /\
  exists s1 t1 s2 t2,
    AttachDevice 0%nat (boot pad) = Some (true, s1, t1) /\
    DetachDevice 0%nat s1 = Some (tt, s2, t2) /\
    deviceList s2 = [] /\
    free_slots s2 = seq 1 127 ++ [0%nat] /\
    _lastGeneratedHidHandle s2 = 2 /\
    m_hid (objects s2 0%nat) = Some 0%nat.
Proof.
  assert (Hnot : ~ In 0%nat (deviceList (boot pad))) by (intros []).
  assert (Hfree : free_slots (boot pad) = 0%nat :: seq 1 127) by reflexivity.
  split; [exact Hnot|]. split; [exact Hfree|].
  destruct (attach_then_detach (boot pad) 0%nat 0%nat (seq 1 127) Hnot Hfree)
    as [s1 [t1 [s2 [t2 [Hatt [Hdet [Hdl [_ [_ [Hq [Hlast [Hhid _]]]]]]]]]]]].
  exists s1, t1, s2, t2. split; [exact Hatt|]. split; [exact Hdet|].
  split; [exact Hdl|]. split; [exact Hq|]. split; [exact Hlast | exact Hhid].
Defined.

(** No client is registered, device 0 is attached: removing client
    0x2000 changes nothing and runs one detach callback. *)
Lemma DelClient_of_unregistered_client_witness :
  ~ In 0x2000 (HIDClientList (one_device pad)) /\
  export_HIDDelClient 0x2000 (one_device pad) =
  Some (0, one_device pad,
        [EvLock; EvLock; EvUnlock;
         EvPPCCoreCallback 0 [Word 0x2000; HIDAddr (Some 0%nat); Word 0];
         EvUnlock]).
Proof.
  assert (Hnot : ~ In 0x2000 (HIDClientList (one_device pad))) by (intros []).
  split; [exact Hnot|].
  rewrite (DelClient_of_unregistered_client (one_device pad) 0x2000 Hnot).
  vm_compute. reflexivity.
Defined.

(** Client 0x2000 registers with callback 0x8000, then with 0x9000. *)
Lemma client_registered_twice_witness :
  ~ In 0x2000 (HIDClientList (boot pad)) /\
  exists s1 t1 s2 t2 s3 t3,
    export_HIDAddClient 0x2000 0x8000 (boot pad) = Some (0, s1, t1) /\
    export_HIDAddClient 0x2000 0x9000 s1 = Some (0, s2, t2) /\
    HIDClientList s2 = [0x2000; 0x2000] /\
    load_uint32be (mem s2) 0x2000 = 0x9000 /\
    export_HIDDelClient 0x2000 s2 = Some (0, s3, t3) /\
    HIDClientList s3 = [].
Proof.
  assert (Hnot : ~ In 0x2000 (HIDClientList (boot pad))) by (intros []).
  split; [exact Hnot|].
  destruct (client_registered_twice (boot pad) 0x2000 0x8000 0x9000 Hnot)
    as [s1 [t1 [s2 [t2 [s3 [t3 [H1 [H2 [Hl [Hcb [H3 Hl3]]]]]]]]]]].
  exists s1, t1, s2, t2, s3, t3.
  split; [exact H1|]. split; [exact H2|]. split; [exact Hl|].
  split; [exact Hcb|]. split; [exact H3 | exact Hl3].
Defined.

Ltac run_transfer :=
  unfold run_task, _hidGetDescriptorAsync, _hidSetIdleAsync, _hidSetProtocolAsync,
    _hidSetReportAsync, _hidSetReportSync,
    Device_GetDescriptor, Device_SetIdle, Device_SetProtocol, Device_SetReport,
    Device_hid_handle, DoHIDTransferCallback, store_impl;
  cbv [bind get ret modify emit]; state_proj.

Section TransferProperties.

Context {B : Type} `{DeviceImpl B}.

Implicit Types (s : State B) (d device : DevRef).

(** A device that a lookup gives carries the handle asked for, also
    after the lookup has opened it. *)
Lemma GetDeviceByHandle_sound s (h : Z) (openIfClosed : bool) d s1 (t1 : list Event) :
  registry_inv s ->
  GetDeviceByHandle h openIfClosed s = Some (Some d, s1, t1) ->
  exists i, m_hid (objects s1 d) = Some i /\ handle (HIDPool s1 i) = h.
Proof.
  intros [_ [Hbound _]] Hrun.
  rewrite (GetDeviceByHandle_run _ _ s Hbound) in Hrun.
  destruct (find (fun x => handle_at s x =? h) (deviceList s)) as [d'|] eqn:Hfind;
    [|discriminate].
  apply find_some in Hfind. destruct Hfind as [Hd' Hh]. apply Z.eqb_eq in Hh.
  unfold handle_at, slot_handle in Hh.
  destruct (m_hid (objects s d')) as [i|] eqn:Hi;
    [|exfalso; apply (Hbound d' Hd'); assumption].
  destruct (openIfClosed && negb (dev_IsOpened (m_impl (objects s d')))).
  - destruct (fst (dev_Open (m_impl (objects s d')))); [|discriminate].
    injection Hrun as <- <- _. exists i. state_proj. rewrite update_same.
    split; [exact Hi | exact Hh].
  - injection Hrun as <- <- _. exists i. split; [exact Hi | exact Hh].
Qed.

(** X12.  With no callback, on a handle that resolves: HIDSetIdle
    and HIDSetProtocol return 0 when the device reports success and
    -1 when it reports failure; HIDSetReport returns the data length,
    read as a [sint32], on success and 0, not -1, on failure. *)
Theorem sync_control_status
        s (hidHandle : Z) d s1 (t1 : list Event)
        (ifIndex reportId duration protocol reportType : Z) (data : MPTR)
        (dataLength : Z) (callbackParamMPTR : MPTR) :
  GetDeviceByHandle hidHandle true s = Some (Some d, s1, t1) ->
  result_of (export_HIDSetIdle hidHandle ifIndex reportId duration
                               MPTR_NULL callbackParamMPTR s) =
    Some (if fst (dev_SetIdle (m_impl (objects s1 d)) ifIndex reportId duration)
          then 0 else -1) /\
  result_of (export_HIDSetProtocol hidHandle ifIndex protocol
                                   MPTR_NULL callbackParamMPTR s) =
    Some (if fst (dev_SetProtocol (m_impl (objects s1 d)) ifIndex protocol)
          then 0 else -1) /\
  result_of (export_HIDSetReport hidHandle reportType reportId data dataLength
                                 MPTR_NULL callbackParamMPTR s) =
    Some (if fst (dev_SetReport (m_impl (objects s1 d))
                                (mkReportMessage reportType reportId data dataLength)
                                (mem s1))
          then sint32 dataLength else 0).
Proof.
  intros Hres.
  unfold export_HIDSetIdle, export_HIDSetProtocol, export_HIDSetReport.
  rewrite !(resolved_bind _ _ _ _ _ _ Hres).
  cbn [Z.eqb MPTR_NULL]. run_transfer.
  destruct (dev_SetIdle (m_impl (objects s1 d)) ifIndex reportId duration) as [ok1 b1].
  destruct (dev_SetProtocol (m_impl (objects s1 d)) ifIndex protocol) as [ok2 b2].
  destruct (dev_SetReport (m_impl (objects s1 d))
                          (mkReportMessage reportType reportId data dataLength)
                          (mem s1)) as [ok3 b3].
  cbn [fst]. destruct ok1, ok2, ok3; repeat split; reflexivity.
Qed.

(** X13.  In a state where every registered device has a slot, let
    a handle resolve to a device.  The worker of an asynchronous
    GetDescriptor, SetIdle, SetProtocol or SetReport request on it
    calls the device once and queues exactly one completion
    callback.  The callback carries the handle the request was made
    with, error code 0 on success and 0xFFFFFFFF (-1) on failure,
    and the callback parameter; buffer and length are 0, except for
    SetReport, which passes the data address and the length on
    success and on failure alike. *)
Theorem async_completion_carries_request_handle
        s (hidHandle : Z) d s1 (t1 : list Event)
        (descType descIndex lang : Z) (output : MPTR) (outputMaxLength : Z)
        (ifIndex reportId duration protocol reportType : Z) (data : MPTR)
        (dataLength : Z) (cbF cbP : MPTR) :
  registry_inv s ->
  GetDeviceByHandle hidHandle true s = Some (Some d, s1, t1) ->
  log_of (run_task (Task_hidGetDescriptorAsync d descType descIndex lang output
                      outputMaxLength cbF cbP) s1) =
    Some [EvDeviceGetDescriptor d;
          EvAsyncCallbackAdd cbF
            [Word hidHandle;
             Word (if fst (fst (dev_GetDescriptor (m_impl (objects s1 d)) descType
                                  descIndex lang output outputMaxLength (mem s1)))
                   then 0 else 4294967295);
             Word 0; Word 0; Word cbP]] /\
  log_of (run_task (Task_hidSetIdleAsync d ifIndex reportId duration cbF cbP) s1) =
    Some [EvDeviceSetIdle d;
          EvAsyncCallbackAdd cbF
            [Word hidHandle;
             Word (if fst (dev_SetIdle (m_impl (objects s1 d)) ifIndex reportId duration)
                   then 0 else 4294967295);
             Word 0; Word 0; Word cbP]] /\
  log_of (run_task (Task_hidSetProtocolAsync d ifIndex protocol cbF cbP) s1) =
    Some [EvDeviceSetProtocol d;
          EvAsyncCallbackAdd cbF
            [Word hidHandle;
             Word (if fst (dev_SetProtocol (m_impl (objects s1 d)) ifIndex protocol)
                   then 0 else 4294967295);
             Word 0; Word 0; Word cbP]] /\
  log_of (run_task (Task_hidSetReportAsync d reportType reportId data dataLength
                      cbF cbP) s1) =
    Some [EvDeviceSetReport d;
          EvAsyncCallbackAdd cbF
            [Word hidHandle;
             Word (if fst (dev_SetReport (m_impl (objects s1 d))
                             (mkReportMessage reportType reportId data dataLength)
                             (mem s1))
                   then 0 else 4294967295);
             Word data; Word (sint32 dataLength); Word cbP]].
Proof.
  intros Hinv Hres.
  destruct (GetDeviceByHandle_sound s hidHandle true d s1 t1 Hinv Hres) as [i [Hi Hh]].
  run_transfer.
  destruct (dev_GetDescriptor (m_impl (objects s1 d)) descType descIndex lang output
                              outputMaxLength (mem s1)) as [[ok0 m0] b0].
  destruct (dev_SetIdle (m_impl (objects s1 d)) ifIndex reportId duration) as [ok1 b1].
  destruct (dev_SetProtocol (m_impl (objects s1 d)) ifIndex protocol) as [ok2 b2].
  destruct (dev_SetReport (m_impl (objects s1 d))
                          (mkReportMessage reportType reportId data dataLength)
                          (mem s1)) as [ok3 b3].
  state_proj. rewrite !update_same. cbn [m_hid Device_set_impl fst].
  rewrite Hi, Hh.
  destruct ok0, ok1, ok2, ok3; repeat split; reflexivity.
Qed.

End TransferProperties.

(** Handle 2 resolves to an opened pad that refuses every control
    request: SetIdle and SetProtocol return -1, SetReport returns 0. *)
Lemma sync_control_status_witness :
  GetDeviceByHandle 2 true (one_device pad_timeout) =
    Some (Some 0%nat, one_device pad_timeout, [EvLock; EvUnlock]) /\
  result_of (export_HIDSetIdle 2 0 0 0 MPTR_NULL 0 (one_device pad_timeout)) = Some (-1) /\
  result_of (export_HIDSetProtocol 2 0 1 MPTR_NULL 0 (one_device pad_timeout)) = Some (-1) /\
  result_of (export_HIDSetReport 2 2 0 0x1000 8 MPTR_NULL 0 (one_device pad_timeout)) =
    Some 0.
Proof.
  assert (Hres : GetDeviceByHandle 2 true (one_device pad_timeout) =
                 Some (Some 0%nat, one_device pad_timeout, [EvLock; EvUnlock]))
    by (vm_compute; reflexivity).
  split; [exact Hres|].
  destruct (sync_control_status (one_device pad_timeout) 2 0%nat _ _
                                0 0 0 1 2 0x1000 8 0 Hres) as [H1 [H2 H3]].
  rewrite H1, H2, H3. repeat split; vm_compute; reflexivity.
Defined.

(** The worker of an asynchronous SetIdle on that pad queues one
    callback with handle 2 and error code 0xFFFFFFFF. *)
Lemma async_completion_carries_request_handle_witness :
  registry_inv (one_device pad_timeout) /\
  GetDeviceByHandle 2 true (one_device pad_timeout) =
    Some (Some 0%nat, one_device pad_timeout, [EvLock; EvUnlock]) /\
  log_of (run_task (Task_hidSetIdleAsync 0%nat 0 0 0 0x500 7) (one_device pad_timeout)) =
    Some [EvDeviceSetIdle 0%nat;
          EvAsyncCallbackAdd 0x500 [Word 2; Word 4294967295; Word 0; Word 0; Word 7]].
Proof.
  assert (Hres : GetDeviceByHandle 2 true (one_device pad_timeout) =
                 Some (Some 0%nat, one_device pad_timeout, [EvLock; EvUnlock]))
    by (vm_compute; reflexivity).
  split; [exact (one_device_inv pad_timeout)|]. split; [exact Hres|].
  destruct (async_completion_carries_request_handle
              (one_device pad_timeout) 2 0%nat _ _ 1 0 0 0x1000 16 0 0 0 1 2 0x1000 8
              0x500 7 (one_device_inv pad_timeout) Hres) as [_ [Hidle _]].
  rewrite Hidle. vm_compute. reflexivity.
Defined.

(** ** Backends *)

Lemma map_Some_inj {A : Type} (l1 l2 : list A) :
  map Some l1 = map Some l2 -> l1 = l2.
Proof.
  revert l2. induction l1 as [|x l1 IH]; intros [|y l2]; cbn [map]; intros Heq;
    try discriminate; [reflexivity|].
  injection Heq as -> Heq. f_equal. apply IH. exact Heq.
Qed.

Lemma filter_absent_nat (d : DevRef) (l : list DevRef) :
  ~ In d l -> filter (fun x => negb (Nat.eqb x d)) l = l.
Proof.
  induction l as [|x l IH]; cbn [filter In]; intros Hn; [reflexivity|].
  destruct (Nat.eqb_spec x d) as [->|Hne]; cbn [negb].
  - exfalso. apply Hn. left. reflexivity.
  - f_equal. apply IH. intros Hin. apply Hn. right. assumption.
Qed.

Lemma filter_erase_first (d : DevRef) (l : list DevRef) :
  NoDup l -> filter (fun x => negb (Nat.eqb x d)) l = erase_first d l.
Proof.
  induction l as [|x l IH]; cbn [filter erase_first]; intros Hnd; [reflexivity|].
  inversion Hnd as [|? ? Hnotin Hnd']; subst.
  rewrite (Nat.eqb_sym x d).
  destruct (Nat.eqb_spec d x) as [->|Hne]; cbn [negb].
  - apply filter_absent_nat. assumption.
  - f_equal. apply IH. assumption.
Qed.

Section BackendProperties.

Context {B : Type} `{DeviceImpl B}.

Implicit Types (s : State B) (d device : DevRef) (b : Backend).

Lemma detach_each (l : list DevRef) : forall s,
  registry_wf s ->
  deviceList s = l ->
  exists s' t,
    for_each l (fun device => DetachDevice device) s = Some (tt, s', t) /\
    deviceList s' = [] /\
    registry_wf s'.
Proof.
  induction l as [|x l IH]; intros s Hwf Hdl; cbn [for_each].
  - exists s, []. split; [reflexivity|]. split; assumption.
  - pose proof Hwf as [Hinv _].
    assert (Hin : is_attached x (deviceList s) = true).
    { apply is_attached_In. rewrite Hdl. left. reflexivity. }
    destruct (m_hid (objects s x)) as [i|] eqn:Hi.
    2:{ exfalso. destruct Hinv as [_ [Hbound _]]. apply (Hbound x); [|assumption].
        rewrite Hdl. left. reflexivity. }
    destruct (DetachDevice_ok s x i Hin Hi) as [s1 [Hrun [Hdl1 _]]].
    rewrite Hdl in Hdl1. cbn [erase_first] in Hdl1. rewrite Nat.eqb_refl in Hdl1.
    destruct (IH s1 (DetachDevice_wf _ _ _ _ Hwf Hrun) Hdl1) as [s2 [t2 [Hrest [Hnil Hwf2]]]].
    do 2 eexists. split; [apply (bind_run _ _ _ _ _ _ _ _ _ Hrun Hrest)|].
    split; assumption.
Qed.

Lemma Backend_AttachDevice_inv b d s :
  backend_inv b s ->
  exists r b' s' t,
    Backend_AttachDevice b d s = Some ((r, b'), s', t) /\
    backend_inv b' s' /\
    m_isAttached b' = m_isAttached b.
Proof.
  intros [Hwf [Hmd Hdet]]. unfold Backend_AttachDevice.
  destruct (m_isAttached b) eqn:Hatt.
  - destruct (AttachDevice_total s d) as [r [s1 [t Hrun]]].
    pose proof (AttachDevice_wf _ _ _ _ _ Hwf Hrun) as Hwf1.
    unfold bind. rewrite Hrun. destruct r.
    + do 4 eexists. split; [reflexivity|]. split; [|reflexivity].
      split; [assumption|]. cbn [m_devices m_isAttached].
      split; [|discriminate].
      destruct (is_attached d (deviceList s)) eqn:Hin.
      { rewrite (AttachDevice_already s d Hin) in Hrun. discriminate. }
      destruct (free_slots s) as [|i rest] eqn:Hfree.
      { rewrite (AttachDevice_exhausted s d Hin Hfree) in Hrun. discriminate. }
      destruct (AttachDevice_ok s d i rest Hin Hfree) as [s2 [Hrun2 [Hdl _]]].
      rewrite Hrun in Hrun2. injection Hrun2 as <- _.
      rewrite Hdl, Hmd. reflexivity.
    + apply AttachDevice_refused in Hrun. subst s1.
      do 4 eexists. split; [reflexivity|]. split; [|exact Hatt].
      split; [assumption|].
      split; [assumption | intros Hoff; first [apply Hdet; reflexivity | congruence]].
  - do 4 eexists. split; [reflexivity|]. split; [|exact Hatt].
    split; [assumption|].
      split; [assumption | intros Hoff; first [apply Hdet; reflexivity | congruence]].
Qed.

Lemma Backend_DetachDevice_inv b d s :
  backend_inv b s ->
  exists b' s' t,
    Backend_DetachDevice b d s = Some (b', s', t) /\
    backend_inv b' s' /\
    m_isAttached b' = m_isAttached b.
Proof.
  intros [Hwf [Hmd Hdet]]. unfold Backend_DetachDevice.
  destruct (m_isAttached b) eqn:Hatt.
  - destruct (DetachDevice_inv s d (proj1 Hwf)) as [s1 [t [Hrun _]]].
    pose proof (DetachDevice_wf _ _ _ _ Hwf Hrun) as Hwf1.
    unfold bind. rewrite Hrun.
    do 3 eexists. split; [reflexivity|]. split; [|reflexivity].
    split; [assumption|]. cbn [m_devices m_isAttached]. split; [|discriminate].
    pose proof Hwf as [_ [Hnd _]].
    rewrite Hmd, (filter_erase_first d _ Hnd).
    destruct (is_attached d (deviceList s)) eqn:Hin.
    + destruct (m_hid (objects s d)) as [i|] eqn:Hi.
      * destruct (DetachDevice_ok s d i Hin Hi) as [s2 [Hrun2 [Hdl _]]].
        rewrite Hrun in Hrun2. injection Hrun2 as <- _. symmetry. exact Hdl.
      * exfalso. destruct Hwf as [[_ [Hbound _]] _].
        apply (Hbound d); [apply is_attached_In|]; assumption.
    + rewrite (DetachDevice_absent s d Hin) in Hrun. injection Hrun as <- _.
      apply erase_first_absent. apply is_attached_not_In. assumption.
  - do 3 eexists. split; [reflexivity|]. split; [|exact Hatt].
    split; [assumption|].
      split; [assumption | intros Hoff; first [apply Hdet; reflexivity | congruence]].
Qed.

Lemma Backend_DetachAllDevices_inv b s :
  backend_inv b s ->
  exists b' s' t,
    Backend_DetachAllDevices b s = Some (b', s', t) /\
    backend_inv b' s' /\
    m_isAttached b' = m_isAttached b /\
    m_devices b' = [].
Proof.
  intros [Hwf [Hmd Hdet]]. unfold Backend_DetachAllDevices.
  destruct (m_isAttached b) eqn:Hatt.
  - destruct (detach_each (m_devices b) s Hwf (eq_sym Hmd)) as [s1 [t [Hrun [Hnil Hwf1]]]].
    unfold bind. rewrite Hrun.
    do 3 eexists. split; [reflexivity|].
    cbn [m_devices m_isAttached]. split; [|split; reflexivity].
    split; [assumption|]. split; [symmetry; assumption | reflexivity].
  - do 3 eexists. split; [reflexivity|].
    split; [|split; [exact Hatt | apply Hdet; reflexivity]].
    split; [assumption|].
    split; [assumption | intros Hoff; apply Hdet; reflexivity].
Qed.

Lemma attach_each_inv (visible : list DevRef) : forall b s,
  backend_inv b s ->
  exists b' s' t,
    attach_each visible b s = Some (b', s', t) /\
    backend_inv b' s' /\
    m_isAttached b' = m_isAttached b.
Proof.
  induction visible as [|d visible IH]; intros b s Hinv; cbn [attach_each].
  - exists b, s, []. split; [reflexivity|]. split; [assumption | reflexivity].
  - destruct (Backend_AttachDevice_inv b d s Hinv) as [r [b1 [s1 [t1 [Hrun [Hinv1 Hatt1]]]]]].
    destruct (IH b1 s1 Hinv1) as [b2 [s2 [t2 [Hrest [Hinv2 Hatt2]]]]].
    do 3 eexists. split; [apply (bind_run _ _ _ _ _ _ _ _ _ Hrun Hrest)|].
    split; [assumption | congruence].
Qed.

Lemma run_backend_op_inv (op : BackendOp) b s :
  backend_inv b s ->
  exists b' s' t,
    run_backend_op op b s = Some (b', s', t) /\
    backend_inv b' s' /\
    (op = BOnDetach -> m_isAttached b' = false).
Proof.
  intros Hinv. destruct op as [d|d| |visible|]; cbn [run_backend_op].
  - destruct (Backend_AttachDevice_inv b d s Hinv) as [r [b1 [s1 [t1 [Hrun [Hinv1 _]]]]]].
    do 3 eexists. split; [apply (bind_run _ _ _ _ _ _ _ _ _ Hrun eq_refl)|].
    split; [assumption | discriminate].
  - destruct (Backend_DetachDevice_inv b d s Hinv) as [b1 [s1 [t1 [Hrun [Hinv1 _]]]]].
    do 3 eexists. split; [exact Hrun|]. split; [assumption | discriminate].
  - destruct (Backend_DetachAllDevices_inv b s Hinv) as [b1 [s1 [t1 [Hrun [Hinv1 _]]]]].
    do 3 eexists. split; [exact Hrun|]. split; [assumption | discriminate].
  - unfold Backend_OnAttach.
    destruct (attach_each_inv visible (mkBackend true (m_devices b)) s)
      as [b1 [s1 [t1 [Hrun [Hinv1 _]]]]].
    { destruct Hinv as [Hwf [Hmd _]]. split; [assumption|].
      split; [exact Hmd | discriminate]. }
    do 3 eexists. split; [exact Hrun|]. split; [assumption | discriminate].
  - unfold Backend_OnDetach.
    destruct (Backend_DetachAllDevices_inv b s Hinv)
      as [b1 [s1 [t1 [Hrun [[Hwf1 [Hmd1 _]] [_ Hnil]]]]]].
    do 3 eexists. split; [apply (bind_run _ _ _ _ _ _ _ _ _ Hrun eq_refl)|].
    cbn [m_isAttached]. split; [|reflexivity].
    split; [assumption|]. cbn [m_devices m_isAttached].
    split; [exact Hmd1 | intros _; exact Hnil].
Qed.

Lemma run_backend_inv (ops : list BackendOp) : forall b s,
  backend_inv b s ->
  exists b' s' t, run_backend ops b s = Some (b', s', t) /\ backend_inv b' s'.
Proof.
  induction ops as [|op ops IH]; intros b s Hinv; cbn [run_backend].
  - exists b, s, []. split; [reflexivity | assumption].
  - destruct (run_backend_op_inv op b s Hinv) as [b1 [s1 [t1 [Hrun [Hinv1 _]]]]].
    destruct (IH b1 s1 Hinv1) as [b2 [s2 [t2 [Hrest Hinv2]]]].
    do 3 eexists. split; [apply (bind_run _ _ _ _ _ _ _ _ _ Hrun Hrest) | assumption].
Qed.

Lemma backend_inv_initial (pool : nat -> HID_t) (objs : DevRef -> Device B) (m : Memory) :
  backend_inv Backend_new (initial_state pool objs m).
Proof.
  split; [apply registry_wf_initial|]. split; reflexivity.
Qed.

(** X14.  Let one backend be the only caller of the registry, from
    program start, through any sequence of its AttachDevice,
    DetachDevice, DetachAllDevices, OnDetach and OnAttach (with an
    [AttachVisibleDevices] that offers a list of devices to
    AttachDevice).  Every call completes; the backend's device list
    is the registry's, device for device and in the same order, with
    no device twice; and while the backend is detached the registry
    is empty and all 128 slots are free. *)
Theorem backend_mirrors_registry
        (pool : nat -> HID_t) (objs : DevRef -> Device B) (m : Memory)
        (ops : list BackendOp) :
  exists b s t,
    run_backend ops Backend_new (initial_state pool objs m) = Some (b, s, t) /\
    m_devices b = deviceList s /\
    NoDup (m_devices b) /\
    (m_isAttached b = false ->
     deviceList s = [] /\ length (free_slots s) = 128%nat).
Proof.
  destruct (run_backend_inv ops _ _ (backend_inv_initial pool objs m))
    as [b [s [t [Hrun [Hwf [Hmd Hdet]]]]]].
  exists b, s, t. split; [exact Hrun|]. split; [exact Hmd|].
  split; [rewrite Hmd; apply Hwf|].
  intros Hoff. specialize (Hdet Hoff). rewrite Hmd in Hdet.
  split; [exact Hdet|].
  destruct Hwf as [[_ [_ Hcount]] _]. rewrite Hdet in Hcount.
  exact Hcount.
Qed.

(** X15.  Under the same conditions, whatever the backend did
    before, OnDetach leaves it detached with an empty device list,
    the registry empty, and every slot of the pool free with no slot
    twice in the queue. *)
Theorem OnDetach_empties_registry
        (pool : nat -> HID_t) (objs : DevRef -> Device B) (m : Memory)
        (ops : list BackendOp) :
  exists b s t b' s' t',
    run_backend ops Backend_new (initial_state pool objs m) = Some (b, s, t) /\
    Backend_OnDetach b s = Some (b', s', t') /\
    m_isAttached b' = false /\
    m_devices b' = [] /\
    deviceList s' = [] /\
    Permutation (free_slots s') (seq 0 128).
Proof.
  destruct (run_backend_inv ops _ _ (backend_inv_initial pool objs m))
    as [b [s [t [Hrun Hinv]]]].
  destruct (run_backend_op_inv BOnDetach b s Hinv)
    as [b' [s' [t' [Hrun' [[Hwf [Hmd Hdet]] Hoff]]]]].
  specialize (Hoff eq_refl). specialize (Hdet Hoff).
  exists b, s, t, b', s', t'. split; [exact Hrun|]. split; [exact Hrun'|].
  split; [exact Hoff|]. split; [exact Hdet|].
  rewrite Hmd in Hdet. split; [exact Hdet|].
  destruct Hwf as [_ [_ [Hperm _]]]. unfold bound_slots in Hperm.
  rewrite Hdet in Hperm. cbn [map app] in Hperm.
  apply Permutation_map_inv in Hperm. destruct Hperm as [l [Heq Hperm]].
  apply map_Some_inj in Heq. subst l. apply Permutation_sym. exact Hperm.
Qed.

End BackendProperties.

(** A backend attaches devices 4 and 9, is detached, and is asked to
    attach device 4 again: the call fails and the registry stays
    empty. *)
Lemma backend_mirrors_registry_witness :
  exists b s t,
    run_backend [BOnAttach [4%nat; 9%nat]; BOnDetach; BAttachDevice 4%nat]
                Backend_new (boot pad) = Some (b, s, t) /\
    m_isAttached b = false /\
    m_devices b = [] /\
    deviceList s = [] /\
    length (free_slots s) = 128%nat.
Proof.
  destruct (backend_mirrors_registry
              (fun _ => blank_HID) (fun _ => Device_new 0x057E 0x0337 0 0 0 pad)
              (fun _ => 0)
              [BOnAttach [4%nat; 9%nat]; BOnDetach; BAttachDevice 4%nat])
    as [b [s [t [Hrun [Hmd [_ Hoff]]]]]].
  exists b, s, t. split; [exact Hrun|].
  assert (Hflag : m_isAttached b = false).
  { vm_compute in Hrun. injection Hrun as <- _ _. reflexivity. }
  destruct (Hoff Hflag) as [Hnil Hfree].
  split; [exact Hflag|]. split; [rewrite Hmd; exact Hnil|].
  split; [exact Hnil | exact Hfree].
Defined.
